(** * go-usda: a client for the USDA Food Composition Databases API

    A shallow embedding of the package [usda] (files [usda.go] and the
    facade file with the five convenience calls), together with models
    of the parts of the Go libraries the package calls: [strings],
    [unicode/utf8], [strconv], [net/url], [go-querystring/query],
    [encoding/json], [context] and [net/http].

    Go strings are byte sequences, so they are [string] (a list of
    8-bit [ascii]); Go [int] values are [Z]; Go maps with string keys
    are [gmap string _]; a Go slice is [option (list _)], with [None]
    the nil slice; a Go pointer to a struct is an [option]. *)

From Stdlib Require Import ZArith NArith Bool List Ascii String Lia.
From Stdlib Require Import DecimalString DecimalPos.
From stdpp Require Import gmap strings sorting.


Local Open Scope N_scope.

#[global] Arguments String.append !s1 s2 /.

Set Warnings "-register-all".

(** ** Errors

    Go's [error] values that the package can produce or pass along. *)

Inductive error : Type :=
| errorString (msg : string)               (* errors.New / fmt.Errorf *)
| EscapeError (s : string)                 (* url.EscapeError *)
| InvalidHostError (s : string)            (* url.InvalidHostError *)
| url_Error (op url : string) (err : error) (* *url.Error *)
| SyntaxError (msg : string)               (* *json.SyntaxError *)
| UnmarshalTypeError (value type : string) (* *json.UnmarshalTypeError *)
| io_EOF
| io_ErrUnexpectedEOF
| context_Canceled
| context_DeadlineExceeded.

(** A Go result pair [(v, err)] in which exactly one side is meaningful. *)
Abbreviation result A := (error + A)%type.

Definition bind {A B} (r : result A) (k : A -> result B) : result B :=
  match r with
  | inl e => inl e
  | inr a => k a
  end.

Declare Scope go_scope.
Delimit Scope go_scope with go.
Notation "'try' x <- r 'in' k" := (bind r (fun x => k))
  (at level 10, x pattern, r at level 100, k at level 200) : go_scope.
Local Open Scope go_scope.

(** A Go slice: [Nil] is the nil slice, [Slice []] an empty one. *)
Inductive slice (A : Type) : Type :=
| Nil
| Slice (l : list A).
Arguments Nil {A}.
Arguments Slice {A} l.

Definition items {A} (s : slice A) : list A :=
  match s with
  | Nil => []
  | Slice l => l
  end.

Definition len {A} (s : slice A) : nat := length (items s).

(** ** Bytes *)

Definition code (c : ascii) : N := N_of_ascii c.
Definition byte_of (n : N) : ascii := ascii_of_N n.

Definition between (lo hi c : ascii) : bool :=
  (code lo <=? code c) && (code c <=? code hi).

Definition isLower (c : ascii) : bool := between "a" "z" c.
Definition isUpper (c : ascii) : bool := between "A" "Z" c.
Definition isLetter (c : ascii) : bool := isLower c || isUpper c.
Definition isDigit (c : ascii) : bool := between "0" "9" c.

Definition oneOf (set : string) (c : ascii) : bool :=
  existsb (Ascii.eqb c) (list_ascii_of_string set).

(** ** Package strings (the functions used, on byte separators) *)

Module str.

Fixpoint Contains (s : string) (c : ascii) : bool :=
  match s with
  | EmptyString => false
  | String a r => Ascii.eqb a c || Contains r c
  end.

Fixpoint Count (s : string) (c : ascii) : nat :=
  match s with
  | EmptyString => O
  | String a r => (if Ascii.eqb a c then 1 else 0)%nat + Count r c
  end.

(** [strings.Cut s sep]: the text before and after the first [sep]. *)
Fixpoint Cut (s : string) (sep : ascii) : string * string * bool :=
  match s with
  | EmptyString => (EmptyString, EmptyString, false)
  | String a r =>
      if Ascii.eqb a sep then (EmptyString, r, true)
      else let '(b, t, f) := Cut r sep in (String a b, t, f)
  end.

(** The split at the last [sep], as [strings.LastIndex] is used:
    [None] when [sep] does not occur. *)
Fixpoint CutLast (s : string) (sep : ascii) : option (string * string) :=
  match s with
  | EmptyString => None
  | String a r =>
      match CutLast r sep with
      | Some (b, t) => Some (String a b, t)
      | None => if Ascii.eqb a sep then Some (EmptyString, r) else None
      end
  end.

Fixpoint HasPrefix (s p : string) {struct p} : bool :=
  match p with
  | EmptyString => true
  | String a p' =>
      match s with
      | String b s' => Ascii.eqb a b && HasPrefix s' p'
      | EmptyString => false
      end
  end.

Fixpoint HasSuffixByte (s : string) (c : ascii) : bool :=
  match s with
  | EmptyString => false
  | String a EmptyString => Ascii.eqb a c
  | String _ r => HasSuffixByte r c
  end.

Definition HasSuffix (s suf : string) : bool :=
  let n := String.length s in
  let m := String.length suf in
  (m <=? n)%nat && String.eqb (String.substring (n - m) m s) suf.

(** [s[:len(s)-1]] *)
Fixpoint dropLast (s : string) : string :=
  match s with
  | EmptyString => EmptyString
  | String _ EmptyString => EmptyString
  | String a r => String a (dropLast r)
  end.

Definition lowerByte (c : ascii) : ascii :=
  if isUpper c then byte_of (code c + 32) else c.

(** [strings.ToLower] on the bytes it is applied to here (a URL scheme
    holds only ASCII letters, digits, [+], [-] and [.]). *)
Fixpoint ToLower (s : string) : string :=
  match s with
  | EmptyString => EmptyString
  | String a r => String (lowerByte a) (ToLower r)
  end.

Fixpoint Join (l : list string) (sep : string) : string :=
  match l with
  | [] => EmptyString
  | [x] => x
  | x :: r => x +:+ sep +:+ Join r sep
  end.

(** [strings.Index s sub >= 0] with the split around the first match. *)
Fixpoint CutStr (s sub : string) : option (string * string) :=
  if HasPrefix s sub then Some (EmptyString, s)
  else match s with
       | EmptyString => None
       | String a r =>
           match CutStr r sub with
           | Some (b, t) => Some (String a b, t)
           | None => None
           end
       end.

End str.

(** ** Package unicode/utf8 *)

Module utf8.

Definition RuneError : N := 0xFFFD.
Definition MaxRune : N := 0x10FFFF.

Definition isCont (c : ascii) : bool := (0x80 <=? code c) && (code c <=? 0xBF).

(** The table [first] with its accept ranges: for a lead byte, the size
    of the sequence and the range allowed for the second byte. *)
Definition lead (c : ascii) : option (nat * N * N) :=
  let b := code c in
  if b <? 0xC2 then None
  else if b <=? 0xDF then Some (2%nat, 0x80, 0xBF)
  else if b =? 0xE0 then Some (3%nat, 0xA0, 0xBF)
  else if b <=? 0xEC then Some (3%nat, 0x80, 0xBF)
  else if b =? 0xED then Some (3%nat, 0x80, 0x9F)
  else if b <=? 0xEF then Some (3%nat, 0x80, 0xBF)
  else if b =? 0xF0 then Some (4%nat, 0x90, 0xBF)
  else if b <=? 0xF3 then Some (4%nat, 0x80, 0xBF)
  else if b =? 0xF4 then Some (4%nat, 0x80, 0x8F)
  else None.

Definition low (bits : N) (c : ascii) : N := N.land (code c) bits.

(** [utf8.DecodeRuneInString]: the rune at the head of [s] and its width
    in bytes; [(RuneError, 1)] for an ill-formed head and
    [(RuneError, 0)] for the empty string. *)
Definition DecodeRuneInString (s : string) : N * nat :=
  match s with
  | EmptyString => (RuneError, 0%nat)
  | String b0 r0 =>
      if code b0 <? 0x80 then (code b0, 1%nat)
      else
        match lead b0 with
        | None => (RuneError, 1%nat)
        | Some (size, lo, hi) =>
            match r0 with
            | EmptyString => (RuneError, 1%nat)
            | String b1 r1 =>
                if negb ((lo <=? code b1) && (code b1 <=? hi))
                then (RuneError, 1%nat)
                else if (size <=? 2)%nat
                then (N.lor (N.shiftl (low 0x1F b0) 6) (low 0x3F b1), 2%nat)
                else
                  match r1 with
                  | EmptyString => (RuneError, 1%nat)
                  | String b2 r2 =>
                      if negb (isCont b2) then (RuneError, 1%nat)
                      else if (size <=? 3)%nat
                      then (N.lor (N.shiftl (low 0x0F b0) 12)
                              (N.lor (N.shiftl (low 0x3F b1) 6) (low 0x3F b2)),
                            3%nat)
                      else
                        match r2 with
                        | EmptyString => (RuneError, 1%nat)
                        | String b3 _ =>
                            if negb (isCont b3) then (RuneError, 1%nat)
                            else
                              (N.lor (N.shiftl (low 0x07 b0) 18)
                                 (N.lor (N.shiftl (low 0x3F b1) 12)
                                    (N.lor (N.shiftl (low 0x3F b2) 6)
                                       (low 0x3F b3))),
                               4%nat)
                        end
                  end
            end
        end
  end.

Definition contByte (r : N) (shift : N) : ascii :=
  byte_of (N.lor 0x80 (N.land (N.shiftr r shift) 0x3F)).

Definition isSurrogate (r : N) : bool := (0xD800 <=? r) && (r <=? 0xDFFF).

(** [utf8.EncodeRune] / [utf8.AppendRune]: surrogates and values above
    [MaxRune] are written as [RuneError]. *)
Definition EncodeRune (r : N) : string :=
  let three (r : N) :=
    String (byte_of (N.lor 0xE0 (N.shiftr r 12)))
      (String (contByte r 6) (String (contByte r 0) EmptyString)) in
  if r <=? 0x7F then String (byte_of r) EmptyString
  else if r <=? 0x7FF then
    String (byte_of (N.lor 0xC0 (N.shiftr r 6)))
      (String (contByte r 0) EmptyString)
  else if (MaxRune <? r) || isSurrogate r then three RuneError
  else if r <=? 0xFFFF then three r
  else
    String (byte_of (N.lor 0xF0 (N.shiftr r 18)))
      (String (contByte r 12)
         (String (contByte r 6) (String (contByte r 0) EmptyString))).

(** Whether the head of [s] is well formed: [DecodeRuneInString] gives
    [(RuneError, 1)] exactly for an ill-formed head. *)
Definition validHead (s : string) : bool :=
  let '(c, size) := DecodeRuneInString s in
  negb ((c =? RuneError) && (size =? 1)%nat).

Fixpoint drop (n : nat) (s : string) : string :=
  match n, s with
  | S k, String _ r => drop k r
  | _, _ => s
  end.

Fixpoint take (n : nat) (s : string) : string :=
  match n, s with
  | S k, String c r => String c (take k r)
  | _, _ => EmptyString
  end.

(** The rune loop [for i < len(s) { c, size := decode(s[i:]); i += size }]
    of [utf8.ValidString]; [fuel] bounds the iterations. *)
Fixpoint validFrom (fuel : nat) (s : string) : bool :=
  match fuel with
  | O => true
  | S f =>
      match s with
      | EmptyString => true
      | _ =>
          validHead s
          && validFrom f (drop (snd (DecodeRuneInString s)) s)
      end
  end.

Definition ValidString (s : string) : bool := validFrom (String.length s) s.

(** The text with every ill-formed byte replaced by U+FFFD, as the JSON
    encoder and decoder coerce strings to well-formed UTF-8. *)
Fixpoint coerceFrom (fuel : nat) (s : string) : string :=
  match fuel with
  | O => EmptyString
  | S f =>
      match s with
      | EmptyString => EmptyString
      | _ =>
          let size := snd (DecodeRuneInString s) in
          (if validHead s then take size s else EncodeRune RuneError)
          +:+ coerceFrom f (drop size s)
      end
  end.

Definition coerce (s : string) : string := coerceFrom (String.length s) s.

End utf8.

(** ** Package strconv *)

Module strconv.

(** [strconv.FormatInt(i, 10)] / [strconv.Itoa]. *)
Definition Itoa (i : Z) : string := NilZero.string_of_int (Z.to_int i).

Fixpoint digitsValue (acc : Z) (s : string) : option Z :=
  match s with
  | EmptyString => Some acc
  | String c r =>
      if isDigit c then digitsValue (acc * 10 + Z.of_N (code c - 48)) r
      else None
  end.

(** [strconv.ParseInt(s, 10, 64)]: [None] for a syntax or range error. *)
Definition ParseInt (s : string) : option Z :=
  let '(neg, digits) :=
    match s with
    | String c r =>
        if Ascii.eqb c "-" then (true, r)
        else if Ascii.eqb c "+" then (false, r)
        else (false, s)
    | EmptyString => (false, s)
    end in
  match digits with
  | EmptyString => None
  | _ =>
      match digitsValue 0 digits with
      | Some n =>
          let v := (if neg then - n else n)%Z in
          if ((- 2 ^ 63 <=? v) && (v <? 2 ^ 63))%Z then Some v else None
      | None => None
      end
  end.

End strconv.

(** ** Package net/url *)

Module url.

Inductive encoding : Set :=
| encodePath
| encodePathSegment
| encodeHost
| encodeZone
| encodeUserPassword
| encodeQueryComponent
| encodeFragment.

Definition isHostMode (mode : encoding) : bool :=
  match mode with
  | encodeHost | encodeZone => true
  | _ => false
  end.

Definition isQueryMode (mode : encoding) : bool :=
  match mode with
  | encodeQueryComponent => true
  | _ => false
  end.

Definition dquote : ascii := "034"%char.

(** [shouldEscape]: whether byte [c] must be percent-encoded in the
    part of the URL given by [mode]. *)
Definition shouldEscape (c : ascii) (mode : encoding) : bool :=
  if isLetter c || isDigit c then false
  else if isHostMode mode && (oneOf "!$&'()*+,;=:[]<>" c || Ascii.eqb c dquote)
  then false
  else if oneOf "-_.~" c then false
  else if oneOf "$&+,/:;=?@" c then
    match mode with
    | encodePath => Ascii.eqb c "?"
    | encodePathSegment => oneOf "/;,?" c
    | encodeUserPassword => oneOf "@/?:" c
    | encodeQueryComponent => true
    | encodeFragment => false
    | encodeHost | encodeZone => true
    end
  else
    match mode with
    | encodeFragment => negb (oneOf "!()*" c)
    | _ => true
    end.

Definition ishex (c : ascii) : bool :=
  isDigit c || between "a" "f" c || between "A" "F" c.

Definition unhex (c : ascii) : N :=
  if isDigit c then code c - code "0"
  else if between "a" "f" c then code c - code "a" + 10
  else if between "A" "F" c then code c - code "A" + 10
  else 0.

Definition upperhex (n : N) : ascii :=
  match String.get (N.to_nat n) "0123456789ABCDEF" with
  | Some c => c
  | None => "0"%char
  end.

Fixpoint escape (s : string) (mode : encoding) : string :=
  match s with
  | EmptyString => EmptyString
  | String c r =>
      if shouldEscape c mode then
        if Ascii.eqb c " " && isQueryMode mode
        then String "+" (escape r mode)
        else String "%" (String (upperhex (N.shiftr (code c) 4))
                           (String (upperhex (N.land (code c) 15))
                              (escape r mode)))
      else String c (escape r mode)
  end.

Definition take3 (s : string) : string := String.substring 0 3 s.

(** [unescape]: the validating pass and the decoding pass of the Go
    function, fused; the error is the one of the first offending byte. *)
Fixpoint unescape (s : string) (mode : encoding) : result string :=
  match s with
  | EmptyString => inr EmptyString
  | String c r =>
      if Ascii.eqb c "%" then
        match r with
        | String h1 (String h2 r') =>
            if ishex h1 && ishex h2 then
              let esc := String c (String h1 (String h2 EmptyString)) in
              let v := byte_of (N.lor (N.shiftl (unhex h1) 4) (unhex h2)) in
              if match mode with
                 | encodeHost => (unhex h1 <? 8) && negb (String.eqb esc "%25")
                 | encodeZone =>
                     negb (String.eqb esc "%25") && negb (Ascii.eqb v " ")
                     && shouldEscape v encodeHost
                 | _ => false
                 end
              then inl (EscapeError esc)
              else
                match unescape r' mode with
                | inl e => inl e
                | inr t => inr (String v t)
                end
            else inl (EscapeError (take3 s))
        | _ => inl (EscapeError (take3 s))
        end
      else if Ascii.eqb c "+" then
        match unescape r mode with
        | inl e => inl e
        | inr t => inr (String (if isQueryMode mode then " "%char else c) t)
        end
      else if isHostMode mode && (code c <? 0x80) && shouldEscape c encodeHost
      then inl (InvalidHostError (String c EmptyString))
      else
        match unescape r mode with
        | inl e => inl e
        | inr t => inr (String c t)
        end
  end.

Definition QueryEscape (s : string) : string := escape s encodeQueryComponent.
Definition QueryUnescape (s : string) : result string :=
  unescape s encodeQueryComponent.

(** *** url.Values *)

Abbreviation Values := (gmap string (list string)).

Definition Add (key value : string) (v : Values) : Values :=
  <[key := default [] (v !! key) ++ [value]]> v.

Definition Get (key : string) (v : Values) : string :=
  match v !! key with
  | Some (x :: _) => x
  | _ => EmptyString
  end.

Definition sortedKeys (v : Values) : list string :=
  merge_sort String.le (fst <$> map_to_list v).

(** [Values.Encode]: [key=value] pairs joined by [&], keys sorted. *)
Definition Encode (v : Values) : string :=
  str.Join
    (flat_map
       (fun k => (fun x => QueryEscape k +:+ "=" +:+ QueryEscape x)
                   <$> default [] (v !! k))
       (sortedKeys v))
    "&".

(** The segments between [&] that the loop of [parseQuery] cuts off one
    by one (an empty remainder ends the loop; an empty segment is
    skipped by it, so a trailing empty segment makes no difference). *)
Fixpoint segments (query : string) : list string :=
  match query with
  | EmptyString => [EmptyString]
  | String a r =>
      if Ascii.eqb a "&" then EmptyString :: segments r
      else match segments r with
           | x :: xs => String a x :: xs
           | [] => [String a EmptyString]
           end
  end.

Definition parseQueryStep (st : Values * option error) (key : string)
  : Values * option error :=
  let '(m, err) := st in
  if str.Contains key ";"
  then (m, Some (errorString "invalid semicolon separator in query"))
  else if String.eqb key EmptyString then st
  else
    let '(k, value, _) := str.Cut key "=" in
    match QueryUnescape k with
    | inl err1 => (m, if err is Some _ then err else Some err1)
    | inr k' =>
        match QueryUnescape value with
        | inl err1 => (m, if err is Some _ then err else Some err1)
        | inr value' => (Add k' value' m, err)
        end
    end.

(** [url.ParseQuery]: the values found, with the first error met. *)
Definition ParseQuery (query : string) : Values * option error :=
  fold_left parseQueryStep (segments query) (∅, None).

(** *** url.URL *)

Record Userinfo : Type := mkUserinfo {
  username : string;
  password : string;
  passwordSet : bool
}.

Record URL : Type := mkURL {
  Scheme : string;
  Opaque : string;
  User : option Userinfo;
  Host : string;
  Path : string;
  RawPath : string;
  OmitHost : bool;
  ForceQuery : bool;
  RawQuery : string;
  Fragment : string;
  RawFragment : string
}.

Definition emptyURL : URL :=
  mkURL EmptyString EmptyString None EmptyString EmptyString EmptyString
        false false EmptyString EmptyString EmptyString.

Definition withRawQuery (u : URL) (q : string) : URL :=
  mkURL (Scheme u) (Opaque u) (User u) (Host u) (Path u) (RawPath u)
        (OmitHost u) (ForceQuery u) q (Fragment u) (RawFragment u).

Definition withHost (u : URL) (h : string) : URL :=
  mkURL (Scheme u) (Opaque u) (User u) h (Path u) (RawPath u)
        (OmitHost u) (ForceQuery u) (RawQuery u) (Fragment u) (RawFragment u).

Definition withFragment (u : URL) (f raw : string) : URL :=
  mkURL (Scheme u) (Opaque u) (User u) (Host u) (Path u) (RawPath u)
        (OmitHost u) (ForceQuery u) (RawQuery u) f raw.

Definition nonEmpty (s : string) : bool := negb (String.eqb s EmptyString).

Fixpoint scanScheme (atStart : bool) (s : string)
  : result (option (string * string)) :=
  match s with
  | EmptyString => inr None
  | String c r =>
      let continue :=
        match scanScheme false r with
        | inr (Some (scheme, rest)) => inr (Some (String c scheme, rest))
        | other => other
        end in
      if isLetter c then continue
      else if isDigit c || oneOf "+-." c then
        if atStart then inr None else continue
      else if Ascii.eqb c ":" then
        if atStart then inl (errorString "missing protocol scheme")
        else inr (Some (EmptyString, r))
      else inr None
  end.

(** [getScheme]: a leading [scheme:] is split off; without one the
    scheme is empty and the whole input is the rest. *)
Definition getScheme (rawURL : string) : result (string * string) :=
  match scanScheme true rawURL with
  | inl e => inl e
  | inr None => inr (EmptyString, rawURL)
  | inr (Some p) => inr p
  end.

Fixpoint stringContainsCTLByte (s : string) : bool :=
  match s with
  | EmptyString => false
  | String c r =>
      (code c <? 0x20) || (code c =? 0x7F) || stringContainsCTLByte r
  end.

Fixpoint validUserinfo (s : string) : bool :=
  match s with
  | EmptyString => true
  | String c r =>
      (isLetter c || isDigit c || oneOf "-._:~!$&'()*+,;=%@" c)
      && validUserinfo r
  end.

Fixpoint allDigits (s : string) : bool :=
  match s with
  | EmptyString => true
  | String c r => isDigit c && allDigits r
  end.

Definition validOptionalPort (port : string) : bool :=
  match port with
  | EmptyString => true
  | String c r => Ascii.eqb c ":" && allDigits r
  end.

Fixpoint validEncoded (s : string) (mode : encoding) : bool :=
  match s with
  | EmptyString => true
  | String c r =>
      (oneOf "!$&'()*+,;=:@[]%" c || negb (shouldEscape c mode))
      && validEncoded r mode
  end.

Definition invalidPort (colonPort : string) : error :=
  errorString ("invalid port " +:+ colonPort +:+ " after host").

Definition parseHost (host : string) : result string :=
  if str.HasPrefix host "[" then
    match str.CutLast host "]" with
    | None => inl (errorString "missing ']' in host")
    | Some (lit, colonPort) =>
        if negb (validOptionalPort colonPort) then inl (invalidPort colonPort)
        else
          match str.CutStr lit "%25" with
          | Some (h1, zone) =>
              try host1 <- unescape h1 encodeHost in
              try host2 <- unescape zone encodeZone in
              try host3 <- unescape ("]" +:+ colonPort) encodeHost in
              inr (host1 +:+ host2 +:+ host3)
          | None => unescape host encodeHost
          end
    end
  else
    match str.CutLast host ":" with
    | Some (_, port) =>
        if negb (validOptionalPort (":" +:+ port))
        then inl (invalidPort (":" +:+ port))
        else unescape host encodeHost
    | None => unescape host encodeHost
    end.

Definition parseAuthority (authority : string)
  : result (option Userinfo * string) :=
  match str.CutLast authority "@" with
  | None =>
      try host <- parseHost authority in inr (None, host)
  | Some (userinfo, hostpart) =>
      try host <- parseHost hostpart in
      if negb (validUserinfo userinfo)
      then inl (errorString "net/url: invalid userinfo")
      else if negb (str.Contains userinfo ":") then
        try name <- unescape userinfo encodeUserPassword in
        inr (Some (mkUserinfo name EmptyString false), host)
      else
        let '(name, pass, _) := str.Cut userinfo ":" in
        try name' <- unescape name encodeUserPassword in
        try pass' <- unescape pass encodeUserPassword in
        inr (Some (mkUserinfo name' pass' true), host)
  end.

(** [parse]: the URL without its fragment. *)
Definition parse (rawURL : string) (viaRequest : bool) : result URL :=
  if stringContainsCTLByte rawURL
  then inl (errorString "net/url: invalid control character in URL")
  else if String.eqb rawURL EmptyString && viaRequest
  then inl (errorString "empty url")
  else if String.eqb rawURL "*"
  then inr (mkURL EmptyString EmptyString None EmptyString "*" EmptyString
              false false EmptyString EmptyString EmptyString)
  else
    try (scheme0, rest0) <- getScheme rawURL in
    let scheme := str.ToLower scheme0 in
    let '(rest, force, rawq) :=
      if str.HasSuffixByte rest0 "?" && (str.Count rest0 "?" =? 1)%nat
      then (str.dropLast rest0, true, EmptyString)
      else let '(b, q, _) := str.Cut rest0 "?" in (b, false, q) in
    let finish (user : option Userinfo) (host : string) (omit : bool)
               (p : string) : result URL :=
      try path <- unescape p encodePath in
      inr (mkURL scheme EmptyString user host path
             (if String.eqb p (escape path encodePath) then EmptyString else p)
             omit force rawq EmptyString EmptyString) in
    if negb (str.HasPrefix rest "/") && nonEmpty scheme
    then inr (mkURL scheme rest None EmptyString EmptyString EmptyString
                false force rawq EmptyString EmptyString)
    else if negb (str.HasPrefix rest "/") && viaRequest
    then inl (errorString "invalid URI for request")
    else if negb (str.HasPrefix rest "/")
            && str.Contains (fst (fst (str.Cut rest "/"))) ":"
    then inl (errorString "first path segment in URL cannot contain colon")
    else if (nonEmpty scheme
             || (negb viaRequest && negb (str.HasPrefix rest "///")))
            && str.HasPrefix rest "//"
    then
      let '(authority, tail, found) :=
        str.Cut (String.substring 2 (String.length rest - 2) rest) "/" in
      try (user, host) <- parseAuthority authority in
      finish user host false (if found then "/" +:+ tail else EmptyString)
    else
      finish None EmptyString (nonEmpty scheme && str.HasPrefix rest "/") rest.

(** [url.Parse] *)
Definition Parse (rawURL : string) : result URL :=
  let '(u, frag, _) := str.Cut rawURL "#" in
  match parse u false with
  | inl err => inl (url_Error "parse" u err)
  | inr url =>
      if String.eqb frag EmptyString then inr url
      else
        match unescape frag encodeFragment with
        | inl err => inl (url_Error "parse" rawURL err)
        | inr f =>
            inr (withFragment url f
                   (if String.eqb frag (escape f encodeFragment)
                    then EmptyString else frag))
        end
  end.

Definition UserinfoString (u : Userinfo) : string :=
  escape (username u) encodeUserPassword
  +:+ (if passwordSet u
       then ":" +:+ escape (password u) encodeUserPassword
       else EmptyString).

Definition EscapedPath (u : URL) : string :=
  if nonEmpty (RawPath u) && validEncoded (RawPath u) encodePath
     && match unescape (RawPath u) encodePath with
        | inr p => String.eqb p (Path u)
        | inl _ => false
        end
  then RawPath u
  else if String.eqb (Path u) "*" then "*"
  else escape (Path u) encodePath.

Definition EscapedFragment (u : URL) : string :=
  if nonEmpty (RawFragment u) && validEncoded (RawFragment u) encodeFragment
     && match unescape (RawFragment u) encodeFragment with
        | inr f => String.eqb f (Fragment u)
        | inl _ => false
        end
  then RawFragment u
  else escape (Fragment u) encodeFragment.

Definition isSome {A} (o : option A) : bool :=
  match o with Some _ => true | None => false end.

(** The part of [URL.String] before the query: scheme, opaque part or
    authority and path. *)
Definition stringHead (u : URL) : string :=
  let scheme :=
    if nonEmpty (Scheme u) then Scheme u +:+ ":" else EmptyString in
  if nonEmpty (Opaque u) then scheme +:+ Opaque u
  else
    let authority :=
      if nonEmpty (Scheme u) || nonEmpty (Host u) || isSome (User u) then
        if OmitHost u && negb (nonEmpty (Host u)) && negb (isSome (User u))
        then EmptyString
        else
          (if nonEmpty (Host u) || nonEmpty (Path u) || isSome (User u)
           then "//" else EmptyString)
          +:+ match User u with
              | Some ui => UserinfoString ui +:+ "@"
              | None => EmptyString
              end
          +:+ (if nonEmpty (Host u) then escape (Host u) encodeHost
               else EmptyString)
      else EmptyString in
    let path := EscapedPath u in
    let slash :=
      if nonEmpty path && negb (str.HasPrefix path "/") && nonEmpty (Host u)
      then "/" else EmptyString in
    let buf := scheme +:+ authority +:+ slash in
    let dot :=
      if String.eqb buf EmptyString
         && str.Contains (fst (fst (str.Cut path "/"))) ":"
      then "./" else EmptyString in
    buf +:+ dot +:+ path.

(** [URL.String] *)
Definition String_ (u : URL) : string :=
  stringHead u
  +:+ (if ForceQuery u || nonEmpty (RawQuery u)
       then "?" +:+ RawQuery u else EmptyString)
  +:+ (if nonEmpty (Fragment u)
       then "#" +:+ EscapedFragment u else EmptyString).

(** [URL.Query]: the parsed query string, errors dropped. *)
Definition Query (u : URL) : Values := fst (ParseQuery (RawQuery u)).

End url.

(** ** Package go-querystring/query

    [query.Values] walks the fields of a struct by reflection; a struct
    type is therefore an instance of [query.Encoder] listing its fields
    with their [url] tags. *)

Module query.

Inductive fieldValue : Type :=
| IntValue (i : Z)
| StringValue (s : string).

Record field : Type := mkField {
  name : string;
  omitempty : bool;
  fvalue : fieldValue
}.

Class Encoder (T : Type) : Type := fields : T -> list field.

(** [isEmptyValue]: the zero number and the empty string. *)
Definition isEmptyValue (v : fieldValue) : bool :=
  match v with
  | IntValue i => (i =? 0)%Z
  | StringValue s => (String.length s =? 0)%nat
  end.

Definition valueString (v : fieldValue) : string :=
  match v with
  | IntValue i => strconv.Itoa i
  | StringValue s => s
  end.

Definition reflectValue (values : url.Values) (fs : list field) : url.Values :=
  fold_left
    (fun vs f =>
       if omitempty f && isEmptyValue (fvalue f) then vs
       else url.Add (name f) (valueString (fvalue f)) vs)
    fs values.

(** [query.Values] on a pointer to a struct; a nil pointer gives the
    empty map. No field kind used here makes it fail. *)
Definition Values {T} `{Encoder T} (v : option T) : result url.Values :=
  match v with
  | None => inr ∅
  | Some s => inr (reflectValue ∅ (fields s))
  end.

End query.

(** ** Package encoding/json

    A JSON text is parsed to a [json.value]; a typed destination is
    filled from the value by its [json.Unmarshaler] instance, and a Go
    value is written through its [json.Marshaler] instance. The struct
    instances (written from the [json] tags) are with the structs. *)

Module json.

Inductive value : Type :=
| Null
| Bool (b : bool)
| Number (lit : string)
| Str (s : string)
| Array (elems : list value)
| Object (members : list (string * value)).

Definition dquote : ascii := "034"%char.
Definition backslash : ascii := "\"%char.

Abbreviation drop := utf8.drop.
Abbreviation take := utf8.take.

(** *** Encoding *)

Definition hex (n : N) : ascii :=
  match String.get (N.to_nat n) "0123456789abcdef" with
  | Some c => c
  | None => "0"%char
  end.

(** The table [htmlSafeSet]: printable ASCII without the quote, the
    backslash and the three HTML characters. *)
Definition htmlSafe (c : ascii) : bool :=
  (0x20 <=? code c) && (code c <? 0x80)
  && negb (Ascii.eqb c dquote || oneOf "\<>&" c).

Definition escapeByte (b : ascii) : string :=
  if htmlSafe b then String b EmptyString
  else if Ascii.eqb b backslash || Ascii.eqb b dquote
  then String backslash (String b EmptyString)
  else if code b =? 8 then "\b"
  else if code b =? 12 then "\f"
  else if code b =? 10 then "\n"
  else if code b =? 13 then "\r"
  else if code b =? 9 then "\t"
  else "\u00" +:+ String (hex (N.shiftr (code b) 4))
                    (String (hex (N.land (code b) 15)) EmptyString).

(** The loop of [appendString] with HTML escaping on (the encoder's
    default), as of Go 1.22: ASCII is copied or escaped, an ill-formed
    byte becomes the escape of U+FFFD, U+2028 and U+2029 are escaped, any other
    well-formed sequence is copied. [fuel] bounds the iterations. *)
Fixpoint appendString (fuel : nat) (src : string) : string :=
  match fuel with
  | O => EmptyString
  | S f =>
      match src with
      | EmptyString => EmptyString
      | String b r =>
          if code b <? 0x80 then escapeByte b +:+ appendString f r
          else
            let '(c, size) := utf8.DecodeRuneInString src in
            if (c =? utf8.RuneError) && (size =? 1)%nat
            then "\ufffd" +:+ appendString f r
            else if (c =? 0x2028) || (c =? 0x2029)
            then "\u202" +:+ String (hex (N.land c 15))
                               (appendString f (drop size src))
            else take size src +:+ appendString f (drop size src)
      end
  end.

Definition quote (s : string) : string :=
  String dquote (appendString (String.length s) s +:+ String dquote EmptyString).

Fixpoint encodeValue (v : value) : string :=
  match v with
  | Null => "null"
  | Bool true => "true"
  | Bool false => "false"
  | Number lit => lit
  | Str s => quote s
  | Array elems => "[" +:+ str.Join (List.map encodeValue elems) "," +:+ "]"
  | Object members =>
      "{" +:+ str.Join
                (List.map (fun m => quote (fst m) +:+ ":" +:+ encodeValue (snd m))
                   members) ","
      +:+ "}"
  end.

Class Marshaler (T : Type) : Type := {
  isEmptyValue : T -> bool;
  marshal : T -> value
}.

#[global] Instance string_Marshaler : Marshaler string := {|
  isEmptyValue s := (String.length s =? 0)%nat;
  marshal s := Str s
|}.

#[global] Instance slice_Marshaler {T} `{Marshaler T}
  : Marshaler (slice T) := {|
  isEmptyValue s := (len s =? 0)%nat;
  marshal s :=
    match s with
    | Nil => Null
    | Slice l => Array (List.map marshal l)
    end
|}.

(** A pointer is empty when nil and is written as what it points to. *)
#[global] Instance ptr_Marshaler {T} `{Marshaler T} : Marshaler (option T) := {|
  isEmptyValue p := negb (url.isSome p);
  marshal p :=
    match p with
    | None => Null
    | Some x => marshal x
    end
|}.

(** A struct field with its [json] tag. *)
Definition member {T} `{Marshaler T} (name : string) (omitempty : bool) (v : T)
  : list (string * value) :=
  if omitempty && isEmptyValue v then [] else [(name, marshal v)].

(** [json.NewEncoder(w).Encode(v)]: the encoding and a newline. None of
    the kinds above makes it fail. *)
Definition Encode {T} `{Marshaler T} (v : T) : result string :=
  inr (encodeValue (marshal v) +:+ String "010" EmptyString).

(** *** Parsing *)

Definition isSpace (c : ascii) : bool :=
  (code c =? 32) || (code c =? 9) || (code c =? 13) || (code c =? 10).

Fixpoint skipSpace (s : string) : string :=
  match s with
  | String c r => if isSpace c then skipSpace r else s
  | EmptyString => s
  end.

(** [getu4]: the rune of four hex digits (after [\u]). *)
Definition getu4 (s : string) : option (N * string) :=
  match s with
  | String a (String b (String c (String d r))) =>
      if url.ishex a && url.ishex b && url.ishex c && url.ishex d
      then Some (url.unhex a * 4096 + url.unhex b * 256
                 + url.unhex c * 16 + url.unhex d, r)
      else None
  | _ => None
  end.

(** [utf16.DecodeRune] *)
Definition utf16_DecodeRune (r1 r2 : N) : N :=
  if (0xD800 <=? r1) && (r1 <? 0xDC00) && (0xDC00 <=? r2) && (r2 <? 0xE000)
  then N.lor (N.shiftl (r1 - 0xD800) 10) (r2 - 0xDC00) + 0x10000
  else utf8.RuneError.

Definition truncated (s : string) (n : nat) (msg : string) : error :=
  if (String.length s <? n)%nat then io_ErrUnexpectedEOF else SyntaxError msg.

(** [unquote]: the text of a string literal after its opening quote,
    with the rest of the input after the closing quote. Ill-formed
    UTF-8 is replaced by U+FFFD. *)
Fixpoint unquote (fuel : nat) (s : string) : result (string * string) :=
  match fuel with
  | O => inl io_ErrUnexpectedEOF
  | S f =>
      let emit (out : string) (rest : string) :=
        match unquote f rest with
        | inl e => inl e
        | inr (t, rest') => inr (out +:+ t, rest')
        end in
      let one (c : ascii) := String c EmptyString in
      match s with
      | EmptyString => inl io_ErrUnexpectedEOF
      | String c r =>
          if Ascii.eqb c dquote then inr (EmptyString, r)
          else if Ascii.eqb c backslash then
            match r with
            | EmptyString => inl io_ErrUnexpectedEOF
            | String e r' =>
                if Ascii.eqb e dquote || Ascii.eqb e backslash || Ascii.eqb e "/"
                then emit (one e) r'
                else if Ascii.eqb e "b" then emit (one (byte_of 8)) r'
                else if Ascii.eqb e "f" then emit (one (byte_of 12)) r'
                else if Ascii.eqb e "n" then emit (one (byte_of 10)) r'
                else if Ascii.eqb e "r" then emit (one (byte_of 13)) r'
                else if Ascii.eqb e "t" then emit (one (byte_of 9)) r'
                else if Ascii.eqb e "u" then
                  match getu4 r' with
                  | None =>
                      inl (truncated r' 4
                             "invalid character in \u hexadecimal character escape")
                  | Some (rr, r'') =>
                      if utf8.isSurrogate rr then
                        match r'' with
                        | String b1 (String u1 r3) =>
                            match
                              (if Ascii.eqb b1 backslash && Ascii.eqb u1 "u"
                               then getu4 r3 else None)
                            with
                            | Some (rr1, r4) =>
                                if utf16_DecodeRune rr rr1 =? utf8.RuneError
                                then emit (utf8.EncodeRune utf8.RuneError) r''
                                else emit (utf8.EncodeRune (utf16_DecodeRune rr rr1)) r4
                            | None => emit (utf8.EncodeRune utf8.RuneError) r''
                            end
                        | _ => emit (utf8.EncodeRune utf8.RuneError) r''
                        end
                      else emit (utf8.EncodeRune rr) r''
                  end
                else inl (SyntaxError "invalid character in string escape code")
            end
          else if code c <? 0x20
          then inl (SyntaxError "invalid character in string literal")
          else if code c <? 0x80 then emit (one c) r
          else
            let '(rr, size) := utf8.DecodeRuneInString s in
            emit (utf8.EncodeRune rr) (drop size s)
      end
  end.

Fixpoint spanDigits (s : string) : string * string :=
  match s with
  | String c r =>
      if isDigit c then let '(d, t) := spanDigits r in (String c d, t)
      else (EmptyString, s)
  | EmptyString => (EmptyString, EmptyString)
  end.

Definition badNumber (s : string) : error :=
  match s with
  | EmptyString => io_ErrUnexpectedEOF
  | _ => SyntaxError "invalid character in numeric literal"
  end.

(** A number literal of the JSON grammar at the head of [s]. *)
Definition scanNumber (s : string) : result (string * string) :=
  let '(sign, s1) :=
    match s with
    | String c r => if Ascii.eqb c "-" then ("-", r) else (EmptyString, s)
    | EmptyString => (EmptyString, s)
    end in
  try (int, s2) <-
    match s1 with
    | String c r =>
        if Ascii.eqb c "0" then inr ("0", r)
        else if isDigit c
        then let '(d, t) := spanDigits r in inr (String c d, t)
        else inl (badNumber s1)
    | EmptyString => inl (badNumber s1)
    end in
  try (frac, s3) <-
    match s2 with
    | String c r =>
        if Ascii.eqb c "." then
          let '(d, t) := spanDigits r in
          if (String.length d =? 0)%nat then inl (badNumber t)
          else inr (String c d, t)
        else inr (EmptyString, s2)
    | EmptyString => inr (EmptyString, s2)
    end in
  try (exp, s4) <-
    match s3 with
    | String c r =>
        if Ascii.eqb c "e" || Ascii.eqb c "E" then
          let '(sg, r1) :=
            match r with
            | String g r' =>
                if Ascii.eqb g "+" || Ascii.eqb g "-"
                then (String g EmptyString, r') else (EmptyString, r)
            | EmptyString => (EmptyString, r)
            end in
          let '(d, t) := spanDigits r1 in
          if (String.length d =? 0)%nat then inl (badNumber t)
          else inr (String c (sg +:+ d), t)
        else inr (EmptyString, s3)
    | EmptyString => inr (EmptyString, s3)
    end in
  inr (sign +:+ int +:+ frac +:+ exp, s4).

Definition scanLiteral (lit : string) (v : value) (s : string)
  : result (value * string) :=
  if str.HasPrefix s lit then inr (v, drop (String.length lit) s)
  else if str.HasPrefix lit s then inl io_ErrUnexpectedEOF
  else inl (SyntaxError "invalid character in literal").

Definition unexpected (s : string) (msg : string) : error :=
  match s with
  | EmptyString => io_ErrUnexpectedEOF
  | _ => SyntaxError msg
  end.

(** The value at the head of the input and the input after it. *)
Fixpoint parseValue (fuel : nat) (s : string) : result (value * string) :=
  match fuel with
  | O => inl (SyntaxError "exceeded max depth")
  | S f =>
      match skipSpace s with
      | EmptyString => inl io_ErrUnexpectedEOF
      | String c r =>
          if Ascii.eqb c "{" then
            match skipSpace r with
            | EmptyString => inl io_ErrUnexpectedEOF
            | String c' r' =>
                if Ascii.eqb c' "}" then inr (Object [], r')
                else
                  try (ms, rest) <- parseMembers f (String c' r') in
                  inr (Object ms, rest)
            end
          else if Ascii.eqb c "[" then
            match skipSpace r with
            | EmptyString => inl io_ErrUnexpectedEOF
            | String c' r' =>
                if Ascii.eqb c' "]" then inr (Array [], r')
                else
                  try (vs, rest) <- parseElems f (String c' r') in
                  inr (Array vs, rest)
            end
          else if Ascii.eqb c dquote then
            try (t, rest) <- unquote (String.length r) r in inr (Str t, rest)
          else if Ascii.eqb c "-" || isDigit c then
            try (lit, rest) <- scanNumber (String c r) in inr (Number lit, rest)
          else if Ascii.eqb c "t" then scanLiteral "true" (Bool true) (String c r)
          else if Ascii.eqb c "f" then scanLiteral "false" (Bool false) (String c r)
          else if Ascii.eqb c "n" then scanLiteral "null" Null (String c r)
          else inl (SyntaxError "invalid character looking for beginning of value")
      end
  end
with parseMembers (fuel : nat) (s : string)
  : result (list (string * value) * string) :=
  match fuel with
  | O => inl (SyntaxError "exceeded max depth")
  | S f =>
      match s with
      | EmptyString => inl io_ErrUnexpectedEOF
      | String c r =>
          if negb (Ascii.eqb c dquote)
          then inl (SyntaxError
                      "invalid character looking for beginning of object key string")
          else
            try (k, r1) <- unquote (String.length r) r in
            match skipSpace r1 with
            | EmptyString => inl io_ErrUnexpectedEOF
            | String c2 r2 =>
                if negb (Ascii.eqb c2 ":")
                then inl (SyntaxError "invalid character after object key")
                else
                  try (v, r3) <- parseValue f r2 in
                  match skipSpace r3 with
                  | EmptyString => inl io_ErrUnexpectedEOF
                  | String c4 r4 =>
                      if Ascii.eqb c4 "}" then inr ([(k, v)], r4)
                      else if Ascii.eqb c4 "," then
                        try (ms, r5) <- parseMembers f (skipSpace r4) in
                        inr ((k, v) :: ms, r5)
                      else inl (SyntaxError
                                  "invalid character after object key:value pair")
                  end
            end
      end
  end
with parseElems (fuel : nat) (s : string) : result (list value * string) :=
  match fuel with
  | O => inl (SyntaxError "exceeded max depth")
  | S f =>
      try (v, r1) <- parseValue f s in
      match skipSpace r1 with
      | EmptyString => inl io_ErrUnexpectedEOF
      | String c r2 =>
          if Ascii.eqb c "]" then inr ([v], r2)
          else if Ascii.eqb c "," then
            try (vs, r3) <- parseElems f r2 in inr (v :: vs, r3)
          else inl (SyntaxError "invalid character after array element")
      end
  end.

(** The next JSON value of a stream, as [Decoder.Decode] reads it:
    [io.EOF] when only white space is left; what follows the value is
    not looked at. *)
Definition readValue (body : string) : result (value * string) :=
  match skipSpace body with
  | EmptyString => inl io_EOF
  | s => parseValue (S (String.length s)) s
  end.

(** *** Decoding into typed destinations *)

(** A destination type: its zero value, its name in error reports and
    how a JSON value is stored into a destination holding [old]. A
    value of the wrong kind leaves the destination as it is and is
    reported; decoding goes on, and the first report is the error. *)
Class Unmarshaler (T : Type) : Type := {
  zero : T;
  typeName : string;
  unmarshal : value -> T -> T * option error
}.

Definition kind (v : value) : string :=
  match v with
  | Null => "null"
  | Bool _ => "bool"
  | Number _ => "number"
  | Str _ => "string"
  | Array _ => "array"
  | Object _ => "object"
  end.

Definition saveError (saved new : option error) : option error :=
  match saved with
  | Some _ => saved
  | None => new
  end.

Definition mismatch {T} (v : value) (type : string) (old : T)
  : T * option error :=
  (old, Some (UnmarshalTypeError (kind v) type)).

#[global] Instance string_Unmarshaler : Unmarshaler string := {|
  zero := EmptyString;
  typeName := "string";
  unmarshal v old :=
    match v with
    | Str s => (s, None)
    | Null => (old, None)
    | _ => mismatch v "string" old
    end
|}.

#[global] Instance int_Unmarshaler : Unmarshaler Z := {|
  zero := 0%Z;
  typeName := "int";
  unmarshal v old :=
    match v with
    | Number lit =>
        match strconv.ParseInt lit with
        | Some i => (i, None)
        | None => (old, Some (UnmarshalTypeError ("number " +:+ lit) "int"))
        end
    | Null => (old, None)
    | _ => mismatch v "int" old
    end
|}.

(** A JSON array replaces the slice: every element is decoded into a
    fresh element; [null] gives the nil slice. *)
#[global] Instance slice_Unmarshaler {T} `{Unmarshaler T}
  : Unmarshaler (slice T) := {|
  zero := Nil;
  typeName := "[]" +:+ typeName (T := T);
  unmarshal v old :=
    match v with
    | Null => (Nil, None)
    | Array elems =>
        let '(l, err) :=
          fold_left
            (fun acc x =>
               let '(t, e) := unmarshal x zero in
               (fst acc ++ [t], saveError (snd acc) e))
            elems ([], None) in
        (Slice l, err)
    | _ => mismatch v ("[]" +:+ typeName (T := T)) old
    end
|}.

(** A pointer: [null] makes it nil, any other value is decoded into
    what it points to (a fresh zero value when it is nil). *)
#[global] Instance ptr_Unmarshaler {T} `{Unmarshaler T}
  : Unmarshaler (option T) := {|
  zero := None;
  typeName := "*" +:+ typeName (T := T);
  unmarshal v old :=
    match v with
    | Null => (None, None)
    | _ => let '(t, e) := unmarshal v (default zero old) in (Some t, e)
    end
|}.

(** The folding under which an object key matches a field name when no
    field has exactly that name: ASCII letters in lower case, and the
    two non-ASCII runes that fold to ASCII letters (U+212A to [k],
    U+017F to [s]). *)
Fixpoint foldName (key : string) : string :=
  match key with
  | EmptyString => EmptyString
  | String c r =>
      match r with
      | String c1 r1 =>
          if (code c =? 0xC5) && (code c1 =? 0xBF)
          then String "s" (foldName r1)
          else
            match r1 with
            | String c2 r2 =>
                if (code c =? 0xE2) && (code c1 =? 0x84) && (code c2 =? 0xAA)
                then String "k" (foldName r2)
                else String (str.lowerByte c) (foldName r)
            | EmptyString => String (str.lowerByte c) (foldName r)
            end
      | EmptyString => String (str.lowerByte c) EmptyString
      end
  end.

Definition findField (names : list string) (key : string) : option string :=
  match find (String.eqb key) names with
  | Some n => Some n
  | None => find (fun n => String.eqb (foldName n) (foldName key)) names
  end.

(** Decoding an object into a struct with the fields [names]: the
    members are stored in their order by [set]; a key that matches no
    field is skipped. *)
Definition object {T} (type : string) (names : list string)
  (set : string -> value -> T -> T * option error) (v : value) (old : T)
  : T * option error :=
  match v with
  | Null => (old, None)
  | Object members =>
      fold_left
        (fun acc m =>
           match findField names (fst m) with
           | None => acc
           | Some n =>
               let '(t, e) := set n (snd m) (fst acc) in
               (t, saveError (snd acc) e)
           end)
        members (old, None)
  | _ => mismatch v type old
  end.

(** [json.NewDecoder(r).Decode(v)] on a reader holding [body]. *)
Definition Decode {T} `{Unmarshaler T} (body : string) (v : T)
  : T * option error :=
  match readValue body with
  | inl e => (v, Some e)
  | inr (x, _) => unmarshal x v
  end.

End json.

(** ** Package context *)

Module context.

(** A context as the dispatcher observes it: still active, or done
    with the error [Err] reports ([Canceled] or [DeadlineExceeded]). *)
Inductive Context : Type :=
| active
| done (err : error).

Definition Background : Context := active.

(** Whether a receive from [ctx.Done()] is ready. *)
Definition Done (ctx : Context) : bool :=
  match ctx with
  | active => false
  | done _ => true
  end.

Definition Err (ctx : Context) : option error :=
  match ctx with
  | active => None
  | done e => Some e
  end.

End context.

(** ** Package net/http *)

Module http.

Abbreviation Header := (gmap string (list string)).

Record Request : Type := mkRequest {
  Method : string;
  URL : url.URL;
  header : Header;
  Body : string;
  ContentLength : Z;
  Host : string;
  ctx : context.Context
}.

Record Response : Type := mkResponse {
  StatusCode : Z;
  respHeader : Header;
  respBody : string
}.

(** The injected [*http.Client]: what [Do] returns for a request. *)
Record Client : Type := mkClient {
  Do : Request -> result Response
}.

Definition MethodPost : string := "POST".

Definition isToken (c : ascii) : bool :=
  isLetter c || isDigit c || oneOf "!#$%&'*+-.^_`|~" c.

Fixpoint allToken (s : string) : bool :=
  match s with
  | EmptyString => true
  | String c r => isToken c && allToken r
  end.

Definition validMethod (method : string) : bool :=
  url.nonEmpty method && allToken method.

Definition removeEmptyPort (host : string) : string :=
  let hasPort :=
    match str.CutLast host ":" with
    | Some (_, after) => negb (str.Contains after "]")
    | None => false
    end in
  if hasPort && str.HasSuffixByte host ":" then str.dropLast host else host.

(** [http.NewRequest] with a body read from a buffer. *)
Definition NewRequest (method urlStr body : string) : result Request :=
  let method := if url.nonEmpty method then method else "GET" in
  if negb (validMethod method)
  then inl (errorString ("net/http: invalid method " +:+ method))
  else
    match url.Parse urlStr with
    | inl err => inl err
    | inr u =>
        let host := removeEmptyPort (url.Host u) in
        inr (mkRequest method (url.withHost u host) ∅ body
               (Z.of_nat (String.length body)) host context.Background)
    end.

Definition upperByte (c : ascii) : ascii :=
  if isLower c then byte_of (code c - 32) else c.

Fixpoint canonical (upper : bool) (s : string) : string :=
  match s with
  | EmptyString => EmptyString
  | String c r =>
      String (if upper then upperByte c else str.lowerByte c)
             (canonical (Ascii.eqb c "-") r)
  end.

(** [textproto.CanonicalMIMEHeaderKey] *)
Definition CanonicalMIMEHeaderKey (s : string) : string :=
  if allToken s then canonical true s else s.

(** [req.Header.Set(key, value)] *)
Definition HeaderSet (req : Request) (key value : string) : Request :=
  mkRequest (Method req) (URL req)
    (<[CanonicalMIMEHeaderKey key := [value]]> (header req))
    (Body req) (ContentLength req) (Host req) (ctx req).

(** [req.Header.Get(key)] *)
Definition HeaderGet (req : Request) (key : string) : string :=
  match header req !! CanonicalMIMEHeaderKey key with
  | Some (v :: _) => v
  | _ => EmptyString
  end.

(** [req.WithContext(ctx)] *)
Definition WithContext (req : Request) (c : context.Context) : Request :=
  mkRequest (Method req) (URL req) (header req) (Body req)
    (ContentLength req) (Host req) c.

End http.

(** * Package usda *)

(** ** usda.go *)

Definition entryPointURL : string := "api.nal.usda.gov/ndb/".

Record USDAclient : Type := mkUSDAclient {
  baseURL : url.URL;
  httpClient : http.Client
}.

(** What a call that may [panic] does. *)
Inductive outcome (A : Type) : Type :=
| returned (a : A)
| panicked (e : error).
Arguments returned {A} a.
Arguments panicked {A} e.

(** The requests handed to the transport so far, oldest first. *)
Abbreviation Wire := (list http.Request).

Section Construction.

(** [http.DefaultClient] *)
Variable DefaultClient : http.Client.

Definition NewClient (apiKey : string) (httpClient : option http.Client)
  : outcome USDAclient :=
  let httpClient :=
    match httpClient with
    | None => DefaultClient
    | Some c => c
    end in
  match url.Parse ("https://" +:+ apiKey +:+ "@" +:+ entryPointURL) with
  | inl err => panicked err
  | inr bURL => returned (mkUSDAclient bURL httpClient)
  end.

End Construction.

Definition newRequest {T} `{json.Marshaler T} (c : USDAclient)
  (pathAPI : string) (data : T) : result http.Request :=
  let finalPathURL := url.String_ (baseURL c) +:+ pathAPI in
  match json.Encode data with
  | inl err => inl err
  | inr bStream =>
      match http.NewRequest http.MethodPost finalPathURL bStream with
      | inl err => inl err
      | inr req => inr (http.HeaderSet req "Content-Type" "application/json")
      end
  end.

(** [do] returns the response and the error; the destination [v] it
    decodes into and the wire are threaded through. *)
Definition do {T} `{json.Unmarshaler T} (c : USDAclient)
  (ctx : context.Context) (req : http.Request) (v : T) (w : Wire)
  : option http.Response * option error * T * Wire :=
  let req := http.WithContext req ctx in
  let w := w ++ [req] in
  match http.Do (httpClient c) req with
  | inl err =>
      if context.Done ctx then (None, context.Err ctx, v, w)
      else (None, Some err, v, w)
  | inr resp =>
      let '(v, err) := json.Decode (http.respBody resp) v in
      (Some resp, err, v, w)
  end.

Record USDAQueryOptions : Type := mkUSDAQueryOptions {
  Max : Z;
  Offset : Z;
  Sort : string
}.

#[global] Instance USDAQueryOptions_Encoder : query.Encoder USDAQueryOptions :=
  fun o =>
    [query.mkField "max" true (query.IntValue (Max o));
     query.mkField "offset" true (query.IntValue (Offset o));
     query.mkField "sort" true (query.StringValue (Sort o))].

Definition addQueryOptions (pathAPI : string) (opts : option USDAQueryOptions)
  : string * option error :=
  match opts with
  | None => (pathAPI, None)
  | Some _ =>
      match query.Values opts with
      | inl err => (pathAPI, Some err)
      | inr v =>
          match url.Parse pathAPI with
          | inl err => (pathAPI, Some err)
          | inr u => (url.String_ (url.withRawQuery u (url.Encode v)), None)
          end
      end
  end.

Module USDAListReqParams.

Record t : Type := mk {
  Lt : string
}.

#[global] Instance marshaler : json.Marshaler t := {|
  json.isEmptyValue _ := false;
  json.marshal p := json.Object (json.member "lt" true (Lt p))
|}.

End USDAListReqParams.

Module USDAList.

Record item : Type := mkItem {
  Offset : Z;
  ID : string;
  Name : string
}.

Record list_ : Type := mkList {
  Lt : string;
  Start : Z;
  End_ : Z;
  Total : Z;
  Sr : string;
  Sort : string;
  Item : slice item
}.

Record t : Type := mk {
  List : list_
}.

#[global] Instance item_Unmarshaler : json.Unmarshaler item := {|
  json.zero := mkItem 0 EmptyString EmptyString;
  json.typeName := "struct";
  json.unmarshal :=
    json.object "struct" ["offset"; "id"; "name"]
      (fun n v o =>
         if String.eqb n "offset" then
           let '(x, e) := json.unmarshal v (Offset o) in
           (mkItem x (ID o) (Name o), e)
         else if String.eqb n "id" then
           let '(x, e) := json.unmarshal v (ID o) in
           (mkItem (Offset o) x (Name o), e)
         else
           let '(x, e) := json.unmarshal v (Name o) in
           (mkItem (Offset o) (ID o) x, e))
|}.

#[global] Instance list_Unmarshaler : json.Unmarshaler list_ := {|
  json.zero := mkList EmptyString 0 0 0 EmptyString EmptyString Nil;
  json.typeName := "struct";
  json.unmarshal :=
    json.object "struct" ["lt"; "start"; "end"; "total"; "sr"; "sort"; "item"]
      (fun n v o =>
         if String.eqb n "lt" then
           let '(x, e) := json.unmarshal v (Lt o) in
           (mkList x (Start o) (End_ o) (Total o) (Sr o) (Sort o) (Item o), e)
         else if String.eqb n "start" then
           let '(x, e) := json.unmarshal v (Start o) in
           (mkList (Lt o) x (End_ o) (Total o) (Sr o) (Sort o) (Item o), e)
         else if String.eqb n "end" then
           let '(x, e) := json.unmarshal v (End_ o) in
           (mkList (Lt o) (Start o) x (Total o) (Sr o) (Sort o) (Item o), e)
         else if String.eqb n "total" then
           let '(x, e) := json.unmarshal v (Total o) in
           (mkList (Lt o) (Start o) (End_ o) x (Sr o) (Sort o) (Item o), e)
         else if String.eqb n "sr" then
           let '(x, e) := json.unmarshal v (Sr o) in
           (mkList (Lt o) (Start o) (End_ o) (Total o) x (Sort o) (Item o), e)
         else if String.eqb n "sort" then
           let '(x, e) := json.unmarshal v (Sort o) in
           (mkList (Lt o) (Start o) (End_ o) (Total o) (Sr o) x (Item o), e)
         else
           let '(x, e) := json.unmarshal v (Item o) in
           (mkList (Lt o) (Start o) (End_ o) (Total o) (Sr o) (Sort o) x, e))
|}.

#[global] Instance unmarshaler : json.Unmarshaler t := {|
  json.zero := mk json.zero;
  json.typeName := "usda.USDAList";
  json.unmarshal :=
    json.object "usda.USDAList" ["list"]
      (fun n v o =>
         let '(x, e) := json.unmarshal v (List o) in (mk x, e))
|}.

End USDAList.

Module USDANutrientsReqParams.

Record t : Type := mk {
  Fg : slice string;
  Ndbno : string;
  NutrientsID : slice string;
  Subset : string
}.

#[global] Instance marshaler : json.Marshaler t := {|
  json.isEmptyValue _ := false;
  json.marshal p :=
    json.Object
      (json.member "fg" true (Fg p)
       ++ json.member "ndbno" true (Ndbno p)
       ++ json.member "nutrients" false (NutrientsID p)
       ++ json.member "subset" true (Subset p))
|}.

End USDANutrientsReqParams.

Module USDAFoodsReqParams.

Record t : Type := mk {
  Ndbno : slice string;
  Type_ : string
}.

#[global] Instance marshaler : json.Marshaler t := {|
  json.isEmptyValue _ := false;
  json.marshal p :=
    json.Object
      (json.member "ndbno" false (Ndbno p)
       ++ json.member "type" true (Type_ p))
|}.

End USDAFoodsReqParams.

Module USDASearchReqParams.

Record t : Type := mk {
  Q : string;
  Ds : string;
  Fg : string
}.

#[global] Instance marshaler : json.Marshaler t := {|
  json.isEmptyValue _ := false;
  json.marshal p :=
    json.Object
      (json.member "q" true (Q p)
       ++ json.member "ds" true (Ds p)
       ++ json.member "fg" true (Fg p))
|}.

End USDASearchReqParams.

Module USDASearch.

Record item : Type := mkItem {
  Offset : Z;
  Group : string;
  Name : string;
  Ndbno : string;
  Ds : string;
  Manu : string
}.

Record list_ : Type := mkList {
  Q : string;
  Sr : string;
  Ds_ : string;
  Start : Z;
  End_ : Z;
  Total : Z;
  Group_ : string;
  Sort : string;
  Item : slice item
}.

Record t : Type := mk {
  List : list_
}.

#[global] Instance item_Unmarshaler : json.Unmarshaler item := {|
  json.zero := mkItem 0 EmptyString EmptyString EmptyString EmptyString EmptyString;
  json.typeName := "struct";
  json.unmarshal :=
    json.object "struct" ["offset"; "group"; "name"; "ndbno"; "ds"; "manu"]
      (fun n v o =>
         if String.eqb n "offset" then
           let '(x, e) := json.unmarshal v (Offset o) in
           (mkItem x (Group o) (Name o) (Ndbno o) (Ds o) (Manu o), e)
         else if String.eqb n "group" then
           let '(x, e) := json.unmarshal v (Group o) in
           (mkItem (Offset o) x (Name o) (Ndbno o) (Ds o) (Manu o), e)
         else if String.eqb n "name" then
           let '(x, e) := json.unmarshal v (Name o) in
           (mkItem (Offset o) (Group o) x (Ndbno o) (Ds o) (Manu o), e)
         else if String.eqb n "ndbno" then
           let '(x, e) := json.unmarshal v (Ndbno o) in
           (mkItem (Offset o) (Group o) (Name o) x (Ds o) (Manu o), e)
         else if String.eqb n "ds" then
           let '(x, e) := json.unmarshal v (Ds o) in
           (mkItem (Offset o) (Group o) (Name o) (Ndbno o) x (Manu o), e)
         else
           let '(x, e) := json.unmarshal v (Manu o) in
           (mkItem (Offset o) (Group o) (Name o) (Ndbno o) (Ds o) x, e))
|}.

#[global] Instance list_Unmarshaler : json.Unmarshaler list_ := {|
  json.zero :=
    mkList EmptyString EmptyString EmptyString 0 0 0 EmptyString EmptyString Nil;
  json.typeName := "struct";
  json.unmarshal :=
    json.object "struct"
      ["q"; "sr"; "ds"; "start"; "end"; "total"; "group"; "sort"; "item"]
      (fun n v o =>
         if String.eqb n "q" then
           let '(x, e) := json.unmarshal v (Q o) in
           (mkList x (Sr o) (Ds_ o) (Start o) (End_ o) (Total o) (Group_ o)
              (Sort o) (Item o), e)
         else if String.eqb n "sr" then
           let '(x, e) := json.unmarshal v (Sr o) in
           (mkList (Q o) x (Ds_ o) (Start o) (End_ o) (Total o) (Group_ o)
              (Sort o) (Item o), e)
         else if String.eqb n "ds" then
           let '(x, e) := json.unmarshal v (Ds_ o) in
           (mkList (Q o) (Sr o) x (Start o) (End_ o) (Total o) (Group_ o)
              (Sort o) (Item o), e)
         else if String.eqb n "start" then
           let '(x, e) := json.unmarshal v (Start o) in
           (mkList (Q o) (Sr o) (Ds_ o) x (End_ o) (Total o) (Group_ o)
              (Sort o) (Item o), e)
         else if String.eqb n "end" then
           let '(x, e) := json.unmarshal v (End_ o) in
           (mkList (Q o) (Sr o) (Ds_ o) (Start o) x (Total o) (Group_ o)
              (Sort o) (Item o), e)
         else if String.eqb n "total" then
           let '(x, e) := json.unmarshal v (Total o) in
           (mkList (Q o) (Sr o) (Ds_ o) (Start o) (End_ o) x (Group_ o)
              (Sort o) (Item o), e)
         else if String.eqb n "group" then
           let '(x, e) := json.unmarshal v (Group_ o) in
           (mkList (Q o) (Sr o) (Ds_ o) (Start o) (End_ o) (Total o) x
              (Sort o) (Item o), e)
         else if String.eqb n "sort" then
           let '(x, e) := json.unmarshal v (Sort o) in
           (mkList (Q o) (Sr o) (Ds_ o) (Start o) (End_ o) (Total o) (Group_ o)
              x (Item o), e)
         else
           let '(x, e) := json.unmarshal v (Item o) in
           (mkList (Q o) (Sr o) (Ds_ o) (Start o) (End_ o) (Total o) (Group_ o)
              (Sort o) x, e))
|}.

#[global] Instance unmarshaler : json.Unmarshaler t := {|
  json.zero := mk json.zero;
  json.typeName := "usda.USDASearch";
  json.unmarshal :=
    json.object "usda.USDASearch" ["list"]
      (fun n v o =>
         let '(x, e) := json.unmarshal v (List o) in (mk x, e))
|}.

End USDASearch.

Definition GetList (c : USDAclient) (ctx : context.Context)
  (params : option USDAListReqParams.t) (opts : option USDAQueryOptions)
  (w : Wire) : USDAList.t * option error * Wire :=
  let ul : USDAList.t := json.zero in
  match addQueryOptions "list" opts with
  | (_, Some err) => (ul, Some err, w)
  | (endQuery, None) =>
      match newRequest c endQuery params with
      | inl err => (ul, Some err, w)
      | inr req =>
          let '(_, err, ul, w) := do c ctx req ul w in
          (ul, err, w)
      end
  end.

Definition GetUSDASearch (c : USDAclient) (ctx : context.Context)
  (params : option USDASearchReqParams.t) (opts : option USDAQueryOptions)
  (w : Wire) : USDASearch.t * option error * Wire :=
  let us : USDASearch.t := json.zero in
  match addQueryOptions "search" opts with
  | (_, Some err) => (us, Some err, w)
  | (endQuery, None) =>
      match newRequest c endQuery params with
      | inl err => (us, Some err, w)
      | inr req =>
          let '(_, err, us, w) := do c ctx req us w in
          (us, err, w)
      end
  end.

Section Operations.

(** The two response shapes with floating-point and dynamically typed
    fields are taken as they come, each with its decoder. *)
Context {USDANutrientReport USDAFoodsReport : Type}.
Context `{!json.Unmarshaler USDANutrientReport}.
Context `{!json.Unmarshaler USDAFoodsReport}.

Definition GetUSDANutrientReport (c : USDAclient) (ctx : context.Context)
  (params : option USDANutrientsReqParams.t) (opts : option USDAQueryOptions)
  (w : Wire) : USDANutrientReport * option error * Wire :=
  let unr : USDANutrientReport := json.zero in
  match addQueryOptions "nutrients" opts with
  | (_, Some err) => (unr, Some err, w)
  | (endQuery, None) =>
      match newRequest c endQuery params with
      | inl err => (unr, Some err, w)
      | inr req =>
          let '(_, err, unr, w) := do c ctx req unr w in
          (unr, err, w)
      end
  end.

Definition GetUSDAFoodsReportV2 (c : USDAclient) (ctx : context.Context)
  (params : option USDAFoodsReqParams.t) (w : Wire)
  : USDAFoodsReport * option error * Wire :=
  let ufr : USDAFoodsReport := json.zero in
  match newRequest c "V2/reports" params with
  | inl err => (ufr, Some err, w)
  | inr req =>
      let '(_, err, ufr, w) := do c ctx req ufr w in
      (ufr, err, w)
  end.

(** ** The facade *)

Definition GetNutrientsReport (c : USDAclient) (ctx : context.Context)
  (w : Wire) : USDANutrientReport * option error * Wire :=
  let params :=
    Some (USDANutrientsReqParams.mk (Slice ["0300"]) EmptyString
            (Slice ["306"; "204"]) EmptyString) in
  let opts := Some (mkUSDAQueryOptions 10 0 "c") in
  GetUSDANutrientReport c ctx params opts w.

Definition GetFoodNutrientsReport (c : USDAclient) (ctx : context.Context)
  (ndbno : string) (w : Wire) : USDANutrientReport * option error * Wire :=
  let params :=
    Some (USDANutrientsReqParams.mk Nil ndbno (Slice ["306"; "204"])
            EmptyString) in
  let opts := Some (mkUSDAQueryOptions 100 0 "c") in
  GetUSDANutrientReport c ctx params opts w.

Definition GetBasicFoodReport (c : USDAclient) (ctx : context.Context)
  (ndbno : string) (w : Wire) : USDAFoodsReport * option error * Wire :=
  let params := Some (USDAFoodsReqParams.mk (Slice [ndbno]) "b") in
  GetUSDAFoodsReportV2 c ctx params w.

End Operations.

Definition GetListByType (c : USDAclient) (ctx : context.Context)
  (listType : string) (w : Wire) : USDAList.t * option error * Wire :=
  let params := Some (USDAListReqParams.mk listType) in
  let opts := Some (mkUSDAQueryOptions 1500 0 "id") in
  GetList c ctx params opts w.

Definition GetFoodNameSearch (c : USDAclient) (ctx : context.Context)
  (name : string) (w : Wire) : USDASearch.t * option error * Wire :=
  let params := Some (USDASearchReqParams.mk name EmptyString EmptyString) in
  let opts := Some (mkUSDAQueryOptions 100 0 "n") in
  GetUSDASearch c ctx params opts w.


(** ** Transports used as test doubles *)

(** A transport that fails every call with [err]. *)
Definition failingTransport (err : error) : http.Client :=
  http.mkClient (fun _ => inl err).

(** A transport that answers every call with a fixed status and body. *)
Definition cannedTransport (status : Z) (body : string) : http.Client :=
  http.mkClient (fun _ => inr (http.mkResponse status ∅ body)).

Definition newline : string := String "010" EmptyString.

(** ["k":"v"] fragments for writing JSON texts. *)
Definition qt (s : string) : string :=
  String json.dquote (s +:+ String json.dquote EmptyString).

(** The base URL of a client made with the access key [demo123]. *)
Definition demoBaseURL : url.URL :=
  url.mkURL "https" EmptyString
    (Some (url.mkUserinfo "demo123" EmptyString false))
    "api.nal.usda.gov" "/ndb/" EmptyString false false
    EmptyString EmptyString EmptyString.

Definition sampleRequest : http.Request :=
  http.mkRequest http.MethodPost demoBaseURL ∅ EmptyString 0
    "api.nal.usda.gov" context.Background.

(** A list response whose [start] has the wrong type. *)
Definition mistypedListBody : string :=
  "{" +:+ qt "list" +:+ ":{" +:+ qt "lt" +:+ ":" +:+ qt "f" +:+ ","
  +:+ qt "start" +:+ ":" +:+ qt "x" +:+ "}}".

(** A well-typed list response. *)
Definition goodListBody : string :=
  "{" +:+ qt "list" +:+ ":{" +:+ qt "lt" +:+ ":" +:+ qt "f" +:+ ","
  +:+ qt "start" +:+ ":1," +:+ qt "item" +:+ ":[{" +:+ qt "offset" +:+ ":0,"
  +:+ qt "id" +:+ ":" +:+ qt "0100" +:+ "}]}}".

(** Options present with every field at its zero value. *)
Definition defaultOptions : USDAQueryOptions :=
  mkUSDAQueryOptions 0 0 EmptyString.

(** The raw query of a URL text, as [url.Parse] cuts it out: what
    follows the first [?] of the text before the first [#]. *)
Definition rawQueryOf (rawURL : string) : string :=
  snd (fst (str.Cut (fst (fst (str.Cut rawURL "#"))) "?")).

(** The values [query.Values] builds for an options struct. *)
Definition optionValues (opts : USDAQueryOptions) : url.Values :=
  query.reflectValue ∅ (query.fields opts).

(** The query string of an options struct written out: the fields
    that are not zero, in the order [max], [offset], [sort]. *)
Definition optionQuery (opts : USDAQueryOptions) : string :=
  str.Join
    ((if (Max opts =? 0)%Z then []
      else ["max=" +:+ url.QueryEscape (strconv.Itoa (Max opts))])
     ++ (if (Offset opts =? 0)%Z then []
         else ["offset=" +:+ url.QueryEscape (strconv.Itoa (Offset opts))])
     ++ (if (String.length (Sort opts) =? 0)%nat then []
         else ["sort=" +:+ url.QueryEscape (Sort opts)]))
    "&".

(** [lacks c s]: the byte [c] does not occur in [s]. *)
Definition lacks (c : ascii) (s : string) : Prop := str.Contains s c = false.

Fixpoint allBytes (p : ascii -> bool) (s : string) : bool :=
  match s with
  | EmptyString => true
  | String c r => p c && allBytes p r
  end.

Definition isSchemeByte (c : ascii) : bool :=
  isLetter c || isDigit c || oneOf "+-." c.

(** The bytes [url.escape] writes for a byte it escapes. *)
Definition isEscapeByte (c : ascii) : bool :=
  Ascii.eqb c "%" || oneOf "0123456789ABCDEF+" c.

(** The fields of an options struct that are not zero, as key and
    value, in the order of the struct. *)
Definition optionPairs (opts : USDAQueryOptions) : list (string * string) :=
  (if (Max opts =? 0)%Z then [] else [("max", strconv.Itoa (Max opts))])
  ++ (if (Offset opts =? 0)%Z then []
      else [("offset", strconv.Itoa (Offset opts))])
  ++ (if (String.length (Sort opts) =? 0)%nat then []
      else [("sort", Sort opts)]).

(** A key and a value as they stand in an encoded query. *)
Definition queryPair (p : string * string) : string :=
  url.QueryEscape (fst p) +:+ "=" +:+ url.QueryEscape (snd p).

Definition addPair (m : url.Values) (p : string * string) : url.Values :=
  url.Add (fst p) (snd p) m.

(** ** Reading a request body back

    The request parameter types as destinations of the decoder, from
    their [json] tags. *)

#[global] Instance USDAListReqParams_Unmarshaler
  : json.Unmarshaler USDAListReqParams.t := {|
  json.zero := USDAListReqParams.mk EmptyString;
  json.typeName := "usda.USDAListReqParams";
  json.unmarshal :=
    json.object "usda.USDAListReqParams" ["lt"]
      (fun n v p =>
         let '(x, e) := json.unmarshal v (USDAListReqParams.Lt p) in
         (USDAListReqParams.mk x, e))
|}.

#[global] Instance USDANutrientsReqParams_Unmarshaler
  : json.Unmarshaler USDANutrientsReqParams.t := {|
  json.zero := USDANutrientsReqParams.mk Nil EmptyString Nil EmptyString;
  json.typeName := "usda.USDANutrientsReqParams";
  json.unmarshal :=
    json.object "usda.USDANutrientsReqParams"
      ["fg"; "ndbno"; "nutrients"; "subset"]
      (fun n v p =>
         let fg := USDANutrientsReqParams.Fg p in
         let ndbno := USDANutrientsReqParams.Ndbno p in
         let ids := USDANutrientsReqParams.NutrientsID p in
         let subset := USDANutrientsReqParams.Subset p in
         if String.eqb n "fg" then
           let '(x, e) := json.unmarshal v fg in
           (USDANutrientsReqParams.mk x ndbno ids subset, e)
         else if String.eqb n "ndbno" then
           let '(x, e) := json.unmarshal v ndbno in
           (USDANutrientsReqParams.mk fg x ids subset, e)
         else if String.eqb n "nutrients" then
           let '(x, e) := json.unmarshal v ids in
           (USDANutrientsReqParams.mk fg ndbno x subset, e)
         else
           let '(x, e) := json.unmarshal v subset in
           (USDANutrientsReqParams.mk fg ndbno ids x, e))
|}.

#[global] Instance USDAFoodsReqParams_Unmarshaler
  : json.Unmarshaler USDAFoodsReqParams.t := {|
  json.zero := USDAFoodsReqParams.mk Nil EmptyString;
  json.typeName := "usda.USDAFoodsReqParams";
  json.unmarshal :=
    json.object "usda.USDAFoodsReqParams" ["ndbno"; "type"]
      (fun n v p =>
         if String.eqb n "ndbno" then
           let '(x, e) := json.unmarshal v (USDAFoodsReqParams.Ndbno p) in
           (USDAFoodsReqParams.mk x (USDAFoodsReqParams.Type_ p), e)
         else
           let '(x, e) := json.unmarshal v (USDAFoodsReqParams.Type_ p) in
           (USDAFoodsReqParams.mk (USDAFoodsReqParams.Ndbno p) x, e))
|}.

#[global] Instance USDASearchReqParams_Unmarshaler
  : json.Unmarshaler USDASearchReqParams.t := {|
  json.zero := USDASearchReqParams.mk EmptyString EmptyString EmptyString;
  json.typeName := "usda.USDASearchReqParams";
  json.unmarshal :=
    json.object "usda.USDASearchReqParams" ["q"; "ds"; "fg"]
      (fun n v p =>
         let q := USDASearchReqParams.Q p in
         let ds := USDASearchReqParams.Ds p in
         let fg := USDASearchReqParams.Fg p in
         if String.eqb n "q" then
           let '(x, e) := json.unmarshal v q in
           (USDASearchReqParams.mk x ds fg, e)
         else if String.eqb n "ds" then
           let '(x, e) := json.unmarshal v ds in
           (USDASearchReqParams.mk q x fg, e)
         else
           let '(x, e) := json.unmarshal v fg in
           (USDASearchReqParams.mk q ds x, e))
|}.

(** What a slice of strings reads back as: the nil slice stays nil, and
    every string is coerced to well-formed UTF-8. *)
Definition readBackSlice (s : slice string) : slice string :=
  match s with
  | Nil => Nil
  | Slice l => Slice (List.map utf8.coerce l)
  end.

(** The same for a slice tagged [omitempty]: an empty slice is left
    out of the body and reads back as nil. *)
Definition readBackOmitted (s : slice string) : slice string :=
  if (len s =? 0)%nat then Nil else readBackSlice s.

Definition readBackList (p : USDAListReqParams.t) : USDAListReqParams.t :=
  USDAListReqParams.mk (utf8.coerce (USDAListReqParams.Lt p)).

Definition readBackNutrients (p : USDANutrientsReqParams.t)
  : USDANutrientsReqParams.t :=
  USDANutrientsReqParams.mk
    (readBackOmitted (USDANutrientsReqParams.Fg p))
    (utf8.coerce (USDANutrientsReqParams.Ndbno p))
    (readBackSlice (USDANutrientsReqParams.NutrientsID p))
    (utf8.coerce (USDANutrientsReqParams.Subset p)).

Definition readBackFoods (p : USDAFoodsReqParams.t) : USDAFoodsReqParams.t :=
  USDAFoodsReqParams.mk
    (readBackSlice (USDAFoodsReqParams.Ndbno p))
    (utf8.coerce (USDAFoodsReqParams.Type_ p)).

Definition readBackSearch (p : USDASearchReqParams.t) : USDASearchReqParams.t :=
  USDASearchReqParams.mk
    (utf8.coerce (USDASearchReqParams.Q p))
    (utf8.coerce (USDASearchReqParams.Ds p))
    (utf8.coerce (USDASearchReqParams.Fg p)).

(** Well-formed parameter values: every string is valid UTF-8. *)
Definition validSlice (s : slice string) : bool :=
  forallb utf8.ValidString (items s).

Definition validList (p : USDAListReqParams.t) : bool :=
  utf8.ValidString (USDAListReqParams.Lt p).

Definition validNutrients (p : USDANutrientsReqParams.t) : bool :=
  validSlice (USDANutrientsReqParams.Fg p)
  && utf8.ValidString (USDANutrientsReqParams.Ndbno p)
  && validSlice (USDANutrientsReqParams.NutrientsID p)
  && utf8.ValidString (USDANutrientsReqParams.Subset p).

Definition validFoods (p : USDAFoodsReqParams.t) : bool :=
  validSlice (USDAFoodsReqParams.Ndbno p)
  && utf8.ValidString (USDAFoodsReqParams.Type_ p).

Definition validSearch (p : USDASearchReqParams.t) : bool :=
  utf8.ValidString (USDASearchReqParams.Q p)
  && utf8.ValidString (USDASearchReqParams.Ds p)
  && utf8.ValidString (USDASearchReqParams.Fg p).

(** ** JSON values as they read back *)

(** A value with every string and key coerced to well-formed UTF-8. *)
Fixpoint sanitize (v : json.value) : json.value :=
  match v with
  | json.Str s => json.Str (utf8.coerce s)
  | json.Array elems => json.Array (List.map sanitize elems)
  | json.Object members =>
      json.Object
        (List.map (fun m => (utf8.coerce (fst m), sanitize (snd m))) members)
  | other => other
  end.

(** Values without numbers: what the request parameters marshal to. *)
Fixpoint numberFree (v : json.value) : bool :=
  match v with
  | json.Number _ => false
  | json.Array elems => forallb numberFree elems
  | json.Object members => forallb (fun m => numberFree (snd m)) members
  | _ => true
  end.


(** ** Quantifying over bytes by evaluation *)

Definition forallBool (p : bool -> bool) : bool := p true && p false.

Definition forallByte (p : ascii -> bool) : bool :=
  forallBool (fun b0 => forallBool (fun b1 => forallBool (fun b2 =>
  forallBool (fun b3 => forallBool (fun b4 => forallBool (fun b5 =>
  forallBool (fun b6 => forallBool (fun b7 =>
    p (Ascii b0 b1 b2 b3 b4 b5 b6 b7))))))))).

Definition inRange (lo hi : N) (c : ascii) : bool :=
  (lo <=? code c) && (code c <=? hi).

(** The checks evaluated over all bytes: the payload of a continuation
    byte, and of a lead byte with its second byte. *)
Definition contCheck (b : ascii) : bool :=
  implb (utf8.isCont b)
    ((code b =? 128 + utf8.low 63 b) && (utf8.low 63 b <? 64)).

Definition leadCheck (b0 b1 : ascii) : bool :=
  match utf8.lead b0 with
  | None => true
  | Some (size, lo, hi) =>
      if inRange lo hi b1 then
        utf8.isCont b1
        && match size with
           | 2%nat =>
               (code b0 =? 192 + utf8.low 31 b0)
               && (2 <=? utf8.low 31 b0) && (utf8.low 31 b0 <? 32)
           | 3%nat =>
               (code b0 =? 224 + utf8.low 15 b0) && (utf8.low 15 b0 <? 16)
               && (let p := utf8.low 15 b0 * 64 + utf8.low 63 b1 in
                   ((32 <=? p) && (p <? 864)) || ((896 <=? p) && (p <? 1024)))
           | 4%nat =>
               (code b0 =? 240 + utf8.low 7 b0) && (utf8.low 7 b0 <? 8)
               && (let p := utf8.low 7 b0 * 64 + utf8.low 63 b1 in
                   (16 <=? p) && (p <? 272))
           | _ => false
           end
      else true
  end.

(** ** Helpers for the statements about JSON texts *)

Definition emitted (out : string) (r : result (string * string))
  : result (string * string) :=
  match r with
  | inl e => inl e
  | inr (t, rest) => inr (out +:+ t, rest)
  end.

(** The first byte of an encoded value without numbers. *)
Definition opensValue (c : ascii) : bool := oneOf "ntf[{" c || Ascii.eqb c json.dquote.

Definition readsBack (v : json.value) : Prop :=
  numberFree v = true ->
  forall fuel rest,
    (String.length (json.encodeValue v) < fuel)%nat ->
    json.parseValue fuel (json.encodeValue v +:+ rest) = inr (sanitize v, rest).

Definition encodeMember (m : string * json.value) : string :=
  json.quote (fst m) +:+ ":" +:+ json.encodeValue (snd m).

Definition sanitizeMember (m : string * json.value) : string * json.value :=
  (utf8.coerce (fst m), sanitize (snd m)).

(** ** Helpers for the statements about requests *)

(** The two bytes that end the part of a URL before the query. *)
Definition isDelimiter (c : ascii) : Prop := c = "?"%char \/ c = "#"%char.

(** A Go string as it reads back from a JSON text. *)
Definition strValue (s : string) : json.value := json.Str (utf8.coerce s).

(** What the request of an operation looks like, where [u] is the
    parsed target and [params] the parameters: a POST with the JSON
    content type, to [u], whose body, decoded into a pointer to the
    parameter type, gives [readBack] of the parameters. *)
Definition jsonPost {P : Type} `{!json.Unmarshaler P}
  (u : url.URL) (params : option P) (readBack : P -> P)
  (req : http.Request) : Prop :=
  http.Method req = http.MethodPost
  /\ http.HeaderGet req "Content-Type" = "application/json"
  /\ http.URL req = url.withHost u (http.removeEmptyPort (url.Host u))
  /\ json.Decode (http.Body req) (None : option P)
     = (option_map readBack params, None).

(** What an operation sends, given the outcome [encoded] of adding the
    options to its path: nothing when the options or the target are
    rejected, and else one request, to the base URL followed by the
    path. *)
Definition sendsJsonPost {P : Type} `{!json.Unmarshaler P}
  (c : USDAclient) (encoded : string * option error) (params : option P)
  (readBack : P -> P) (w w' : Wire) : Prop :=
  match encoded with
  | (_, Some _) => w' = w
  | (path, None) =>
      match url.Parse (url.String_ (baseURL c) +:+ path) with
      | inl _ => w' = w
      | inr u => exists req, w' = w ++ [req] /\ jsonPost u params readBack req
      end
  end.

(** What holds of the value [v] an operation returns with the error
    [e], where [w] is the wire before the call and [w'] after it.
    The value is the zero value, unless the request the call sent was
    answered by the transport with a response whose body was read as a
    JSON value, and the error is the decoder's report on storing that
    value into the zero value; [v] is then what the decoder stored.
    In particular the value is the zero value when nothing was sent
    (the options or the request were rejected), when the transport
    failed the request sent, and when the body of its response was
    not read as JSON. *)
Definition errorOutcome {T} `{!json.Unmarshaler T} (c : USDAclient)
  (w w' : Wire) (v : T) (e : error) : Prop :=
  (v = json.zero
   \/ exists req r x rest,
        w' = w ++ [req]
        /\ http.Do (httpClient c) req = inr r
        /\ json.readValue (http.respBody r) = inr (x, rest)
        /\ json.unmarshal x json.zero = (v, Some e))
  /\ (w' = w -> v = json.zero)
  /\ (forall req err,
        w' = w ++ [req] -> http.Do (httpClient c) req = inl err ->
        v = json.zero)
  /\ (forall req r err,
        w' = w ++ [req] -> http.Do (httpClient c) req = inr r ->
        json.readValue (http.respBody r) = inl err ->
        v = json.zero).

(** ** Helpers for the statements beyond the claims *)

Definition isUnreserved (c : ascii) : bool :=
  isLetter c || isDigit c || oneOf "-_.~" c.

Definition isPathByte (c : ascii) : bool :=
  isUnreserved c || Ascii.eqb c "/".

Definition isTailByte (c : ascii) : bool :=
  isPathByte c || Ascii.eqb c "@".

Definition isCTL (c : ascii) : bool := (code c <? 0x20) || (code c =? 0x7F).

Definition queryPart (q : string) : string :=
  if url.nonEmpty q then "?" +:+ q else EmptyString.

Definition requestURL (key p q : string) : url.URL :=
  url.mkURL "https" EmptyString (Some (url.mkUserinfo key EmptyString false))
    "api.nal.usda.gov" ("/ndb/" +:+ p) EmptyString false false q
    EmptyString EmptyString.

(** The request [newRequest] builds for a client with the key [key]:
    a POST to the endpoint path [path] with the query [query]. *)
Definition builtRequest (key path query body : string) (ctx : context.Context)
  : http.Request :=
  http.mkRequest http.MethodPost (requestURL key path query)
    {[ "Content-Type" := ["application/json"] ]} body
    (Z.of_nat (String.length body)) "api.nal.usda.gov" ctx.

(** The query string of optional options. *)
Definition queryOf (opts : option USDAQueryOptions) : string :=
  match opts with
  | None => EmptyString
  | Some o => optionQuery o
  end.

(** The body written for a value. *)
Definition bodyOf {T} `{!json.Marshaler T} (data : T) : string :=
  json.encodeValue (json.marshal data) +:+ newline.

(** What an operation returns once its request [req] is handed to the
    transport [hc]: the transport's error (the context's error when the
    context is done) with the zero value, or what the decoder makes of
    the response body; the request is on the wire in both cases. *)
Definition transportResult {T} `{!json.Unmarshaler T} (hc : http.Client)
  (ctx : context.Context) (req : http.Request) (w : Wire)
  : T * option error * Wire :=
  match http.Do hc req with
  | inl e =>
      (json.zero, if context.Done ctx then context.Err ctx else Some e,
       w ++ [req])
  | inr r =>
      (fst (json.Decode (http.respBody r) json.zero),
       snd (json.Decode (http.respBody r) json.zero), w ++ [req])
  end.

(** The common shape of the four operations, given the outcome [built]
    of adding the options to the path. *)
Definition operationResult {P T} `{!json.Marshaler P} `{!json.Unmarshaler T}
  (c : USDAclient) (ctx : context.Context) (built : string * option error)
  (params : P) (w : Wire) : T * option error * Wire :=
  match built with
  | (_, Some err) => (json.zero, Some err, w)
  | (endQuery, None) =>
      match newRequest c endQuery params with
      | inl err => (json.zero, Some err, w)
      | inr req =>
          transportResult (httpClient c) ctx (http.WithContext req ctx) w
      end
  end.

(** The bytes a JSON value can begin with. *)
Definition startsValue (c : ascii) : bool :=
  Ascii.eqb c "{" || Ascii.eqb c "[" || Ascii.eqb c json.dquote
  || (Ascii.eqb c "-" || isDigit c)
  || Ascii.eqb c "t" || Ascii.eqb c "f" || Ascii.eqb c "n".

(** A response value that carries nothing for a struct whose only
    field is [list]: [null], or an object without that key in any
    letter case. *)
Definition carriesNoList (x : json.value) : Prop :=
  x = json.Null
  \/ exists members,
       x = json.Object members
       /\ forall m, In m members -> json.foldName (fst m) <> "list".

(** The URL of a client made with the key [h/r]: the text before the
    slash is its host. *)
Definition strayURL (h tail q : string) : url.URL :=
  url.mkURL "https" EmptyString None h (String "/" tail) EmptyString
    false false q EmptyString EmptyString.

Definition demoClient (hc : http.Client) : USDAclient :=
  mkUSDAclient demoBaseURL hc.

(** An error report of the service. *)
Definition errorReportBody : string :=
  "{" +:+ qt "errors" +:+ ":{" +:+ qt "error" +:+ ":[{" +:+ qt "status"
  +:+ ":400}]}}".

(** The request of [GetList] without parameters and options. *)
Definition bareListRequest (ctx : context.Context) : http.Request :=
  builtRequest "demo123" "list" EmptyString ("null" +:+ newline) ctx.

(** What may follow a number literal: the end of the text, or a byte
    that does not continue the literal. *)
Definition endsNumber (rest : string) : bool :=
  match rest with
  | EmptyString => true
  | String c _ =>
      negb (isDigit c || Ascii.eqb c "." || Ascii.eqb c "e" || Ascii.eqb c "E")
  end.

(** A number literal as [strconv.Itoa] writes a Go [int]. *)
Definition isItoa (lit : string) : bool :=
  match strconv.ParseInt lit with
  | Some i => String.eqb (strconv.Itoa i) lit
  | None => false
  end.

(** Values whose numbers are such literals: what structs with string
    and [int] fields marshal to. *)
Fixpoint intsOnly (v : json.value) : bool :=
  match v with
  | json.Number lit => isItoa lit
  | json.Array elems => forallb intsOnly elems
  | json.Object members => forallb (fun m => intsOnly (snd m)) members
  | _ => true
  end.

Definition isNumber (v : json.value) : bool :=
  match v with
  | json.Number _ => true
  | _ => false
  end.

Definition readsBackInts (v : json.value) : Prop :=
  intsOnly v = true ->
  forall fuel rest,
    (String.length (json.encodeValue v) < fuel)%nat ->
    (isNumber v = true -> endsNumber rest = true) ->
    json.parseValue fuel (json.encodeValue v +:+ rest) = inr (sanitize v, rest).

(** The first byte of an encoded value. *)
Definition opensAny (c : ascii) : bool :=
  opensValue c || Ascii.eqb c "-" || isDigit c.

(** The response types as sources of the encoder, from their [json]
    tags: what [json.Marshal] writes for a value of the type, so what a
    Go server sends. *)
#[global] Instance int_Marshaler : json.Marshaler Z := {|
  json.isEmptyValue i := (i =? 0)%Z;
  json.marshal i := json.Number (strconv.Itoa i)
|}.

#[global] Instance USDAList_item_Marshaler : json.Marshaler USDAList.item := {|
  json.isEmptyValue _ := false;
  json.marshal it :=
    json.Object
      (json.member "offset" false (USDAList.Offset it)
       ++ json.member "id" false (USDAList.ID it)
       ++ json.member "name" false (USDAList.Name it))
|}.

#[global] Instance USDAList_list_Marshaler : json.Marshaler USDAList.list_ := {|
  json.isEmptyValue _ := false;
  json.marshal l :=
    json.Object
      (json.member "lt" false (USDAList.Lt l)
       ++ json.member "start" false (USDAList.Start l)
       ++ json.member "end" false (USDAList.End_ l)
       ++ json.member "total" false (USDAList.Total l)
       ++ json.member "sr" false (USDAList.Sr l)
       ++ json.member "sort" false (USDAList.Sort l)
       ++ json.member "item" false (USDAList.Item l))
|}.

#[global] Instance USDAList_Marshaler : json.Marshaler USDAList.t := {|
  json.isEmptyValue _ := false;
  json.marshal u := json.Object (json.member "list" false (USDAList.List u))
|}.

(** A Go [int] (64 bits). *)
Definition isInt (i : Z) : bool := ((- 2 ^ 63 <=? i) && (i <? 2 ^ 63))%Z.

(** Responses a Go program can hold and that read back as they are:
    numbers within [int], strings of valid UTF-8. *)
Definition validListItem (it : USDAList.item) : bool :=
  isInt (USDAList.Offset it) && utf8.ValidString (USDAList.ID it)
  && utf8.ValidString (USDAList.Name it).

Definition validListResponse (u : USDAList.t) : bool :=
  let l := USDAList.List u in
  utf8.ValidString (USDAList.Lt l) && isInt (USDAList.Start l)
  && isInt (USDAList.End_ l) && isInt (USDAList.Total l)
  && utf8.ValidString (USDAList.Sr l) && utf8.ValidString (USDAList.Sort l)
  && forallb validListItem (items (USDAList.Item l)).

Definition validList_ (l : USDAList.list_) : bool :=
  utf8.ValidString (USDAList.Lt l) && isInt (USDAList.Start l)
  && isInt (USDAList.End_ l) && isInt (USDAList.Total l)
  && utf8.ValidString (USDAList.Sr l) && utf8.ValidString (USDAList.Sort l)
  && forallb validListItem (items (USDAList.Item l)).

#[global] Instance USDASearch_item_Marshaler
  : json.Marshaler USDASearch.item := {|
  json.isEmptyValue _ := false;
  json.marshal it :=
    json.Object
      (json.member "offset" false (USDASearch.Offset it)
       ++ json.member "group" false (USDASearch.Group it)
       ++ json.member "name" false (USDASearch.Name it)
       ++ json.member "ndbno" false (USDASearch.Ndbno it)
       ++ json.member "ds" false (USDASearch.Ds it)
       ++ json.member "manu" false (USDASearch.Manu it))
|}.

#[global] Instance USDASearch_list_Marshaler
  : json.Marshaler USDASearch.list_ := {|
  json.isEmptyValue _ := false;
  json.marshal l :=
    json.Object
      (json.member "q" false (USDASearch.Q l)
       ++ json.member "sr" false (USDASearch.Sr l)
       ++ json.member "ds" false (USDASearch.Ds_ l)
       ++ json.member "start" false (USDASearch.Start l)
       ++ json.member "end" false (USDASearch.End_ l)
       ++ json.member "total" false (USDASearch.Total l)
       ++ json.member "group" false (USDASearch.Group_ l)
       ++ json.member "sort" false (USDASearch.Sort l)
       ++ json.member "item" false (USDASearch.Item l))
|}.

#[global] Instance USDASearch_Marshaler : json.Marshaler USDASearch.t := {|
  json.isEmptyValue _ := false;
  json.marshal u := json.Object (json.member "list" false (USDASearch.List u))
|}.

Definition validSearchItem (it : USDASearch.item) : bool :=
  isInt (USDASearch.Offset it) && utf8.ValidString (USDASearch.Group it)
  && utf8.ValidString (USDASearch.Name it)
  && utf8.ValidString (USDASearch.Ndbno it)
  && utf8.ValidString (USDASearch.Ds it)
  && utf8.ValidString (USDASearch.Manu it).

Definition validSearch_ (l : USDASearch.list_) : bool :=
  utf8.ValidString (USDASearch.Q l) && utf8.ValidString (USDASearch.Sr l)
  && utf8.ValidString (USDASearch.Ds_ l) && isInt (USDASearch.Start l)
  && isInt (USDASearch.End_ l) && isInt (USDASearch.Total l)
  && utf8.ValidString (USDASearch.Group_ l)
  && utf8.ValidString (USDASearch.Sort l)
  && forallb validSearchItem (items (USDASearch.Item l)).

Definition validSearchResponse (u : USDASearch.t) : bool :=
  validSearch_ (USDASearch.List u).

(** A list response for the instances below. *)
Definition sampleList : USDAList.t :=
  USDAList.mk
    (USDAList.mkList "f" 0 2 150 "28" "n"
       (Slice [USDAList.mkItem 0 "01009" "Cheese, cheddar";
               USDAList.mkItem (-1) "01010" "Cheese <cheshire>"])).

Definition sampleSearch : USDASearch.t :=
  USDASearch.mk
    (USDASearch.mkList "apple" "28" "any" 0 1 1 EmptyString "n"
       (Slice [USDASearch.mkItem 0 "Fruits" "Apples, raw" "09003" "SR" "none"])).

(** * Verification *)

(** ** The dispatcher *)

Section Dispatch.

Context {T : Type} `{!json.Unmarshaler T}.
Implicit Types (c : USDAclient) (ctx : context.Context) (req : http.Request).
Implicit Types (v : T) (w : Wire).

Lemma do_wire c ctx req v w :
  snd (do c ctx req v w) = w ++ [http.WithContext req ctx].
Proof.
  unfold do.
  destruct (http.Do (httpClient c) (http.WithContext req ctx)) as [e|resp].
  - destruct (context.Done ctx); reflexivity.
  - destruct (json.Decode (http.respBody resp) v); reflexivity.
Qed.

Lemma do_transport_failure c ctx req v w e :
  http.Do (httpClient c) (http.WithContext req ctx) = inl e ->
  do c ctx req v w =
    (None, (if context.Done ctx then context.Err ctx else Some e), v,
     w ++ [http.WithContext req ctx]).
Proof.
  intros Hdo. unfold do. rewrite Hdo. destruct (context.Done ctx); reflexivity.
Qed.

Lemma do_transport_success c ctx req v w resp :
  http.Do (httpClient c) (http.WithContext req ctx) = inr resp ->
  do c ctx req v w =
    (Some resp, snd (json.Decode (http.respBody resp) v),
     fst (json.Decode (http.respBody resp) v),
     w ++ [http.WithContext req ctx]).
Proof.
  intros Hdo. unfold do. rewrite Hdo.
  destruct (json.Decode (http.respBody resp) v); reflexivity.
Qed.

(** C4: when the transport fails, a context that is done makes [do]
    return the context's error, whatever the transport's error; a
    context that is not done makes it return the transport's error. *)
Theorem C4_cancellation_takes_precedence c ctx req v w e :
  http.Do (httpClient c) (http.WithContext req ctx) = inl e ->
  (forall cerr, ctx = context.done cerr ->
     do c ctx req v w = (None, Some cerr, v, w ++ [http.WithContext req ctx]))
  /\ (context.Done ctx = false ->
      do c ctx req v w = (None, Some e, v, w ++ [http.WithContext req ctx])).
Proof.
  intros Hdo. rewrite (do_transport_failure _ _ _ _ _ _ Hdo). split.
  - intros cerr ->. reflexivity.
  - intros ->. reflexivity.
Qed.

(** C9: [do] does not look at the status code. Whatever status the
    response carries, its body is decoded into the destination, and
    the decoder's result is the result of [do]; a body the decoder
    accepts gives the decoded destination and no error. *)
Theorem C9_status_code_is_ignored c ctx req v w status hdr body :
  http.Do (httpClient c) (http.WithContext req ctx)
    = inr (http.mkResponse status hdr body) ->
  do c ctx req v w =
    (Some (http.mkResponse status hdr body), snd (json.Decode body v),
     fst (json.Decode body v), w ++ [http.WithContext req ctx])
  /\ (forall v', json.Decode body v = (v', None) ->
        do c ctx req v w =
          (Some (http.mkResponse status hdr body), None, v',
           w ++ [http.WithContext req ctx])).
Proof.
  intros Hdo. rewrite (do_transport_success _ _ _ _ _ _ Hdo). simpl. split.
  - reflexivity.
  - intros v' ->. reflexivity.
Qed.

End Dispatch.

(** Witness of C4: a refused connection under a cancelled context. *)
Lemma C4_witness :
  http.Do (httpClient (mkUSDAclient demoBaseURL
                         (failingTransport (errorString "connection refused"))))
    (http.WithContext sampleRequest (context.done context_Canceled))
  = inl (errorString "connection refused")
  /\ do (mkUSDAclient demoBaseURL
           (failingTransport (errorString "connection refused")))
        (context.done context_Canceled) sampleRequest
        (json.zero : USDAList.t) []
     = (None, Some context_Canceled, json.zero,
        [http.WithContext sampleRequest (context.done context_Canceled)]).
Proof.
  split; [reflexivity|].
  exact (proj1 (C4_cancellation_takes_precedence
                  (mkUSDAclient demoBaseURL
                     (failingTransport (errorString "connection refused")))
                  (context.done context_Canceled) sampleRequest
                  (json.zero : USDAList.t) []
                  (errorString "connection refused") eq_refl)
           context_Canceled eq_refl).
Defined.

(** Witness of C9: a 404 response with a well-typed list body fills
    the destination and gives no error. *)
Lemma C9_witness :
  http.Do (httpClient (mkUSDAclient demoBaseURL (cannedTransport 404 goodListBody)))
    (http.WithContext sampleRequest context.Background)
  = inr (http.mkResponse 404 ∅ goodListBody)
  /\ do (mkUSDAclient demoBaseURL (cannedTransport 404 goodListBody))
        context.Background sampleRequest (json.zero : USDAList.t) []
     = (Some (http.mkResponse 404 ∅ goodListBody), None,
        USDAList.mk
          (USDAList.mkList "f" 1 0 0 EmptyString EmptyString
             (Slice [USDAList.mkItem 0 "0100" EmptyString])),
        [http.WithContext sampleRequest context.Background]).
Proof.
  split; [reflexivity|].
  exact (proj2 (C9_status_code_is_ignored
                  (mkUSDAclient demoBaseURL (cannedTransport 404 goodListBody))
                  context.Background sampleRequest
                  (json.zero : USDAList.t) [] 404 ∅ goodListBody eq_refl)
           _ eq_refl).
Defined.

(** ** Client construction *)

Lemma NewClient_demo DefaultClient hc :
  NewClient DefaultClient "demo123" hc
  = returned (mkUSDAclient demoBaseURL
                match hc with None => DefaultClient | Some c => c end).
Proof. reflexivity. Qed.

(** C6, as the code has it: construction panics exactly when
    [url.Parse] rejects the base URL made from the key, and then with
    the parser's error. The key [%] (a cut-off percent escape) makes it
    panic; the key [@] does not: the last [@] ends the user
    information, the first is kept as the user name and written back
    as [%40]. *)
Theorem C6_construction_panics_iff_unparseable DefaultClient apiKey hc :
  (forall e,
     NewClient DefaultClient apiKey hc = panicked e
     <-> url.Parse ("https://" +:+ apiKey +:+ "@api.nal.usda.gov/ndb/") = inl e)
  /\ NewClient DefaultClient "%" hc
     = panicked (url_Error "parse" "https://%@api.nal.usda.gov/ndb/"
                   (EscapeError "%"))
  /\ (exists c,
        NewClient DefaultClient "@" hc = returned c
        /\ url.User (baseURL c) = Some (url.mkUserinfo "@" EmptyString false)
        /\ url.String_ (baseURL c) = "https://%40@api.nal.usda.gov/ndb/").
Proof.
  split; [|split].
  - intros e. unfold NewClient, entryPointURL.
    destruct (url.Parse _) as [e'|u]; split; intros Heq;
      inversion Heq; reflexivity.
  - reflexivity.
  - eexists. split; [reflexivity|]. split; reflexivity.
Qed.

(** C6 as stated fails: with the access key [@] construction returns
    a client. *)
Lemma C6_counterexample :
  NewClient (failingTransport io_EOF) "@" None
  = returned
      (mkUSDAclient
         (url.mkURL "https" EmptyString
            (Some (url.mkUserinfo "@" EmptyString false))
            "api.nal.usda.gov" "/ndb/" EmptyString false false
            EmptyString EmptyString EmptyString)
         (failingTransport io_EOF))
  /\ forall e, NewClient (failingTransport io_EOF) "@" None <> panicked e.
Proof. split; [reflexivity|]. intros e. discriminate. Qed.

(** ** Query options *)

Lemma Encode_empty : url.Encode ∅ = EmptyString.
Proof. reflexivity. Qed.

(** C3, as the code has it: without options the path is returned as
    it is, for every path. With options that are all zero the path is
    parsed and written back with an empty query; that is the input for
    the three endpoint paths, and an unparseable path comes back as it
    is, with the parser's error. *)
Theorem C3_no_options_no_query pathAPI :
  addQueryOptions pathAPI None = (pathAPI, None)
  /\ addQueryOptions pathAPI (Some defaultOptions)
     = match url.Parse pathAPI with
       | inl err => (pathAPI, Some err)
       | inr u => (url.String_ (url.withRawQuery u EmptyString), None)
       end
  /\ addQueryOptions "list" (Some defaultOptions) = ("list", None)
  /\ addQueryOptions "nutrients" (Some defaultOptions) = ("nutrients", None)
  /\ addQueryOptions "search" (Some defaultOptions) = ("search", None).
Proof.
  split; [reflexivity|]. split; [|repeat split; reflexivity].
  unfold addQueryOptions. simpl.
  destruct (url.Parse pathAPI); reflexivity.
Qed.

(** C3 as stated fails: a path with a query string of its own loses
    it when the options are all zero. *)
Lemma C3_counterexample :
  addQueryOptions "list?x=1" (Some (mkUSDAQueryOptions 0 0 EmptyString))
  = ("list", None)
  /\ "list" <> "list?x=1".
Proof. split; [reflexivity|discriminate]. Qed.

(** ** What the operations put on the wire *)

Lemma GetList_wire c ctx params opts w :
  snd (GetList c ctx params opts w)
  = match addQueryOptions "list" opts with
    | (_, Some _) => w
    | (endQuery, None) =>
        match newRequest c endQuery params with
        | inl _ => w
        | inr req => w ++ [http.WithContext req ctx]
        end
    end.
Proof.
  unfold GetList. destruct (addQueryOptions _ _) as [q [e|]]; [reflexivity|].
  destruct (newRequest _ _ _) as [e|req]; [reflexivity|].
  pose proof (do_wire c ctx req (json.zero : USDAList.t) w) as Hw.
  destruct (do _ _ _ _ _) as [[[? ?] ?] ?]. exact Hw.
Qed.

Lemma GetUSDASearch_wire c ctx params opts w :
  snd (GetUSDASearch c ctx params opts w)
  = match addQueryOptions "search" opts with
    | (_, Some _) => w
    | (endQuery, None) =>
        match newRequest c endQuery params with
        | inl _ => w
        | inr req => w ++ [http.WithContext req ctx]
        end
    end.
Proof.
  unfold GetUSDASearch. destruct (addQueryOptions _ _) as [q [e|]]; [reflexivity|].
  destruct (newRequest _ _ _) as [e|req]; [reflexivity|].
  pose proof (do_wire c ctx req (json.zero : USDASearch.t) w) as Hw.
  destruct (do _ _ _ _ _) as [[[? ?] ?] ?]. exact Hw.
Qed.

Section OperationsWire.

Context {USDANutrientReport USDAFoodsReport : Type}.
Context `{!json.Unmarshaler USDANutrientReport}.
Context `{!json.Unmarshaler USDAFoodsReport}.

Lemma GetUSDANutrientReport_wire c ctx params opts w :
  snd (GetUSDANutrientReport (USDANutrientReport := USDANutrientReport)
         c ctx params opts w)
  = match addQueryOptions "nutrients" opts with
    | (_, Some _) => w
    | (endQuery, None) =>
        match newRequest c endQuery params with
        | inl _ => w
        | inr req => w ++ [http.WithContext req ctx]
        end
    end.
Proof.
  unfold GetUSDANutrientReport.
  destruct (addQueryOptions _ _) as [q [e|]]; [reflexivity|].
  destruct (newRequest _ _ _) as [e|req]; [reflexivity|].
  pose proof (do_wire c ctx req (json.zero : USDANutrientReport) w) as Hw.
  destruct (do _ _ _ _ _) as [[[? ?] ?] ?]. exact Hw.
Qed.

Lemma GetUSDAFoodsReportV2_wire c ctx params w :
  snd (GetUSDAFoodsReportV2 (USDAFoodsReport := USDAFoodsReport) c ctx params w)
  = match newRequest c "V2/reports" params with
    | inl _ => w
    | inr req => w ++ [http.WithContext req ctx]
    end.
Proof.
  unfold GetUSDAFoodsReportV2.
  destruct (newRequest _ _ _) as [e|req]; [reflexivity|].
  pose proof (do_wire c ctx req (json.zero : USDAFoodsReport) w) as Hw.
  destruct (do _ _ _ _ _) as [[[? ?] ?] ?]. exact Hw.
Qed.

End OperationsWire.

Lemma nameSearch_path :
  addQueryOptions "search" (Some (mkUSDAQueryOptions 100 0 "n"))
  = ("search?max=100&sort=n", None).
Proof. vm_compute. reflexivity. Qed.

(** C1, as the code has it: the name search for ["apple"] by a client
    made with the key ["demo123"] sends one request; its URL ends in
    [search?max=100&sort=n] (the zero offset is left out), and its
    body reads as [{"q":"apple"}]. *)
Theorem C1_name_search_request DefaultClient hc ctx w :
  exists c req,
    NewClient DefaultClient "demo123" hc = returned c
    /\ snd (GetFoodNameSearch c ctx "apple" w) = w ++ [req]
    /\ url.String_ (http.URL req)
       = "https://demo123@api.nal.usda.gov/ndb/search?max=100&sort=n"
    /\ str.HasSuffix (url.String_ (http.URL req)) "search?max=100&sort=n" = true
    /\ url.Path (http.URL req) = "/ndb/search"
    /\ url.RawQuery (http.URL req) = "max=100&sort=n"
    /\ json.readValue (http.Body req)
       = inr (json.Object [("q", json.Str "apple")], newline).
Proof.
  rewrite NewClient_demo. eexists. eexists. split; [reflexivity|].
  unfold GetFoodNameSearch. rewrite GetUSDASearch_wire, nameSearch_path.
  set (r := newRequest _ _ _). vm_compute in r. subst r. cbv iota beta.
  split; [reflexivity|].
  repeat split; vm_compute; reflexivity.
Qed.

(** C1 as stated fails: the request of the name search carries no
    [offset] parameter, so its URL does not end in
    [search?max=100&offset=0&sort=n]. *)
Lemma C1_counterexample :
  exists c req,
    NewClient (failingTransport io_EOF) "demo123" None = returned c
    /\ snd (GetFoodNameSearch c context.Background "apple" []) = [req]
    /\ url.String_ (http.URL req)
       = "https://demo123@api.nal.usda.gov/ndb/search?max=100&sort=n"
    /\ str.HasSuffix (url.String_ (http.URL req))
         "search?max=100&offset=0&sort=n" = false
    /\ url.Query (http.URL req) !! "offset" = None.
Proof.
  eexists. eexists. split; [reflexivity|].
  split; [vm_compute; reflexivity|].
  repeat split; vm_compute; reflexivity.
Qed.

(** ** Errors and the returned response value *)

Section ErrorsAndValues.

Context {USDANutrientReport USDAFoodsReport : Type}.
Context `{!json.Unmarshaler USDANutrientReport}.
Context `{!json.Unmarshaler USDAFoodsReport}.

(** What [do] leaves in a destination that held the zero value, when
    it returns an error: the zero value, unless the body of a response
    was read as a JSON value and the decoder reported the error while
    storing that value. *)
Lemma do_error_value {T} `{!json.Unmarshaler T} c ctx req w resp e (v : T) w' :
  do c ctx req json.zero w = (resp, Some e, v, w') ->
  v = json.zero
  \/ exists r x rest,
       http.Do (httpClient c) (http.WithContext req ctx) = inr r
       /\ json.readValue (http.respBody r) = inr (x, rest)
       /\ json.unmarshal x json.zero = (v, Some e).
Proof.
  unfold do.
  destruct (http.Do _ _) as [err|r] eqn:Hdo.
  - destruct (context.Done ctx); intros [= <- _ <- _]; left; reflexivity.
  - unfold json.Decode. destruct (json.readValue _) as [err|[x rest]] eqn:Hread.
    + intros [= <- _ <- _]. left; reflexivity.
    + destruct (json.unmarshal x json.zero) as [v0 e0] eqn:Hun.
      intros [= <- -> <- _]. right. exists r, x, rest. auto.
Qed.

(** The zero value meets [errorOutcome], whatever was sent. *)
Lemma errorOutcome_zero {T} `{!json.Unmarshaler T} c w w' e :
  errorOutcome c w w' (json.zero : T) e.
Proof. unfold errorOutcome. repeat split; auto. Qed.

(** A wire with one more request is another wire. *)
Lemma wire_grows (w : Wire) req : w ++ [req] <> w.
Proof.
  intros Hw. apply (f_equal (@length _)) in Hw.
  rewrite length_app in Hw. cbn in Hw. lia.
Qed.

(** [do], started on the zero value, meets [errorOutcome] when it
    returns an error. *)
Lemma do_errorOutcome {T} `{!json.Unmarshaler T} c ctx req w resp e (v : T) w' :
  do c ctx req json.zero w = (resp, Some e, v, w') ->
  errorOutcome c w w' v e.
Proof.
  intros Hdo.
  pose proof (do_wire c ctx req (json.zero : T) w) as Hw.
  rewrite Hdo in Hw. cbn [snd] in Hw. subst w'.
  destruct (do_error_value _ _ _ _ _ _ _ _ Hdo)
    as [->|(r & x & rest & Hr & Hx & Hu)]; [apply errorOutcome_zero|].
  unfold errorOutcome. split; [|split; [|split]].
  - right. exists (http.WithContext req ctx), r, x, rest. auto.
  - intros Hw. now apply wire_grows in Hw.
  - intros req0 err Hw Herr. apply app_inj_tail in Hw as [_ <-]. congruence.
  - intros req0 r0 err Hw Hr0 Herr. apply app_inj_tail in Hw as [_ <-].
    congruence.
Qed.

(** C7, as the code has it: an operation that returns an error returns
    the zero value of its response type when nothing was sent, when
    the transport failed the request sent, and when the body of the
    response to it was not read as JSON; a value other than the zero
    value is returned only with the decoder's report on storing the
    JSON value read from the body of the transport's response to the
    request sent, and is what the decoder stored into the zero
    value. *)
Theorem C7_error_value c ctx opts w :
  (forall params ul e w',
     GetList c ctx params opts w = (ul, Some e, w') ->
     errorOutcome c w w' ul e)
  /\ (forall params (unr : USDANutrientReport) e w',
        GetUSDANutrientReport c ctx params opts w = (unr, Some e, w') ->
        errorOutcome c w w' unr e)
  /\ (forall params (ufr : USDAFoodsReport) e w',
        GetUSDAFoodsReportV2 c ctx params w = (ufr, Some e, w') ->
        errorOutcome c w w' ufr e)
  /\ (forall params us e w',
        GetUSDASearch c ctx params opts w = (us, Some e, w') ->
        errorOutcome c w w' us e).
Proof.
  split; [|split; [|split]]; intros params v e w';
    [unfold GetList | unfold GetUSDANutrientReport
     | unfold GetUSDAFoodsReportV2 | unfold GetUSDASearch];
    try (destruct (addQueryOptions _ _) as [q [e0|]];
         [intros [= <- _ _]; exact (errorOutcome_zero _ _ _ _)|]);
    (destruct (newRequest _ _ _) as [e0|req];
     [intros [= <- _ _]; exact (errorOutcome_zero _ _ _ _)|]);
    (destruct (do _ _ _ _ _) as [[[resp err] v0] w0] eqn:Hdo;
     intros [= -> -> ->]; exact (do_errorOutcome _ _ _ _ _ _ _ _ Hdo)).
Qed.

End ErrorsAndValues.

(** The theorem at a list request that the transport fails. *)
Lemma C7_witness :
  exists ul e w',
    GetList (mkUSDAclient demoBaseURL (failingTransport io_EOF))
      context.Background None None [] = (ul, Some e, w')
    /\ errorOutcome (mkUSDAclient demoBaseURL (failingTransport io_EOF))
         [] w' ul e.
Proof.
  eexists. eexists. eexists.
  refine ((fun Hrun => conj Hrun
             (proj1 (C7_error_value (USDANutrientReport := USDAList.t)
                       (USDAFoodsReport := USDAList.t)
                       _ context.Background None []) None _ _ _ Hrun)) _).
  vm_compute. reflexivity.
Defined.

(** C7 as stated fails: a list response whose [start] is a string makes
    [GetList] return the decoder's type error together with a value
    whose [lt] is already filled in. *)
Lemma C7_counterexample :
  fst (GetList (mkUSDAclient demoBaseURL (cannedTransport 200 mistypedListBody))
         context.Background (Some (USDAListReqParams.mk "f")) None [])
  = (USDAList.mk (USDAList.mkList "f" 0 0 0 EmptyString EmptyString Nil),
     Some (UnmarshalTypeError "string" "int"))
  /\ USDAList.mk (USDAList.mkList "f" 0 0 0 EmptyString EmptyString Nil)
     <> json.zero.
Proof. split; [vm_compute; reflexivity|discriminate]. Qed.

(** ** Strings *)

Lemma append_assoc (a b c : string) : (a +:+ b) +:+ c = a +:+ (b +:+ c).
Proof. induction a as [|x a IH]; simpl; [reflexivity|]. now rewrite IH. Qed.

Lemma append_empty_r (a : string) : a +:+ EmptyString = a.
Proof. induction a as [|x a IH]; simpl; [reflexivity|]. now rewrite IH. Qed.

Lemma Contains_app a b c :
  str.Contains (a +:+ b) c = str.Contains a c || str.Contains b c.
Proof.
  induction a as [|x a IH]; simpl; [reflexivity|].
  rewrite IH. now rewrite orb_assoc.
Qed.

Lemma Cut_app a b c :
  str.Contains a c = false -> str.Cut (a +:+ String c b) c = (a, b, true).
Proof.
  induction a as [|x a IH]; simpl; intros Hc.
  - now rewrite Ascii.eqb_refl.
  - apply orb_false_iff in Hc as [Hx Ha]. rewrite Hx, (IH Ha). reflexivity.
Qed.

Lemma Cut_none a c :
  str.Contains a c = false -> str.Cut a c = (a, EmptyString, false).
Proof.
  induction a as [|x a IH]; simpl; intros Hc; [reflexivity|].
  apply orb_false_iff in Hc as [Hx Ha]. rewrite Hx, (IH Ha). reflexivity.
Qed.

Lemma Cut_before a c : str.Contains (fst (fst (str.Cut a c))) c = false.
Proof.
  induction a as [|x a IH]; simpl; [reflexivity|].
  destruct (Ascii.eqb x c) eqn:Hx; [reflexivity|].
  destruct (str.Cut a c) as [[b t] f]. simpl in *. now rewrite Hx, IH.
Qed.

Lemma Cut_after a c d :
  str.Contains a d = false -> str.Contains (snd (fst (str.Cut a c))) d = false.
Proof.
  induction a as [|x a IH]; simpl; intros Hd; [reflexivity|].
  apply orb_false_iff in Hd as [Hx Ha].
  destruct (Ascii.eqb x c); [exact Ha|].
  destruct (str.Cut a c) as [[b t] f]. simpl in *. auto.
Qed.

Lemma Cut_before_other a c d :
  str.Contains a d = false -> str.Contains (fst (fst (str.Cut a c))) d = false.
Proof.
  induction a as [|x a IH]; simpl; intros Hd; [reflexivity|].
  apply orb_false_iff in Hd as [Hx Ha].
  destruct (Ascii.eqb x c); [reflexivity|].
  destruct (str.Cut a c) as [[b t] f]. simpl in *. rewrite Hx. auto.
Qed.

Lemma dropLast_Contains a d :
  str.Contains a d = false -> str.Contains (str.dropLast a) d = false.
Proof.
  induction a as [|x a IH]; simpl; intros Hd; [reflexivity|].
  apply orb_false_iff in Hd as [Hx Ha].
  destruct a as [|y a]; [reflexivity|].
  simpl in *. rewrite Hx. auto.
Qed.

(** A text that ends in its only [c] has no [c] before the end. *)
Lemma dropLast_single a c :
  str.HasSuffixByte a c = true -> str.Count a c = 1%nat ->
  str.Contains (str.dropLast a) c = false.
Proof.
  induction a as [|x a IH]; simpl; intros Hs Hn; [reflexivity|].
  destruct a as [|y a]; [reflexivity|].
  destruct (Ascii.eqb x c) eqn:Hx.
  - exfalso. clear IH. simpl in Hn.
    assert (Hpos : forall s, str.HasSuffixByte s c = true ->
                             (1 <= str.Count s c)%nat).
    { clear. induction s as [|z s IHs]; simpl; intros H; [discriminate|].
      destruct s as [|z' s].
      - rewrite H. simpl. lia.
      - specialize (IHs H). lia. }
    specialize (Hpos _ Hs). simpl in Hpos. lia.
  - change (str.Contains (String x (str.dropLast (String y a))) c = false).
    simpl. rewrite Hx. simpl. apply IH; [exact Hs|]. simpl in Hn. exact Hn.
Qed.

Ltac each_byte a := destruct a as [[] [] [] [] [] [] [] []].

Lemma eqb_false_of (p : ascii -> bool) a c :
  p a = true -> p c = false -> Ascii.eqb a c = false.
Proof.
  intros Ha Hc. destruct (Ascii.eqb a c) eqn:E; [|reflexivity].
  apply Ascii.eqb_eq in E. subst. congruence.
Qed.

Lemma lacks_app c a b : lacks c a -> lacks c b -> lacks c (a +:+ b).
Proof. unfold lacks. intros Ha Hb. now rewrite Contains_app, Ha, Hb. Qed.

Lemma lacks_empty c : lacks c EmptyString.
Proof. reflexivity. Qed.

Lemma lacks_if c (b : bool) x y : lacks c x -> lacks c y -> lacks c (if b then x else y).
Proof. now destruct b. Qed.

Lemma lacks_cons c a s : Ascii.eqb a c = false -> lacks c s -> lacks c (String a s).
Proof. unfold lacks. simpl. now intros -> ->. Qed.

Lemma allBytes_lacks p s c : allBytes p s = true -> p c = false -> lacks c s.
Proof.
  unfold lacks. induction s as [|a s IH]; simpl; intros Hs Hc; [reflexivity|].
  apply andb_true_iff in Hs as [Ha Hs].
  now rewrite (eqb_false_of p a c Ha Hc), IH.
Qed.

(** *** Percent-encoding *)

Lemma upperhex_escape a :
  isEscapeByte (url.upperhex (N.shiftr (code a) 4)) = true
  /\ isEscapeByte (url.upperhex (N.land (code a) 15)) = true.
Proof. each_byte a; split; reflexivity. Qed.

(** A byte that must be escaped, and that is not one of the bytes an
    escape is written with, does not occur in escaped text. *)
Lemma escape_lacks s mode c :
  url.shouldEscape c mode = true -> isEscapeByte c = false ->
  lacks c (url.escape s mode).
Proof.
  intros Hc Hx. induction s as [|a s IH]; simpl; [reflexivity|].
  destruct (url.shouldEscape a mode) eqn:Ha.
  - destruct (Ascii.eqb a " " && url.isQueryMode mode).
    + apply lacks_cons; [|exact IH].
      apply (eqb_false_of isEscapeByte); [reflexivity|exact Hx].
    + destruct (upperhex_escape a) as [Hhi Hlo].
      repeat apply lacks_cons; try exact IH;
        apply (eqb_false_of isEscapeByte); auto.
  - apply lacks_cons; [|exact IH].
    apply (eqb_false_of (fun x => negb (url.shouldEscape x mode)));
      [now rewrite Ha | now rewrite Hc].
Qed.

Lemma validEncoded_lacks s mode c :
  url.validEncoded s mode = true ->
  url.shouldEscape c mode = true -> oneOf "!$&'()*+,;=:@[]%" c = false ->
  lacks c s.
Proof.
  intros Hs Hc Hx.
  apply (allBytes_lacks
           (fun x => oneOf "!$&'()*+,;=:@[]%" x || negb (url.shouldEscape x mode))).
  - clear Hc Hx. induction s as [|a s IH]; simpl in *; [reflexivity|].
    apply andb_true_iff in Hs as [Ha Hs]. now rewrite Ha, IH.
  - now rewrite Hx, Hc.
Qed.

Lemma delimiter_escaped c mode :
  isDelimiter c -> mode <> url.encodeFragment \/ c = "#"%char ->
  url.shouldEscape c mode = true.
Proof.
  intros [->| ->] [Hm|Hm]; destruct mode; try reflexivity; try congruence;
    discriminate.
Qed.

Lemma delimiter_not_escape_byte c : isDelimiter c -> isEscapeByte c = false.
Proof. now intros [->| ->]. Qed.

Lemma delimiter_not_sub_delim c :
  isDelimiter c -> oneOf "!$&'()*+,;=:@[]%" c = false.
Proof. now intros [->| ->]. Qed.

Lemma delimiter_not_scheme_byte c : isDelimiter c -> isSchemeByte c = false.
Proof. now intros [->| ->]. Qed.

Lemma lacks_literal c (s : string) :
  isDelimiter c -> lacks "?" s -> lacks "#" s -> lacks c s.
Proof. now intros [->| ->]. Qed.

Lemma UserinfoString_lacks ui c : isDelimiter c -> lacks c (url.UserinfoString ui).
Proof.
  intros Hc. unfold url.UserinfoString.
  assert (He : forall s, lacks c (url.escape s url.encodeUserPassword)).
  { intros s. apply escape_lacks.
    - apply delimiter_escaped; [exact Hc|left; discriminate].
    - now apply delimiter_not_escape_byte. }
  apply lacks_app; [apply He|].
  apply lacks_if; [|apply lacks_empty].
  apply lacks_app; [|apply He]. destruct Hc as [->| ->]; reflexivity.
Qed.

Lemma EscapedPath_lacks u c : isDelimiter c -> lacks c (url.EscapedPath u).
Proof.
  intros Hc. unfold url.EscapedPath.
  destruct (url.nonEmpty (url.RawPath u)); simpl.
  - destruct (url.validEncoded (url.RawPath u) url.encodePath) eqn:Hv; simpl.
    + destruct (url.unescape _ _) as [e|p].
      * apply lacks_if;
          [destruct Hc as [->| ->]; reflexivity|].
        apply escape_lacks;
          [apply delimiter_escaped; [exact Hc|left; discriminate]
          |now apply delimiter_not_escape_byte].
      * apply lacks_if.
        -- apply (validEncoded_lacks _ _ _ Hv).
           ++ apply delimiter_escaped; [exact Hc|left; discriminate].
           ++ now apply delimiter_not_sub_delim.
        -- apply lacks_if;
             [destruct Hc as [->| ->]; reflexivity|].
           apply escape_lacks;
             [apply delimiter_escaped; [exact Hc|left; discriminate]
             |now apply delimiter_not_escape_byte].
    + apply lacks_if;
        [destruct Hc as [->| ->]; reflexivity|].
      apply escape_lacks;
        [apply delimiter_escaped; [exact Hc|left; discriminate]
        |now apply delimiter_not_escape_byte].
  - apply lacks_if;
      [destruct Hc as [->| ->]; reflexivity|].
    apply escape_lacks;
      [apply delimiter_escaped; [exact Hc|left; discriminate]
      |now apply delimiter_not_escape_byte].
Qed.

(** The head of a written URL has no [?] and no [#] when its scheme
    and opaque part have none. *)
Lemma stringHead_lacks u c :
  isDelimiter c -> lacks c (url.Scheme u) -> lacks c (url.Opaque u) ->
  lacks c (url.stringHead u).
Proof.
  intros Hc Hs Ho. unfold url.stringHead.
  assert (Hlit : forall s : string, lacks "?" s -> lacks "#" s -> lacks c s)
    by (intros s; now apply lacks_literal).
  assert (Hscheme : lacks c (if url.nonEmpty (url.Scheme u)
                             then url.Scheme u +:+ ":" else EmptyString)).
  { apply lacks_if; [|apply lacks_empty].
    apply lacks_app; [exact Hs|now apply Hlit]. }
  apply lacks_if; [now apply lacks_app|].
  repeat apply lacks_app; try exact Hscheme.
  - apply lacks_if; [|apply lacks_empty].
    apply lacks_if; [apply lacks_empty|].
    repeat apply lacks_app.
    + apply lacks_if; [now apply Hlit|apply lacks_empty].
    + destruct (url.User u) as [ui|]; [|apply lacks_empty].
      apply lacks_app; [now apply UserinfoString_lacks|now apply Hlit].
    + apply lacks_if; [|apply lacks_empty].
      apply escape_lacks;
        [apply delimiter_escaped; [exact Hc|left; discriminate]
        |now apply delimiter_not_escape_byte].
  - apply lacks_if; [now apply Hlit|apply lacks_empty].
  - apply lacks_if; [now apply Hlit|apply lacks_empty].
  - now apply EscapedPath_lacks.
Qed.

(** *** What [url.Parse] leaves in the scheme and the opaque part *)

#[local] Arguments str.HasPrefix : simpl never.

Lemma lowerByte_scheme a : isSchemeByte a = true -> isSchemeByte (str.lowerByte a) = true.
Proof. each_byte a; vm_compute; intros H; first [reflexivity | discriminate]. Qed.

Lemma ToLower_scheme s :
  allBytes isSchemeByte s = true -> allBytes isSchemeByte (str.ToLower s) = true.
Proof.
  induction s as [|a s IH]; simpl; [reflexivity|].
  intros H. apply andb_true_iff in H as [Ha Hs].
  now rewrite (lowerByte_scheme a Ha), IH.
Qed.

Lemma scanScheme_spec s atStart scheme rest :
  url.scanScheme atStart s = inr (Some (scheme, rest)) ->
  s = scheme +:+ ":" +:+ rest /\ allBytes isSchemeByte scheme = true.
Proof.
  revert atStart scheme rest.
  induction s as [|c s IH]; simpl; intros atStart scheme rest; [discriminate|].
  assert (Hcont :
    isSchemeByte c = true ->
    match url.scanScheme false s with
    | inr (Some (scheme0, rest0)) => inr (Some (String c scheme0, rest0))
    | other => other
    end = inr (Some (scheme, rest)) ->
    String c s = scheme +:+ ":" +:+ rest /\ allBytes isSchemeByte scheme = true).
  { intros Hc. destruct (url.scanScheme false s) as [e|[[sch r]|]] eqn:Hs;
      try discriminate.
    intros [= <- <-]. destruct (IH _ _ _ Hs) as [-> Hall].
    simpl. now rewrite Hc, Hall. }
  destruct (isLetter c) eqn:Hl.
  { apply Hcont. unfold isSchemeByte. now rewrite Hl. }
  destruct (isDigit c || oneOf "+-." c) eqn:Hd.
  { destruct atStart; [discriminate|].
    apply Hcont. unfold isSchemeByte. now rewrite Hl. }
  destruct (Ascii.eqb c ":") eqn:Hcolon; [|discriminate].
  destruct atStart; [discriminate|].
  intros [= <- <-]. apply Ascii.eqb_eq in Hcolon. subst c. now split.
Qed.

Lemma getScheme_spec t scheme rest c :
  url.getScheme t = inr (scheme, rest) ->
  allBytes isSchemeByte scheme = true /\ (lacks c t -> lacks c rest).
Proof.
  unfold url.getScheme.
  destruct (url.scanScheme true t) as [e|[[sch r]|]] eqn:Hs; try discriminate.
  - intros [= <- <-]. destruct (scanScheme_spec _ _ _ _ Hs) as [-> Hall].
    split; [exact Hall|]. unfold lacks. rewrite !Contains_app.
    intros H. apply orb_false_iff in H as [_ H].
    apply orb_false_iff in H as [_ H]. exact H.
  - intros [= <- <-]. now split.
Qed.

Lemma parse_head_lacks t viaRequest u :
  url.parse t viaRequest = inr u -> lacks "#" t ->
  forall c, isDelimiter c -> lacks c (url.Scheme u) /\ lacks c (url.Opaque u).
Proof.
  unfold url.parse. intros Hp Ht c Hc.
  destruct (url.stringContainsCTLByte t); [discriminate|].
  destruct (String.eqb t EmptyString && viaRequest); [discriminate|].
  destruct (String.eqb t "*").
  { injection Hp as <-. simpl. split; apply lacks_empty. }
  destruct (url.getScheme t) as [e|[scheme0 rest0]] eqn:Hg; [discriminate|].
  simpl in Hp.
  destruct (getScheme_spec _ _ _ "#" Hg) as [Hall Hrest0].
  specialize (Hrest0 Ht).
  assert (Hscheme : lacks c (str.ToLower scheme0)).
  { apply (allBytes_lacks isSchemeByte); [now apply ToLower_scheme|].
    now apply delimiter_not_scheme_byte. }
  set (split :=
         if str.HasSuffixByte rest0 "?" && (str.Count rest0 "?" =? 1)%nat
         then (str.dropLast rest0, true, EmptyString)
         else let '(b, q, _) := str.Cut rest0 "?" in (b, false, q)) in Hp.
  assert (Hsplit : lacks "?" (fst (fst split)) /\ lacks "#" (fst (fst split))).
  { subst split.
    destruct (str.HasSuffixByte rest0 "?") eqn:Hsuf; simpl.
    - destruct (str.Count rest0 "?" =? 1)%nat eqn:Hcnt; simpl.
      + apply Nat.eqb_eq in Hcnt. split.
        * now apply dropLast_single.
        * now apply dropLast_Contains.
      + pose proof (Cut_before rest0 "?") as H1.
        pose proof (Cut_before_other rest0 "?" "#" Hrest0) as H2.
        destruct (str.Cut rest0 "?") as [[b q] f]. now split.
    - pose proof (Cut_before rest0 "?") as H1.
      pose proof (Cut_before_other rest0 "?" "#" Hrest0) as H2.
      destruct (str.Cut rest0 "?") as [[b q] f]. now split. }
  destruct split as [[rest force] rawq]. simpl in Hsplit.
  assert (Hrest : lacks c rest)
    by (destruct Hsplit; now apply lacks_literal).
  assert (Hfinish : forall user host omit p,
    (try path <- url.unescape p url.encodePath in
     inr (url.mkURL (str.ToLower scheme0) EmptyString user host path
            (if String.eqb p (url.escape path url.encodePath)
             then EmptyString else p)
            omit force rawq EmptyString EmptyString)) = inr u ->
    lacks c (url.Scheme u) /\ lacks c (url.Opaque u)).
  { intros user host omit p. unfold bind.
    destruct (url.unescape p url.encodePath); [discriminate|].
    intros [= <-]. simpl. split; [exact Hscheme|apply lacks_empty]. }
  destruct (negb (str.HasPrefix rest "/") && url.nonEmpty (str.ToLower scheme0)).
  { injection Hp as <-. simpl. now split. }
  destruct (negb (str.HasPrefix rest "/") && viaRequest); [discriminate|].
  destruct (negb (str.HasPrefix rest "/")
            && str.Contains (fst (fst (str.Cut rest "/"))) ":"); [discriminate|].
  destruct ((url.nonEmpty (str.ToLower scheme0)
             || negb viaRequest && negb (str.HasPrefix rest "///"))
            && str.HasPrefix rest "//").
  - destruct (str.Cut _ "/") as [[authority tail] found].
    unfold bind in Hp at 1.
    destruct (url.parseAuthority authority) as [e|[user host]]; [discriminate|].
    now apply Hfinish in Hp.
  - now apply Hfinish in Hp.
Qed.

Lemma Parse_head_lacks rawURL u c :
  url.Parse rawURL = inr u -> isDelimiter c ->
  lacks c (url.stringHead u).
Proof.
  unfold url.Parse. intros Hp Hc.
  pose proof (Cut_before rawURL "#") as Ht.
  destruct (str.Cut rawURL "#") as [[t frag] found]. simpl in Ht.
  destruct (url.parse t false) as [e|u0] eqn:Hparse; [discriminate|].
  destruct (parse_head_lacks _ _ _ Hparse Ht c Hc) as [Hs Ho].
  destruct (String.eqb frag EmptyString).
  - injection Hp as <-. now apply stringHead_lacks.
  - destruct (url.unescape frag url.encodeFragment); [discriminate|].
    injection Hp as <-. now apply stringHead_lacks.
Qed.

(** The raw query of a written URL is the query it was written with,
    when the head has no delimiter and the query no [#]. *)
Lemma rawQueryOf_String u q :
  lacks "?" (url.stringHead u) -> lacks "#" (url.stringHead u) ->
  lacks "#" q ->
  rawQueryOf (url.String_ (url.withRawQuery u q)) = q.
Proof.
  intros Hq Hh Hf. unfold rawQueryOf, url.String_.
  change (url.stringHead (url.withRawQuery u q)) with (url.stringHead u).
  simpl url.RawQuery. simpl url.ForceQuery. simpl url.Fragment.
  set (frag := url.EscapedFragment _).
  set (h := url.stringHead u) in *.
  destruct (url.ForceQuery u || url.nonEmpty q) eqn:Hforce.
  - assert (Hhq : lacks "#" (h +:+ "?" +:+ q)).
    { apply lacks_app; [exact Hh|]. apply lacks_app; [reflexivity|exact Hf]. }
    destruct (url.nonEmpty (url.Fragment u)).
    + replace (h +:+ ("?" +:+ q) +:+ "#" +:+ frag)
        with ((h +:+ "?" +:+ q) +:+ String "#" frag)
        by (now rewrite !append_assoc).
      rewrite (Cut_app _ _ _ Hhq). simpl.
      change (h +:+ "?" +:+ q) with (h +:+ String "?" q).
      now rewrite (Cut_app _ _ _ Hq).
    + rewrite append_empty_r.
      rewrite (Cut_none _ _ Hhq). simpl.
      change (h +:+ "?" +:+ q) with (h +:+ String "?" q).
      now rewrite (Cut_app _ _ _ Hq).
  - apply orb_false_iff in Hforce as [_ Hne].
    assert (q = EmptyString) as ->.
    { unfold url.nonEmpty in Hne. apply negb_false_iff in Hne.
      now apply String.eqb_eq in Hne. }
    simpl. destruct (url.nonEmpty (url.Fragment u)).
    + change (h +:+ "#" +:+ frag) with (h +:+ String "#" frag).
      rewrite (Cut_app _ _ _ Hh). simpl. now rewrite (Cut_none _ _ Hq).
    + rewrite append_empty_r, (Cut_none _ _ Hh). simpl.
      now rewrite (Cut_none _ _ Hq).
Qed.

(** *** Query strings *)

Lemma hexpair_byte a :
  url.ishex (url.upperhex (N.shiftr (code a) 4))
  && url.ishex (url.upperhex (N.land (code a) 15)) = true
  /\ byte_of (N.lor (N.shiftl (url.unhex (url.upperhex (N.shiftr (code a) 4))) 4)
                (url.unhex (url.upperhex (N.land (code a) 15)))) = a.
Proof. each_byte a; split; reflexivity. Qed.

Lemma QueryUnescape_QueryEscape s :
  url.QueryUnescape (url.QueryEscape s) = inr s.
Proof.
  unfold url.QueryUnescape, url.QueryEscape.
  induction s as [|a s IH]; [reflexivity|].
  cbn [url.escape].
  destruct (url.shouldEscape a url.encodeQueryComponent) eqn:Ha.
  - destruct (Ascii.eqb a " ") eqn:Hsp; cbn [andb url.isQueryMode].
    + apply Ascii.eqb_eq in Hsp. subst a.
      cbn [url.unescape]. cbn. now rewrite IH.
    + destruct (hexpair_byte a) as [Hhex Hval].
      cbn [url.unescape]. rewrite Ascii.eqb_refl, Hhex, Hval.
      cbn. now rewrite IH.
  - cbn [url.unescape].
    rewrite (eqb_false_of
               (fun x => negb (url.shouldEscape x url.encodeQueryComponent))
               a "%") by (now rewrite ?Ha).
    rewrite (eqb_false_of
               (fun x => negb (url.shouldEscape x url.encodeQueryComponent))
               a "+") by (now rewrite ?Ha).
    cbn. now rewrite IH.
Qed.

Lemma QueryEscape_lacks s c :
  url.shouldEscape c url.encodeQueryComponent = true ->
  isEscapeByte c = false -> lacks c (url.QueryEscape s).
Proof. apply escape_lacks. Qed.

Lemma queryPair_lacks p c :
  url.shouldEscape c url.encodeQueryComponent = true ->
  isEscapeByte c = false -> Ascii.eqb "=" c = false -> lacks c (queryPair p).
Proof.
  intros H1 H2 H3. unfold queryPair.
  apply lacks_app; [now apply QueryEscape_lacks|].
  apply lacks_cons; [exact H3|now apply QueryEscape_lacks].
Qed.

Lemma segments_single a : lacks "&" a -> url.segments a = [a].
Proof.
  unfold lacks. induction a as [|x a IH]; simpl; intros H; [reflexivity|].
  apply orb_false_iff in H as [Hx Ha]. now rewrite Hx, (IH Ha).
Qed.

Lemma segments_cons a b :
  lacks "&" a -> url.segments (a +:+ String "&" b) = a :: url.segments b.
Proof.
  unfold lacks. induction a as [|x a IH]; simpl; intros H; [reflexivity|].
  apply orb_false_iff in H as [Hx Ha]. now rewrite Hx, (IH Ha).
Qed.

Lemma parseQueryStep_pair m p :
  url.parseQueryStep (m, None) (queryPair p) = (addPair m p, None).
Proof.
  unfold url.parseQueryStep.
  rewrite (queryPair_lacks p ";") by reflexivity.
  assert (String.eqb (queryPair p) EmptyString = false) as ->.
  { unfold queryPair. destruct (url.QueryEscape (fst p)); reflexivity. }
  unfold queryPair.
  change (url.QueryEscape (fst p) +:+ "=" +:+ url.QueryEscape (snd p))
    with (url.QueryEscape (fst p) +:+ String "=" (url.QueryEscape (snd p))).
  rewrite Cut_app by (now apply QueryEscape_lacks).
  now rewrite !QueryUnescape_QueryEscape.
Qed.

(** Parsing an encoded list of pairs adds the pairs in their order. *)
Lemma fold_parseQueryStep_pairs l m :
  fold_left url.parseQueryStep
    (url.segments (str.Join (List.map queryPair l) "&")) (m, None)
  = (fold_left addPair l m, None).
Proof.
  revert m. induction l as [|p l IH]; intros m; [reflexivity|].
  destruct l as [|p' l].
  - cbn [List.map str.Join fold_left].
    rewrite segments_single by (now apply queryPair_lacks).
    cbn [fold_left]. apply parseQueryStep_pair.
  - change (str.Join (List.map queryPair (p :: p' :: l)) "&")
      with (queryPair p +:+ String "&" (str.Join (List.map queryPair (p' :: l)) "&")).
    rewrite segments_cons by (now apply queryPair_lacks).
    cbn [fold_left]. rewrite parseQueryStep_pair. apply IH.
Qed.

Lemma optionQuery_pairs opts :
  optionQuery opts = str.Join (List.map queryPair (optionPairs opts)) "&".
Proof.
  unfold optionQuery, optionPairs.
  destruct (Max opts =? 0)%Z; destruct (Offset opts =? 0)%Z;
    destruct (String.length (Sort opts) =? 0)%nat; reflexivity.
Qed.

Lemma optionValues_pairs opts :
  optionValues opts = fold_left addPair (optionPairs opts) ∅.
Proof.
  destruct opts as [mx off srt].
  unfold optionValues, optionPairs, query.fields, USDAQueryOptions_Encoder,
    query.reflectValue. simpl.
  destruct (mx =? 0)%Z; destruct (off =? 0)%Z;
    destruct (String.length srt =? 0)%nat; reflexivity.
Qed.

Lemma Encode_optionValues opts :
  url.Encode (optionValues opts) = optionQuery opts.
Proof.
  destruct opts as [mx off srt].
  unfold optionValues, optionQuery, query.fields, USDAQueryOptions_Encoder,
    query.reflectValue. simpl.
  destruct (mx =? 0)%Z; destruct (off =? 0)%Z;
    destruct (String.length srt =? 0)%nat; simpl;
    vm_compute; reflexivity.
Qed.

Lemma ParseQuery_optionQuery opts :
  url.ParseQuery (optionQuery opts) = (optionValues opts, None).
Proof.
  unfold url.ParseQuery.
  now rewrite optionQuery_pairs, fold_parseQueryStep_pairs, optionValues_pairs.
Qed.

Lemma optionQuery_lacks_hash opts : lacks "#" (optionQuery opts).
Proof.
  rewrite optionQuery_pairs.
  induction (optionPairs opts) as [|p l IH]; [reflexivity|].
  destruct l as [|p' l].
  - now apply queryPair_lacks.
  - change (str.Join (List.map queryPair (p :: p' :: l)) "&")
      with (queryPair p +:+ String "&" (str.Join (List.map queryPair (p' :: l)) "&")).
    apply lacks_app; [now apply queryPair_lacks|].
    apply lacks_cons; [reflexivity|exact IH].
Qed.

Lemma optionValues_lookup opts :
  optionValues opts !! "max"
  = (if (Max opts =? 0)%Z then None else Some [strconv.Itoa (Max opts)])
  /\ optionValues opts !! "offset"
     = (if (Offset opts =? 0)%Z then None
        else Some [strconv.Itoa (Offset opts)])
  /\ optionValues opts !! "sort"
     = (if (String.length (Sort opts) =? 0)%nat then None else Some [Sort opts])
  /\ forall k, k <> "max" -> k <> "offset" -> k <> "sort" ->
               optionValues opts !! k = None.
Proof.
  destruct opts as [mx off srt].
  unfold optionValues, query.fields, USDAQueryOptions_Encoder,
    query.reflectValue, url.Add. simpl.
  destruct (mx =? 0)%Z; destruct (off =? 0)%Z;
    destruct (String.length srt =? 0)%nat; simpl;
    (split; [vm_compute; reflexivity|]);
    (split; [vm_compute; reflexivity|]);
    (split; [vm_compute; reflexivity|]);
    intros k H1 H2 H3; now simplify_map_eq.
Qed.

(** C2: for every options value and every path [url.Parse] accepts,
    [addQueryOptions] succeeds, and the query string of its result is
    the encoding of exactly the fields that are not zero: parsed, it
    gives each of them under its key with its value, and nothing for a
    zero field or any other key. *)
Theorem C2_options_roundtrip opts pathAPI u :
  url.Parse pathAPI = inr u ->
  exists s,
    addQueryOptions pathAPI (Some opts) = (s, None)
    /\ rawQueryOf s = optionQuery opts
    /\ exists values,
         url.ParseQuery (rawQueryOf s) = (values, None)
         /\ values !! "max"
            = (if (Max opts =? 0)%Z then None
               else Some [strconv.Itoa (Max opts)])
         /\ values !! "offset"
            = (if (Offset opts =? 0)%Z then None
               else Some [strconv.Itoa (Offset opts)])
         /\ values !! "sort"
            = (if (String.length (Sort opts) =? 0)%nat then None
               else Some [Sort opts])
         /\ forall k, k <> "max" -> k <> "offset" -> k <> "sort" ->
                      values !! k = None.
Proof.
  intros Hp.
  exists (url.String_ (url.withRawQuery u (optionQuery opts))).
  split.
  { unfold addQueryOptions.
    change (query.Values (Some opts)) with (inr (optionValues opts) : result url.Values).
    now rewrite Hp, Encode_optionValues. }
  assert (Hq : rawQueryOf (url.String_ (url.withRawQuery u (optionQuery opts)))
               = optionQuery opts).
  { apply rawQueryOf_String.
    - apply (Parse_head_lacks _ _ _ Hp). now left.
    - apply (Parse_head_lacks _ _ _ Hp). now right.
    - apply optionQuery_lacks_hash. }
  split; [exact Hq|]. rewrite Hq.
  exists (optionValues opts). split; [apply ParseQuery_optionQuery|].
  apply optionValues_lookup.
Qed.

(** Witness of C2: the path [list] with a page size and a sort key
    that needs escaping. *)
Lemma C2_witness :
  url.Parse "list" = inr (url.mkURL EmptyString EmptyString None EmptyString
                            "list" EmptyString false false EmptyString
                            EmptyString EmptyString)
  /\ exists s,
       addQueryOptions "list" (Some (mkUSDAQueryOptions 25 0 "a b&c")) = (s, None)
       /\ rawQueryOf s = "max=25&sort=a+b%26c".
Proof.
  split; [reflexivity|].
  destruct (C2_options_roundtrip (mkUSDAQueryOptions 25 0 "a b&c") "list" _ eq_refl)
    as (s & Hs & Hq & _).
  exists s. split; [exact Hs|]. rewrite Hq. reflexivity.
Defined.

(** [rawQueryOf] is the query [url.Parse] finds. *)
Lemma Cut_prefix a r c :
  lacks c a ->
  str.Cut (a +:+ r) c
  = (a +:+ fst (fst (str.Cut r c)), snd (fst (str.Cut r c)), snd (str.Cut r c)).
Proof.
  unfold lacks. induction a as [|x a IH]; simpl; intros H.
  - now destruct (str.Cut r c) as [[? ?] ?].
  - apply orb_false_iff in H as [Hx Ha]. rewrite Hx, (IH Ha). reflexivity.
Qed.

Lemma Cut_last_byte a c :
  str.HasSuffixByte a c = true -> str.Count a c = 1%nat ->
  snd (fst (str.Cut a c)) = EmptyString.
Proof.
  induction a as [|x a IH]; simpl; intros Hs Hn; [reflexivity|].
  destruct a as [|y a].
  - now rewrite Hs.
  - destruct (Ascii.eqb x c) eqn:Hx.
    + exfalso.
      assert (Hpos : forall s, str.HasSuffixByte s c = true ->
                               (1 <= str.Count s c)%nat).
      { clear. induction s as [|z s IHs]; simpl; intros H; [discriminate|].
        destruct s as [|z' s].
        - rewrite H. simpl. lia.
        - specialize (IHs H). lia. }
      specialize (Hpos _ Hs). simpl in Hn, Hpos. lia.
    + specialize (IH Hs Hn).
      destruct (str.Cut (String y a) c) as [[b q] f]. exact IH.
Qed.

Lemma parse_RawQuery t viaRequest u :
  url.parse t viaRequest = inr u ->
  url.RawQuery u = snd (fst (str.Cut t "?")).
Proof.
  unfold url.parse. intros Hp.
  destruct (url.stringContainsCTLByte t); [discriminate|].
  destruct (String.eqb t EmptyString && viaRequest); [discriminate|].
  destruct (String.eqb t "*") eqn:Hstar.
  { injection Hp as <-. apply String.eqb_eq in Hstar. now subst t. }
  destruct (url.getScheme t) as [e|[scheme0 rest0]] eqn:Hg; [discriminate|].
  simpl in Hp.
  assert (Hcut : snd (fst (str.Cut t "?")) = snd (fst (str.Cut rest0 "?"))).
  { unfold url.getScheme in Hg.
    destruct (url.scanScheme true t) as [e|[[sch r]|]] eqn:Hs; try discriminate.
    - injection Hg as -> ->.
      destruct (scanScheme_spec _ _ _ _ Hs) as [-> Hall].
      rewrite Cut_prefix
        by (apply (allBytes_lacks isSchemeByte); [exact Hall|reflexivity]).
      simpl. now destruct (str.Cut rest0 "?") as [[? ?] ?].
    - now injection Hg as _ ->. }
  rewrite Hcut. clear Hcut Hg.
  set (split :=
         if str.HasSuffixByte rest0 "?" && (str.Count rest0 "?" =? 1)%nat
         then (str.dropLast rest0, true, EmptyString)
         else let '(b, q, _) := str.Cut rest0 "?" in (b, false, q)) in Hp.
  assert (Hsplit : snd split = snd (fst (str.Cut rest0 "?"))).
  { subst split.
    destruct (str.HasSuffixByte rest0 "?") eqn:Hsuf; simpl.
    - destruct (str.Count rest0 "?" =? 1)%nat eqn:Hcnt; simpl.
      + apply Nat.eqb_eq in Hcnt. symmetry. now apply Cut_last_byte.
      + now destruct (str.Cut rest0 "?") as [[b q] f].
    - now destruct (str.Cut rest0 "?") as [[b q] f]. }
  destruct split as [[rest force] rawq]. simpl in Hsplit. subst rawq.
  assert (Hfinish : forall user host omit p,
    (try path <- url.unescape p url.encodePath in
     inr (url.mkURL (str.ToLower scheme0) EmptyString user host path
            (if String.eqb p (url.escape path url.encodePath)
             then EmptyString else p)
            omit force (snd (fst (str.Cut rest0 "?")))
            EmptyString EmptyString)) = inr u ->
    url.RawQuery u = snd (fst (str.Cut rest0 "?"))).
  { intros user host omit p. unfold bind.
    destruct (url.unescape p url.encodePath); [discriminate|].
    now intros [= <-]. }
  destruct (negb (str.HasPrefix rest "/") && url.nonEmpty (str.ToLower scheme0)).
  { now injection Hp as <-. }
  destruct (negb (str.HasPrefix rest "/") && viaRequest); [discriminate|].
  destruct (negb (str.HasPrefix rest "/")
            && str.Contains (fst (fst (str.Cut rest "/"))) ":"); [discriminate|].
  destruct ((url.nonEmpty (str.ToLower scheme0)
             || negb viaRequest && negb (str.HasPrefix rest "///"))
            && str.HasPrefix rest "//").
  - destruct (str.Cut _ "/") as [[authority tail] found].
    unfold bind in Hp at 1.
    destruct (url.parseAuthority authority) as [e|[user host]]; [discriminate|].
    now apply Hfinish in Hp.
  - now apply Hfinish in Hp.
Qed.

Lemma Parse_RawQuery rawURL u :
  url.Parse rawURL = inr u -> url.RawQuery u = rawQueryOf rawURL.
Proof.
  unfold url.Parse, rawQueryOf. intros Hp.
  destruct (str.Cut rawURL "#") as [[t frag] found]. simpl.
  destruct (url.parse t false) as [e|u0] eqn:Hparse; [discriminate|].
  apply parse_RawQuery in Hparse.
  destruct (String.eqb frag EmptyString).
  - now injection Hp as <-.
  - destruct (url.unescape frag url.encodeFragment); [discriminate|].
    now injection Hp as <-.
Qed.

(** ** UTF-8 *)

Ltac Zify.zify_post_hook ::= Z.to_euclidean_division_equations.

Lemma forallBool_spec p : forallBool p = true -> forall b, p b = true.
Proof.
  unfold forallBool. intros H b. apply andb_true_iff in H as [Ht Hf].
  now destruct b.
Qed.

Lemma forallByte_spec p : forallByte p = true -> forall a, p a = true.
Proof.
  unfold forallByte. intros H [b0 b1 b2 b3 b4 b5 b6 b7].
  pose proof (forallBool_spec _ H b0) as H0. cbv beta in H0.
  pose proof (forallBool_spec _ H0 b1) as H1. cbv beta in H1.
  pose proof (forallBool_spec _ H1 b2) as H2. cbv beta in H2.
  pose proof (forallBool_spec _ H2 b3) as H3. cbv beta in H3.
  pose proof (forallBool_spec _ H3 b4) as H4. cbv beta in H4.
  pose proof (forallBool_spec _ H4 b5) as H5. cbv beta in H5.
  pose proof (forallBool_spec _ H5 b6) as H6. cbv beta in H6.
  exact (forallBool_spec _ H6 b7).
Qed.

Lemma lor_shiftl_add a k b : b < 2 ^ k -> N.lor (N.shiftl a k) b = a * 2 ^ k + b.
Proof.
  intros Hb.
  rewrite <- N.lxor_lor, <- N.add_nocarry_lxor, N.shiftl_mul_pow2; try reflexivity.
  all: apply N.bits_inj; intros n; rewrite N.land_spec, N.bits_0;
    destruct (N.lt_ge_cases n k) as [Hn|Hn].
  all: try (rewrite N.shiftl_spec_low by exact Hn; reflexivity).
  all: destruct (N.eq_dec b 0) as [->|Hb0];
    [rewrite N.bits_0; apply andb_false_r|].
  all: rewrite (N.bits_above_log2 b n), andb_false_r; [reflexivity|].
  all: apply N.log2_lt_pow2; [lia|].
  all: eapply N.lt_le_trans; [exact Hb|]; apply N.pow_le_mono_r; lia.
Qed.

Lemma contCheck_all : forallByte contCheck = true.
Proof. vm_compute. reflexivity. Qed.

Lemma leadCheck_all : forallByte (fun b0 => forallByte (leadCheck b0)) = true.
Proof. vm_compute. reflexivity. Qed.

Lemma cont_payload b :
  utf8.isCont b = true -> code b = 128 + utf8.low 63 b /\ utf8.low 63 b < 64.
Proof.
  intros Hb. pose proof (forallByte_spec _ contCheck_all b) as H.
  unfold contCheck in H. rewrite Hb in H. simpl in H.
  apply andb_true_iff in H as [H1 H2].
  apply N.eqb_eq in H1. apply N.ltb_lt in H2. now split.
Qed.

Lemma byte_of_code b : byte_of (code b) = b.
Proof. apply ascii_N_embedding. Qed.

Lemma lor_byte (hi : N) (k : N) (x : N) (m : N) :
  m = hi * 2 ^ k -> x < 2 ^ k -> N.lor m x = m + x.
Proof.
  intros -> Hx. rewrite <- (lor_shiftl_add hi k x Hx).
  now rewrite N.shiftl_mul_pow2.
Qed.

Lemma shiftr_div a n : N.shiftr a n = a / 2 ^ n.
Proof. apply N.shiftr_div_pow2. Qed.

Lemma land63 a : N.land a 63 = a mod 64.
Proof. change 63 with (N.ones 6). now rewrite N.land_ones. Qed.

Lemma EncodeRune_DecodeRune s :
  s <> EmptyString -> utf8.validHead s = true ->
  utf8.EncodeRune (fst (utf8.DecodeRuneInString s))
  = utf8.take (snd (utf8.DecodeRuneInString s)) s.
Proof.
  destruct s as [|b0 r0]; [congruence|]. intros _.
  unfold utf8.validHead, utf8.DecodeRuneInString.
  destruct (code b0 <? 128) eqn:Ha.
  { intros _. apply N.ltb_lt in Ha. simpl. unfold utf8.EncodeRune.
    rewrite (proj2 (N.leb_le (code b0) 127)) by lia.
    now rewrite byte_of_code. }
  destruct (utf8.lead b0) as [[[size lo] hi]|] eqn:Hl; [|discriminate].
  destruct r0 as [|b1 r1]; [discriminate|].
  pose proof (forallByte_spec _ (forallByte_spec _ leadCheck_all b0) b1) as Hlead.
  unfold leadCheck in Hlead. rewrite Hl in Hlead. unfold inRange in Hlead.
  destruct ((lo <=? code b1) && (code b1 <=? hi)); [|discriminate].
  cbn [negb]. apply andb_true_iff in Hlead as [Hc1 Hsize].
  destruct (cont_payload b1 Hc1) as [Hb1 Hx1].
  destruct size as [|[|[|[|[|size]]]]]; try discriminate.
  - (* two bytes *)
    intros _. cbn [Nat.leb fst snd utf8.take].
    apply andb_true_iff in Hsize as [Hsize Hy2].
    apply andb_true_iff in Hsize as [Hb0 Hy1].
    apply N.eqb_eq in Hb0. apply N.leb_le in Hy1. apply N.ltb_lt in Hy2.
    set (y := utf8.low 31 b0) in *. set (x1 := utf8.low 63 b1) in *.
    clearbody y x1.
    rewrite (lor_shiftl_add y 6 x1) by (change (2 ^ 6) with 64; lia).
    change (2 ^ 6) with 64.
    unfold utf8.EncodeRune, utf8.contByte.
    rewrite (proj2 (N.leb_gt _ 127)) by lia.
    rewrite (proj2 (N.leb_le _ 2047)) by lia.
    rewrite !shiftr_div, !land63. change (2 ^ 6) with 64. change (2 ^ 0) with 1.
    rewrite (lor_byte 3 6) by (try reflexivity; change (2 ^ 6) with 64; lia).
    rewrite (lor_byte 1 7) by (try reflexivity; change (2 ^ 7) with 128; lia).
    replace (192 + (y * 64 + x1) / 64) with (code b0) by lia.
    replace (128 + (y * 64 + x1) / 1 mod 64) with (code b1) by lia.
    now rewrite !byte_of_code.
  - (* three bytes *)
    cbn [Nat.leb].
    destruct r1 as [|b2 r2]; [discriminate|].
    destruct (utf8.isCont b2) eqn:Hc2; [|discriminate].
    intros _. cbn [negb fst snd utf8.take].
    destruct (cont_payload b2 Hc2) as [Hb2 Hx2].
    apply andb_true_iff in Hsize as [Hsize Hp].
    apply andb_true_iff in Hsize as [Hb0 Hy].
    apply N.eqb_eq in Hb0. apply N.ltb_lt in Hy. cbv zeta in Hp.
    set (y := utf8.low 15 b0) in *. set (x1 := utf8.low 63 b1) in *.
    set (x2 := utf8.low 63 b2) in *. clearbody y x1 x2.
    assert (Hrange : 32 <= y * 64 + x1 < 864 \/ 896 <= y * 64 + x1 < 1024).
    { apply orb_true_iff in Hp as [Hp|Hp];
        apply andb_true_iff in Hp as [Hp1 Hp2];
        apply N.leb_le in Hp1; apply N.ltb_lt in Hp2; [left|right]; lia. }
    clear Hp.
    rewrite (lor_shiftl_add x1 6 x2) by (change (2 ^ 6) with 64; lia).
    rewrite (lor_shiftl_add y 12) by (change (2 ^ 12) with 4096; change (2 ^ 6) with 64; lia).
    change (2 ^ 6) with 64. change (2 ^ 12) with 4096.
    set (r := y * 4096 + (x1 * 64 + x2)).
    assert (Hr : 2048 <= r < 55296 \/ 57344 <= r < 65536) by (subst r; lia).
    unfold utf8.EncodeRune, utf8.contByte, utf8.isSurrogate, utf8.MaxRune.
    rewrite (proj2 (N.leb_gt r 127)) by lia.
    rewrite (proj2 (N.leb_gt r 2047)) by lia.
    rewrite (proj2 (N.ltb_ge 1114111 r)) by lia.
    assert ((55296 <=? r) && (r <=? 57343) = false) as ->.
    { apply andb_false_iff. destruct Hr as [Hr|Hr];
        [left; apply N.leb_gt|right; apply N.leb_gt]; lia. }
    cbn [orb].
    rewrite (proj2 (N.leb_le r 65535)) by lia.
    rewrite !shiftr_div, !land63.
    change (2 ^ 12) with 4096. change (2 ^ 6) with 64. change (2 ^ 0) with 1.
    rewrite (lor_byte 7 5) by (try reflexivity; change (2 ^ 5) with 32; subst r; lia).
    rewrite !(lor_byte 1 7) by (try reflexivity; change (2 ^ 7) with 128; lia).
    replace (224 + r / 4096) with (code b0) by (subst r; lia).
    replace (128 + r / 64 mod 64) with (code b1) by (subst r; lia).
    replace (128 + r / 1 mod 64) with (code b2) by (subst r; lia).
    now rewrite !byte_of_code.
  - (* four bytes *)
    cbn [Nat.leb].
    destruct r1 as [|b2 r2]; [discriminate|].
    destruct (utf8.isCont b2) eqn:Hc2; [|discriminate].
    cbn [negb].
    destruct r2 as [|b3 r3]; [discriminate|].
    destruct (utf8.isCont b3) eqn:Hc3; [|discriminate].
    intros _. cbn [negb fst snd utf8.take].
    destruct (cont_payload b2 Hc2) as [Hb2 Hx2].
    destruct (cont_payload b3 Hc3) as [Hb3 Hx3].
    apply andb_true_iff in Hsize as [Hsize Hp].
    apply andb_true_iff in Hsize as [Hb0 Hy].
    apply N.eqb_eq in Hb0. apply N.ltb_lt in Hy. cbv zeta in Hp.
    apply andb_true_iff in Hp as [Hp1 Hp2].
    apply N.leb_le in Hp1. apply N.ltb_lt in Hp2.
    set (y := utf8.low 7 b0) in *. set (x1 := utf8.low 63 b1) in *.
    set (x2 := utf8.low 63 b2) in *. set (x3 := utf8.low 63 b3) in *.
    clearbody y x1 x2 x3.
    rewrite (lor_shiftl_add x2 6 x3) by (change (2 ^ 6) with 64; lia).
    rewrite (lor_shiftl_add x1 12)
      by (change (2 ^ 12) with 4096; change (2 ^ 6) with 64; lia).
    rewrite (lor_shiftl_add y 18)
      by (change (2 ^ 18) with 262144; change (2 ^ 12) with 4096;
          change (2 ^ 6) with 64; lia).
    change (2 ^ 6) with 64. change (2 ^ 12) with 4096.
    change (2 ^ 18) with 262144.
    set (r := y * 262144 + (x1 * 4096 + (x2 * 64 + x3))).
    assert (Hr : 65536 <= r < 1114112) by (subst r; lia).
    unfold utf8.EncodeRune, utf8.contByte, utf8.isSurrogate, utf8.MaxRune.
    rewrite (proj2 (N.leb_gt r 127)) by lia.
    rewrite (proj2 (N.leb_gt r 2047)) by lia.
    rewrite (proj2 (N.ltb_ge 1114111 r)) by lia.
    rewrite (proj2 (N.leb_gt r 57343)) by lia.
    rewrite andb_false_r. cbn [orb].
    rewrite (proj2 (N.leb_gt r 65535)) by lia.
    rewrite !shiftr_div, !land63.
    change (2 ^ 18) with 262144. change (2 ^ 12) with 4096.
    change (2 ^ 6) with 64. change (2 ^ 0) with 1.
    rewrite (lor_byte 15 4) by (try reflexivity; change (2 ^ 4) with 16; subst r; lia).
    rewrite !(lor_byte 1 7) by (try reflexivity; change (2 ^ 7) with 128; lia).
    replace (240 + r / 262144) with (code b0) by (subst r; lia).
    replace (128 + r / 4096 mod 64) with (code b1) by (subst r; lia).
    replace (128 + r / 64 mod 64) with (code b2) by (subst r; lia).
    replace (128 + r / 1 mod 64) with (code b3) by (subst r; lia).
    now rewrite !byte_of_code.
Qed.

Lemma length_append (a b : string) :
  String.length (a +:+ b) = (String.length a + String.length b)%nat.
Proof. induction a as [|x a IH]; simpl; [reflexivity|]. now rewrite IH. Qed.

Lemma take_drop n s : utf8.take n s +:+ utf8.drop n s = s.
Proof.
  revert s. induction n as [|n IH]; intros [|c s]; simpl; try reflexivity.
  now rewrite IH.
Qed.

Lemma length_drop n s :
  String.length (utf8.drop n s) = (String.length s - n)%nat.
Proof.
  revert s. induction n as [|n IH]; intros [|c s]; simpl; try reflexivity.
  apply IH.
Qed.

Lemma length_take n s :
  (n <= String.length s)%nat -> String.length (utf8.take n s) = n.
Proof.
  revert s. induction n as [|n IH]; intros [|c s]; simpl; intros H;
    try reflexivity; try lia.
  rewrite IH; [reflexivity|lia].
Qed.

Lemma drop_append a b : utf8.drop (String.length a) (a +:+ b) = b.
Proof. induction a as [|x a IH]; simpl; [now destruct b|exact IH]. Qed.

(** The width of the head: between 1 and the length of the text. *)
Lemma DecodeRune_size s :
  s <> EmptyString ->
  (1 <= snd (utf8.DecodeRuneInString s) <= String.length s)%nat.
Proof.
  destruct s as [|b0 r0]; [congruence|]. intros _.
  unfold utf8.DecodeRuneInString.
  destruct (code b0 <? 128); [simpl; lia|].
  destruct (utf8.lead b0) as [[[size lo] hi]|]; [|simpl; lia].
  destruct r0 as [|b1 r1]; [simpl; lia|].
  destruct (negb _); [simpl; lia|].
  destruct (size <=? 2)%nat; [simpl; lia|].
  destruct r1 as [|b2 r2]; [simpl; lia|].
  destruct (negb _); [simpl; lia|].
  destruct (size <=? 3)%nat; [simpl; lia|].
  destruct r2 as [|b3 r3]; [simpl; lia|].
  destruct (negb _); simpl; lia.
Qed.

(** A well-formed head is decoded from its own bytes alone. *)
Lemma DecodeRune_prefix s t :
  s <> EmptyString -> utf8.validHead s = true ->
  utf8.DecodeRuneInString
    (utf8.take (snd (utf8.DecodeRuneInString s)) s +:+ t)
  = utf8.DecodeRuneInString s.
Proof.
  unfold utf8.validHead.
  destruct s as [|b0 r0]; [congruence|]. intros _.
  unfold utf8.DecodeRuneInString.
  destruct (code b0 <? 128) eqn:Ha; [intros _; simpl; now rewrite Ha|].
  destruct (utf8.lead b0) as [[[size lo] hi]|] eqn:Hl; [|discriminate].
  destruct r0 as [|b1 r1]; [discriminate|].
  destruct (negb ((lo <=? code b1) && (code b1 <=? hi))) eqn:Hr; [discriminate|].
  destruct (size <=? 2)%nat eqn:H2.
  { intros _. simpl. now rewrite Ha, Hl, Hr, H2. }
  destruct r1 as [|b2 r2]; [discriminate|].
  destruct (negb (utf8.isCont b2)) eqn:Hc2; [discriminate|].
  destruct (size <=? 3)%nat eqn:H3.
  { intros _. simpl. now rewrite Ha, Hl, Hr, H2, Hc2, H3. }
  destruct r2 as [|b3 r3]; [discriminate|].
  destruct (negb (utf8.isCont b3)) eqn:Hc3; [discriminate|].
  intros _. simpl. now rewrite Ha, Hl, Hr, H2, Hc2, H3, Hc3.
Qed.

Lemma coerceFrom_valid fuel s :
  utf8.validFrom fuel s = true -> (String.length s <= fuel)%nat ->
  utf8.coerceFrom fuel s = s.
Proof.
  revert s. induction fuel as [|f IH]; intros s Hv Hlen.
  - destruct s; [reflexivity|simpl in Hlen; lia].
  - destruct s as [|b r]; [reflexivity|].
    cbn [utf8.validFrom utf8.coerceFrom] in *.
    apply andb_true_iff in Hv as [Hh Hv]. rewrite Hh.
    pose proof (DecodeRune_size (String b r) ltac:(discriminate)) as Hsz.
    rewrite (IH _ Hv).
    + apply take_drop.
    + rewrite length_drop. simpl in *. lia.
Qed.

Lemma coerce_valid s : utf8.ValidString s = true -> utf8.coerce s = s.
Proof. intros H. apply coerceFrom_valid; [exact H|lia]. Qed.

(** *** Strings written and read back *)

Lemma unquote_escapeByte b fuel tail :
  code b < 128 ->
  json.unquote (S fuel) (json.escapeByte b +:+ tail)
  = emitted (String b EmptyString) (json.unquote fuel tail).
Proof.
  each_byte b; intros Hb; try (vm_compute in Hb; discriminate); reflexivity.
Qed.

Lemma escapeByte_length b : (1 <= String.length (json.escapeByte b))%nat.
Proof. each_byte b; vm_compute; lia. Qed.

Lemma high_byte_plain b :
  (code b <? 128) = false ->
  Ascii.eqb b json.dquote = false /\ Ascii.eqb b json.backslash = false
  /\ (code b <? 32) = false.
Proof. each_byte b; intros H; try discriminate; repeat split; reflexivity. Qed.

(** The head of a text that starts with a byte above 127. *)
Lemma unquote_raw b r fuel tail :
  (code b <? 128) = false ->
  utf8.validHead (String b r) = true ->
  json.unquote (S fuel)
    (utf8.take (snd (utf8.DecodeRuneInString (String b r))) (String b r) +:+ tail)
  = emitted (utf8.take (snd (utf8.DecodeRuneInString (String b r))) (String b r))
      (json.unquote fuel tail).
Proof.
  intros Hb Hv.
  pose proof (DecodeRune_size (String b r) ltac:(discriminate)) as Hsz.
  pose proof (DecodeRune_prefix (String b r) tail ltac:(discriminate) Hv) as Hpre.
  pose proof (EncodeRune_DecodeRune (String b r) ltac:(discriminate) Hv) as Henc.
  destruct (utf8.DecodeRuneInString (String b r)) as [c n] eqn:Hd.
  cbn [fst snd] in *.
  destruct n as [|n]; [lia|].
  cbn [utf8.take String.append] in *.
  destruct (high_byte_plain b Hb) as (Hq & Hbs & Hctl).
  cbn [json.unquote]. rewrite Hq, Hbs, Hctl, Hb, Hpre, Henc.
  replace (utf8.drop (S n) (String b (utf8.take n r +:+ tail))) with tail.
  - unfold emitted. reflexivity.
  - cbn [utf8.drop].
    rewrite <- (length_take n r) at 1 by (simpl in Hsz; lia).
    now rewrite drop_append.
Qed.

Lemma unquote_appendString fuel s fuel2 rest :
  (String.length s <= fuel)%nat ->
  (String.length (json.appendString fuel s) < fuel2)%nat ->
  json.unquote fuel2 (json.appendString fuel s +:+ String json.dquote rest)
  = inr (utf8.coerceFrom fuel s, rest).
Proof.
  revert s fuel2. induction fuel as [|f IH]; intros s fuel2 Hlen Hfuel.
  { destruct s; [|simpl in Hlen; lia].
    destruct fuel2; [simpl in Hfuel; lia|]. reflexivity. }
  destruct s as [|b r].
  { destruct fuel2; [simpl in Hfuel; lia|]. reflexivity. }
  assert (Hstep : forall (out : string) s',
    (1 <= String.length out)%nat ->
    json.appendString (S f) (String b r) = out +:+ json.appendString f s' ->
    (String.length s' <= f)%nat ->
    exists g, fuel2 = S g
      /\ json.unquote g (json.appendString f s' +:+ String json.dquote rest)
         = inr (utf8.coerceFrom f s', rest)).
  { intros out s' Hout Heq Hs'. rewrite Heq, length_append in Hfuel.
    destruct fuel2 as [|g]; [lia|]. exists g. split; [reflexivity|].
    apply IH; [exact Hs'|lia]. }
  pose proof (DecodeRune_size (String b r) ltac:(discriminate)) as Hsz.
  assert (Hdrop : (String.length
                     (utf8.drop (snd (utf8.DecodeRuneInString (String b r)))
                        (String b r)) <= f)%nat).
  { rewrite length_drop. cbn [String.length] in *. lia. }
  cbn [json.appendString utf8.coerceFrom] in *.
  destruct (code b <? 128) eqn:Hb.
  - (* an ASCII byte *)
    assert (Hd : utf8.DecodeRuneInString (String b r) = (code b, 1%nat))
      by (unfold utf8.DecodeRuneInString; now rewrite Hb).
    assert (Hv : utf8.validHead (String b r) = true).
    { unfold utf8.validHead. rewrite Hd. apply N.ltb_lt in Hb.
      rewrite (proj2 (N.eqb_neq (code b) utf8.RuneError));
        [reflexivity|unfold utf8.RuneError; lia]. }
    rewrite Hd, Hv in *. cbn [snd utf8.take utf8.drop] in *.
    destruct (Hstep (json.escapeByte b) r (escapeByte_length b) eq_refl
                ltac:(simpl in Hlen; lia)) as (g & -> & Hrec).
    rewrite append_assoc, unquote_escapeByte by (now apply N.ltb_lt).
    rewrite Hrec. reflexivity.
  - destruct (utf8.DecodeRuneInString (String b r)) as [c n] eqn:Hd.
    cbn [snd] in *.
    unfold utf8.validHead. rewrite Hd.
    destruct ((c =? utf8.RuneError) && (n =? 1)%nat) eqn:Hbad; cbn [negb].
    + (* an ill-formed byte *)
      apply andb_true_iff in Hbad as [_ Hn]. apply Nat.eqb_eq in Hn. subst n.
      cbn [utf8.drop] in *.
      destruct (Hstep "\ufffd" r ltac:(simpl; lia) eq_refl
                  ltac:(simpl in Hlen; lia)) as (g & -> & Hrec).
      rewrite append_assoc.
      change (json.unquote (S g)
                ("\ufffd" +:+ json.appendString f r +:+ String json.dquote rest))
        with (emitted (utf8.EncodeRune utf8.RuneError)
                (json.unquote g
                   (json.appendString f r +:+ String json.dquote rest))).
      rewrite Hrec. reflexivity.
    + assert (Hv : utf8.validHead (String b r) = true)
        by (unfold utf8.validHead; now rewrite Hd, Hbad).
      pose proof (EncodeRune_DecodeRune (String b r) ltac:(discriminate) Hv)
        as Henc. rewrite Hd in Henc. cbn [fst snd] in Henc.
      destruct ((c =? 8232) || (c =? 8233)) eqn:Hsep.
      * (* a line or paragraph separator *)
        destruct (Hstep ("\u202" +:+ String (json.hex (N.land c 15)) EmptyString)
                    (utf8.drop n (String b r)) ltac:(simpl; lia) eq_refl Hdrop)
          as (g & -> & Hrec).
        rewrite <- Henc.
        apply orb_true_iff in Hsep as [Hc|Hc]; apply N.eqb_eq in Hc; subst c.
        -- change (json.unquote (S g) _)
             with (emitted (utf8.EncodeRune 8232)
                     (json.unquote g
                        (json.appendString f (utf8.drop n (String b r))
                         +:+ String json.dquote rest))).
           rewrite Hrec. reflexivity.
        -- change (json.unquote (S g) _)
             with (emitted (utf8.EncodeRune 8233)
                     (json.unquote g
                        (json.appendString f (utf8.drop n (String b r))
                         +:+ String json.dquote rest))).
           rewrite Hrec. reflexivity.
      * (* any other well-formed sequence *)
        assert (Hn : (1 <= n)%nat) by lia.
        destruct (Hstep (utf8.take n (String b r)) (utf8.drop n (String b r))
                    ltac:(rewrite length_take; lia) eq_refl Hdrop)
          as (g & -> & Hrec).
        rewrite append_assoc.
        pose proof (unquote_raw b r g
                      (json.appendString f (utf8.drop n (String b r))
                       +:+ String json.dquote rest) Hb Hv) as Hraw.
        rewrite Hd in Hraw. cbn [snd] in Hraw. rewrite Hraw, Hrec.
        reflexivity.
Qed.

Lemma unquote_quoted s rest :
  json.unquote
    (String.length (json.appendString (String.length s) s
                    +:+ String json.dquote rest))
    (json.appendString (String.length s) s +:+ String json.dquote rest)
  = inr (utf8.coerce s, rest).
Proof.
  apply unquote_appendString; [lia|].
  rewrite length_append. simpl. lia.
Qed.

Lemma quote_append s rest :
  json.quote s +:+ rest
  = String json.dquote
      (json.appendString (String.length s) s +:+ String json.dquote rest).
Proof. unfold json.quote. simpl. now rewrite append_assoc. Qed.

(** *** Values written and read back *)

Lemma value_ind' (P : json.value -> Prop) :
  P json.Null -> (forall b, P (json.Bool b)) ->
  (forall lit, P (json.Number lit)) -> (forall s, P (json.Str s)) ->
  (forall elems, Forall P elems -> P (json.Array elems)) ->
  (forall members, Forall (fun m => P (snd m)) members ->
                   P (json.Object members)) ->
  forall v, P v.
Proof.
  intros Hnull Hbool Hnum Hstr Harr Hobj. fix IH 1.
  intros [ |b|lit|s|elems|members].
  - exact Hnull.
  - apply Hbool.
  - apply Hnum.
  - apply Hstr.
  - apply Harr. revert elems. fix go 1.
    intros [|x r]; constructor; [apply IH|apply go].
  - apply Hobj. revert members. fix go 1.
    intros [|x r]; constructor; [apply IH|apply go].
Qed.

Lemma encodeValue_head v :
  numberFree v = true ->
  exists c t, json.encodeValue v = String c t /\ opensValue c = true.
Proof.
  destruct v as [ |[|]|lit|s|elems|members]; simpl; intros H;
    try discriminate; eauto.
Qed.

Lemma opensValue_plain c :
  opensValue c = true ->
  json.isSpace c = false /\ Ascii.eqb c "]" = false /\ Ascii.eqb c "}" = false.
Proof. each_byte c; intros H; try discriminate; repeat split; reflexivity. Qed.

Lemma Join_cons2 x y l sep :
  str.Join (x :: y :: l) sep = x +:+ sep +:+ str.Join (y :: l) sep.
Proof. reflexivity. Qed.

Lemma parseElems_encoded elems :
  Forall readsBack elems -> forallb numberFree elems = true -> elems <> [] ->
  forall fuel rest,
    (String.length (str.Join (List.map json.encodeValue elems) ",") + 1 < fuel)%nat ->
    json.parseElems fuel
      (str.Join (List.map json.encodeValue elems) "," +:+ String "]" rest)
    = inr (List.map sanitize elems, rest).
Proof.
  induction 1 as [|x l Hx Hl IH]; [congruence|].
  cbn [forallb]. intros Hnf _ fuel rest Hfuel.
  apply andb_true_iff in Hnf as [Hnx Hnl].
  destruct fuel as [|f]; [lia|].
  destruct l as [|y l'].
  - cbn [List.map str.Join] in *. cbn [json.parseElems].
    rewrite (Hx Hnx f (String "]" rest)) by lia.
    reflexivity.
  - rewrite List.map_cons, (List.map_cons _ y), Join_cons2 in *.
    rewrite !length_append in Hfuel. cbn [String.length] in Hfuel.
    rewrite !append_assoc. cbn [json.parseElems].
    rewrite (Hx Hnx f) by lia.
    cbn [bind String.append json.skipSpace].
    change (json.isSpace ",") with false. cbv iota.
    change (Ascii.eqb "," "]") with false. cbv iota.
    change (Ascii.eqb "," ",") with true. cbv iota.
    rewrite (IH Hnl ltac:(discriminate) f rest) by lia.
    reflexivity.
Qed.

Lemma members_head m l :
  exists t, str.Join (List.map encodeMember (m :: l)) "," = String json.dquote t.
Proof.
  destruct l as [|m' l]; cbn [List.map str.Join]; unfold encodeMember at 1;
    rewrite ?append_assoc, quote_append; eauto.
Qed.

Lemma skipSpace_members m l t :
  json.skipSpace (str.Join (List.map encodeMember (m :: l)) "," +:+ t)
  = str.Join (List.map encodeMember (m :: l)) "," +:+ t.
Proof. destruct (members_head m l) as [t' ->]. reflexivity. Qed.

Lemma parseMembers_encoded members :
  Forall (fun m => readsBack (snd m)) members ->
  forallb (fun m => numberFree (snd m)) members = true -> members <> [] ->
  forall fuel rest,
    (String.length (str.Join (List.map encodeMember members) ",") + 1 < fuel)%nat ->
    json.parseMembers fuel
      (str.Join (List.map encodeMember members) "," +:+ String "}" rest)
    = inr (List.map sanitizeMember members, rest).
Proof.
  induction 1 as [|[k v] l Hv Hl IH]; [congruence|].
  cbn [forallb snd] in *. intros Hnf _ fuel rest Hfuel.
  apply andb_true_iff in Hnf as [Hnv Hnl].
  destruct fuel as [|f]; [lia|].
  assert (Hone : forall t,
    (String.length (json.encodeValue v) < f)%nat ->
    json.parseMembers (S f) (encodeMember (k, v) +:+ t)
    = (try (v', r3) <- (inr (sanitize v, t) : result (json.value * string)) in
       match json.skipSpace r3 with
       | EmptyString => inl io_ErrUnexpectedEOF
       | String c4 r4 =>
           if Ascii.eqb c4 "}" then inr ([(utf8.coerce k, v')], r4)
           else if Ascii.eqb c4 "," then
             try (ms, r5) <- json.parseMembers f (json.skipSpace r4) in
             inr ((utf8.coerce k, v') :: ms, r5)
           else inl (SyntaxError
                       "invalid character after object key:value pair")
       end)).
  { intros t Hlen. unfold encodeMember. cbn [fst snd].
    rewrite !append_assoc, quote_append. cbn [json.parseMembers].
    rewrite Ascii.eqb_refl. cbn [negb].
    rewrite unquote_quoted. cbn [bind String.append json.skipSpace].
    change (json.isSpace ":") with false. cbv iota.
    rewrite Ascii.eqb_refl. cbn [negb].
    rewrite (Hv Hnv f t Hlen). reflexivity. }
  destruct l as [|m' l'].
  - cbn [List.map str.Join] in *.
    assert (Hlen : (String.length (json.encodeValue v) < f)%nat).
    { unfold encodeMember in Hfuel. cbn [fst snd] in Hfuel.
      rewrite !length_append in Hfuel. lia. }
    rewrite (Hone _ Hlen). reflexivity.
  - rewrite List.map_cons, (List.map_cons _ m'), Join_cons2 in *.
    assert (Hlen : (String.length (json.encodeValue v) < f)%nat).
    { unfold encodeMember in Hfuel at 1. cbn [fst snd] in Hfuel.
      rewrite !length_append in Hfuel. lia. }
    rewrite !append_assoc, (Hone _ Hlen).
    cbn [bind String.append json.skipSpace].
    change (json.isSpace ",") with false. cbv iota.
    change (Ascii.eqb "," "}") with false. cbv iota.
    change (Ascii.eqb "," ",") with true. cbv iota.
    rewrite <- (List.map_cons encodeMember m' l'), skipSpace_members.
    rewrite (List.map_cons encodeMember m' l').
    rewrite (IH Hnl ltac:(discriminate) f rest).
    + reflexivity.
    + rewrite !length_append in Hfuel. cbn [String.length] in Hfuel. lia.
Qed.

Lemma parseValue_array c t f :
  json.isSpace c = false -> Ascii.eqb c "]" = false ->
  json.parseValue (S f) (String "[" (String c t))
  = (try (vs, rest) <- json.parseElems f (String c t) in
     inr (json.Array vs, rest)).
Proof.
  intros Hsp Hclose. cbn [json.parseValue json.skipSpace].
  change (json.isSpace "[") with false. cbv iota.
  change (Ascii.eqb "[" "{") with false.
  change (Ascii.eqb "[" "[") with true. cbv iota.
  cbn [json.skipSpace]. now rewrite Hsp, Hclose.
Qed.

Lemma parseValue_object c t f :
  json.isSpace c = false -> Ascii.eqb c "}" = false ->
  json.parseValue (S f) (String "{" (String c t))
  = (try (ms, rest) <- json.parseMembers f (String c t) in
     inr (json.Object ms, rest)).
Proof.
  intros Hsp Hclose. cbn [json.parseValue json.skipSpace].
  change (json.isSpace "{") with false. cbv iota.
  change (Ascii.eqb "{" "{") with true. cbv iota.
  cbn [json.skipSpace]. now rewrite Hsp, Hclose.
Qed.

(** A value without numbers, written by the encoder and followed by
    any text, is read back by the parser as the same value with its
    strings coerced to well-formed UTF-8; the text after it is left. *)
Theorem parseValue_encodeValue v : readsBack v.
Proof.
  induction v as [ |b|lit|s|elems IH|members IH] using value_ind';
    intros Hnf fuel rest Hfuel; try discriminate;
    (destruct fuel as [|f]; [lia|]).
  - reflexivity.
  - destruct b; reflexivity.
  - cbn [json.encodeValue sanitize]. rewrite quote_append.
    cbn [json.parseValue json.skipSpace].
    change (json.isSpace json.dquote) with false. cbv iota.
    change (Ascii.eqb json.dquote "{") with false.
    change (Ascii.eqb json.dquote "[") with false. cbv iota.
    rewrite Ascii.eqb_refl, unquote_quoted. reflexivity.
  - cbn [json.encodeValue sanitize numberFree] in *.
    destruct elems as [|x l]; [reflexivity|].
    rewrite !length_append in Hfuel. cbn [String.length] in Hfuel.
    destruct (encodeValue_head x) as (c & t & Hc & Hopen).
    { cbn [forallb] in Hnf. now apply andb_true_iff in Hnf as [? _]. }
    destruct (opensValue_plain c Hopen) as (Hsp & Hclose & _).
    assert (Hjoin : exists t', str.Join (List.map json.encodeValue (x :: l)) ","
                               = String c t').
    { destruct l; cbn [List.map str.Join]; rewrite Hc; simpl; eauto. }
    destruct Hjoin as [t' Hjoin].
    rewrite !append_assoc. cbn [String.append].
    rewrite Hjoin at 1. cbn [String.append].
    rewrite (parseValue_array c _ f Hsp Hclose).
    change (String c (t' +:+ String "]" rest))
      with (String c t' +:+ String "]" rest).
    rewrite <- Hjoin.
    rewrite (parseElems_encoded (x :: l) IH Hnf ltac:(discriminate) f rest)
      by lia.
    reflexivity.
  - cbn [json.encodeValue sanitize numberFree] in *.
    destruct members as [|m l]; [reflexivity|].
    rewrite !length_append in Hfuel. cbn [String.length] in Hfuel.
    change (fun m0 : string * json.value =>
              json.quote (fst m0) +:+ ":" +:+ json.encodeValue (snd m0))
      with encodeMember in *.
    change (fun m0 : string * json.value =>
              (utf8.coerce (fst m0), sanitize (snd m0)))
      with sanitizeMember.
    destruct (members_head m l) as [t' Hjoin].
    rewrite !append_assoc. cbn [String.append].
    rewrite Hjoin at 1. cbn [String.append].
    rewrite (parseValue_object json.dquote _ f eq_refl eq_refl).
    change (String json.dquote (t' +:+ String "}" rest))
      with (String json.dquote t' +:+ String "}" rest).
    rewrite <- Hjoin.
    rewrite (parseMembers_encoded (m :: l) IH Hnf ltac:(discriminate) f rest)
      by lia.
    reflexivity.
Qed.

(** The same for a whole body as the encoder writes it. *)
Corollary readValue_encoded v rest :
  numberFree v = true ->
  json.readValue (json.encodeValue v +:+ rest) = inr (sanitize v, rest).
Proof.
  intros Hnf. unfold json.readValue.
  destruct (encodeValue_head v Hnf) as (c & t & Hc & Hopen).
  destruct (opensValue_plain c Hopen) as (Hsp & _).
  pose proof (parseValue_encodeValue v Hnf
                (S (String.length (json.encodeValue v +:+ rest))) rest) as Hread.
  rewrite Hc in *. cbn [String.append json.skipSpace] in *. rewrite Hsp.
  apply Hread. cbn [String.length]. rewrite length_append. lia.
Qed.

(** ** Request bodies *)

Lemma numberFree_strings l :
  forallb numberFree (List.map (json.marshal (T := string)) l) = true.
Proof. induction l as [|s l IH]; [reflexivity|exact IH]. Qed.

Lemma sanitize_strings l :
  List.map sanitize (List.map (json.marshal (T := string)) l)
  = List.map strValue l.
Proof.
  induction l as [|s l IH]; [reflexivity|].
  cbn [List.map]. now rewrite IH.
Qed.

Lemma numberFree_slice (s : slice string) : numberFree (json.marshal s) = true.
Proof. destruct s as [|l]; [reflexivity|]. apply numberFree_strings. Qed.

Lemma sanitize_slice (s : slice string) :
  sanitize (json.marshal s)
  = match s with
    | Nil => json.Null
    | Slice l => json.Array (List.map strValue l)
    end.
Proof.
  destruct s as [|l]; [reflexivity|].
  cbn [json.marshal json.slice_Marshaler sanitize].
  now rewrite sanitize_strings.
Qed.

Lemma Encode_body {T} `{!json.Marshaler T} (v : T) :
  json.Encode v = inr (json.encodeValue (json.marshal v) +:+ newline).
Proof. reflexivity. Qed.

Lemma numberFree_nutrients (p : USDANutrientsReqParams.t) :
  numberFree (json.marshal p) = true.
Proof.
  destruct p as [fg ndbno ids subset].
  cbn [json.marshal USDANutrientsReqParams.marshaler json.member
         USDANutrientsReqParams.Fg USDANutrientsReqParams.Ndbno
         USDANutrientsReqParams.NutrientsID USDANutrientsReqParams.Subset].
  pose proof (numberFree_slice fg) as Hfg.
  pose proof (numberFree_slice ids) as Hids.
  unfold json.member.
  destruct (json.isEmptyValue fg); destruct (json.isEmptyValue ndbno);
    destruct (json.isEmptyValue subset); cbn [andb app numberFree forallb snd];
    rewrite ?Hfg, ?Hids; reflexivity.
Qed.

Lemma sanitize_nutrients (p : USDANutrientsReqParams.t) :
  sanitize (json.marshal p)
  = json.Object
      ((if (len (USDANutrientsReqParams.Fg p) =? 0)%nat then []
        else [("fg", sanitize (json.marshal (USDANutrientsReqParams.Fg p)))])
       ++ (if (String.length (USDANutrientsReqParams.Ndbno p) =? 0)%nat then []
           else [("ndbno", strValue (USDANutrientsReqParams.Ndbno p))])
       ++ [("nutrients",
            sanitize (json.marshal (USDANutrientsReqParams.NutrientsID p)))]
       ++ (if (String.length (USDANutrientsReqParams.Subset p) =? 0)%nat then []
           else [("subset", strValue (USDANutrientsReqParams.Subset p))])).
Proof.
  destruct p as [fg ndbno ids subset].
  cbn [json.marshal USDANutrientsReqParams.marshaler json.member
         USDANutrientsReqParams.Fg USDANutrientsReqParams.Ndbno
         USDANutrientsReqParams.NutrientsID USDANutrientsReqParams.Subset
         json.isEmptyValue json.slice_Marshaler json.string_Marshaler andb].
  unfold json.member.
  cbn [json.isEmptyValue json.slice_Marshaler json.string_Marshaler andb].
  destruct (len fg =? 0)%nat; destruct (String.length ndbno =? 0)%nat;
    destruct (String.length subset =? 0)%nat; reflexivity.
Qed.

Lemma fold_unmarshal_strings l acc :
  fold_left
    (fun (acc : list string * option error) x =>
       let '(t, e) := json.unmarshal x json.zero in
       (fst acc ++ [t], json.saveError (snd acc) e))
    (List.map strValue l) (acc, None)
  = (acc ++ List.map utf8.coerce l, None).
Proof.
  remember (fun (acc : list string * option error) x =>
              let '(t, e) := json.unmarshal x json.zero in
              (fst acc ++ [t], json.saveError (snd acc) e)) as step eqn:Hstep.
  revert acc. induction l as [|s l IH]; intros acc.
  - cbn [List.map fold_left]. now rewrite app_nil_r.
  - cbn [List.map fold_left].
    assert (step (acc, None) (strValue s) = (acc ++ [utf8.coerce s], None))
      as -> by (subst step; reflexivity).
    rewrite IH. now rewrite <- app_assoc.
Qed.

Lemma unmarshal_slice (s old : slice string) :
  json.unmarshal (sanitize (json.marshal s)) old = (readBackSlice s, None).
Proof.
  rewrite sanitize_slice. destruct s as [|l]; [reflexivity|].
  change (json.unmarshal (json.Array (List.map strValue l)) old)
    with (let '(l0, err) :=
            fold_left
              (fun (acc : list string * option error) x =>
                 let '(t, e) := json.unmarshal x json.zero in
                 (fst acc ++ [t], json.saveError (snd acc) e))
              (List.map strValue l) ([], None) in
          (Slice l0, err)).
  now rewrite fold_unmarshal_strings.
Qed.

#[local] Arguments json.unmarshal {T} {Unmarshaler} !_ _ /.

Lemma unmarshal_nutrients (p : USDANutrientsReqParams.t) :
  json.unmarshal (sanitize (json.marshal p)) json.zero
  = (readBackNutrients p, None).
Proof.
  rewrite sanitize_nutrients. destruct p as [fg ndbno ids subset].
  unfold readBackNutrients, readBackOmitted.
  cbn [USDANutrientsReqParams.Fg USDANutrientsReqParams.Ndbno
         USDANutrientsReqParams.NutrientsID USDANutrientsReqParams.Subset].
  pose proof (unmarshal_slice fg Nil) as Hfg.
  pose proof (unmarshal_slice ids Nil) as Hids.
  revert Hfg Hids.
  generalize (sanitize (json.marshal fg)) (sanitize (json.marshal ids)).
  intros vfg vids Hfg Hids.
  destruct (len fg =? 0)%nat; destruct (String.length ndbno =? 0)%nat eqn:Hn;
    destruct (String.length subset =? 0)%nat eqn:Hs;
    do 3 (cbn; rewrite ?Hfg, ?Hids);
    try (apply Nat.eqb_eq in Hn; destruct ndbno; [|discriminate]);
    try (apply Nat.eqb_eq in Hs; destruct subset; [|discriminate]);
    reflexivity.
Qed.

Lemma numberFree_list (p : USDAListReqParams.t) :
  numberFree (json.marshal p) = true.
Proof.
  destruct p as [lt]. cbn [json.marshal USDAListReqParams.marshaler].
  unfold json.member. destruct (_ && _); reflexivity.
Qed.

Lemma unmarshal_list (p : USDAListReqParams.t) :
  json.unmarshal (sanitize (json.marshal p)) json.zero = (readBackList p, None).
Proof.
  destruct p as [lt]. unfold readBackList.
  cbn [json.marshal USDAListReqParams.marshaler USDAListReqParams.Lt].
  unfold json.member.
  cbn [json.isEmptyValue json.string_Marshaler andb].
  destruct (String.length lt =? 0)%nat eqn:Hl; cbn;
    try (apply Nat.eqb_eq in Hl; destruct lt; [|discriminate]); reflexivity.
Qed.

Lemma numberFree_foods (p : USDAFoodsReqParams.t) :
  numberFree (json.marshal p) = true.
Proof.
  destruct p as [ndbno type].
  cbn [json.marshal USDAFoodsReqParams.marshaler
         USDAFoodsReqParams.Ndbno USDAFoodsReqParams.Type_].
  pose proof (numberFree_slice ndbno) as Hn.
  unfold json.member.
  destruct (json.isEmptyValue type); cbn [andb app numberFree forallb snd];
    rewrite ?Hn; reflexivity.
Qed.

Lemma sanitize_foods (p : USDAFoodsReqParams.t) :
  sanitize (json.marshal p)
  = json.Object
      ([("ndbno", sanitize (json.marshal (USDAFoodsReqParams.Ndbno p)))]
       ++ (if (String.length (USDAFoodsReqParams.Type_ p) =? 0)%nat then []
           else [("type", strValue (USDAFoodsReqParams.Type_ p))])).
Proof.
  destruct p as [ndbno type].
  cbn [json.marshal USDAFoodsReqParams.marshaler
         USDAFoodsReqParams.Ndbno USDAFoodsReqParams.Type_].
  unfold json.member.
  cbn [json.isEmptyValue json.slice_Marshaler json.string_Marshaler andb].
  destruct (String.length type =? 0)%nat; reflexivity.
Qed.

Lemma unmarshal_foods (p : USDAFoodsReqParams.t) :
  json.unmarshal (sanitize (json.marshal p)) json.zero = (readBackFoods p, None).
Proof.
  rewrite sanitize_foods. destruct p as [ndbno type]. unfold readBackFoods.
  cbn [USDAFoodsReqParams.Ndbno USDAFoodsReqParams.Type_].
  pose proof (unmarshal_slice ndbno Nil) as Hn. revert Hn.
  generalize (sanitize (json.marshal ndbno)). intros v Hn.
  destruct (String.length type =? 0)%nat eqn:Ht;
    do 2 (cbn; rewrite ?Hn);
    try (apply Nat.eqb_eq in Ht; destruct type; [|discriminate]);
    reflexivity.
Qed.

Lemma numberFree_search (p : USDASearchReqParams.t) :
  numberFree (json.marshal p) = true.
Proof.
  destruct p as [q ds fg]. cbn [json.marshal USDASearchReqParams.marshaler].
  unfold json.member.
  destruct (_ && json.isEmptyValue (USDASearchReqParams.Q _));
    destruct (_ && json.isEmptyValue (USDASearchReqParams.Ds _));
    destruct (_ && json.isEmptyValue (USDASearchReqParams.Fg _)); reflexivity.
Qed.

Lemma unmarshal_search (p : USDASearchReqParams.t) :
  json.unmarshal (sanitize (json.marshal p)) json.zero = (readBackSearch p, None).
Proof.
  destruct p as [q ds fg]. unfold readBackSearch.
  cbn [json.marshal USDASearchReqParams.marshaler USDASearchReqParams.Q
         USDASearchReqParams.Ds USDASearchReqParams.Fg].
  unfold json.member.
  cbn [json.isEmptyValue json.string_Marshaler andb].
  destruct (String.length q =? 0)%nat eqn:Hq;
    destruct (String.length ds =? 0)%nat eqn:Hd;
    destruct (String.length fg =? 0)%nat eqn:Hf; cbn;
    try (apply Nat.eqb_eq in Hq; destruct q; [|discriminate]);
    try (apply Nat.eqb_eq in Hd; destruct ds; [|discriminate]);
    try (apply Nat.eqb_eq in Hf; destruct fg; [|discriminate]);
    reflexivity.
Qed.

Lemma unmarshal_pointer_object {P : Type} `{!json.Unmarshaler P} members
  (old : option P) :
  json.unmarshal (json.Object members) old
  = (let '(t, e) := json.unmarshal (json.Object members) (default json.zero old) in
     (Some t, e)).
Proof. reflexivity. Qed.

(** A pointer to a struct written by the encoder reads back, into a nil
    pointer, as the struct read back. *)
Lemma Decode_Encode_pointer {P : Type} `{!json.Marshaler P}
  `{!json.Unmarshaler P} (readBack : P -> P) (params : option P) :
  (forall p, numberFree (json.marshal p) = true) ->
  (forall p, exists members, json.marshal p = json.Object members) ->
  (forall p, json.unmarshal (sanitize (json.marshal p)) json.zero
             = (readBack p, None)) ->
  json.Decode (json.encodeValue (json.marshal params) +:+ newline)
    (None : option P)
  = (option_map readBack params, None).
Proof.
  intros Hnf Hobj Hun. unfold json.Decode.
  rewrite readValue_encoded by (destruct params; [apply Hnf|reflexivity]).
  destruct params as [p|]; [|reflexivity].
  cbn [json.marshal json.ptr_Marshaler option_map].
  specialize (Hun p). destruct (Hobj p) as [members Hm].
  rewrite Hm in *. cbn [sanitize] in *.
  rewrite unmarshal_pointer_object. cbn [default].
  now rewrite Hun.
Qed.

Lemma newRequest_sends {P : Type} `{!json.Marshaler P} `{!json.Unmarshaler P}
  (readBack : P -> P) c path (params : option P) ctx w :
  (forall p, numberFree (json.marshal p) = true) ->
  (forall p, exists members, json.marshal p = json.Object members) ->
  (forall p, json.unmarshal (sanitize (json.marshal p)) json.zero
             = (readBack p, None)) ->
  sendsJsonPost c (path, None) params readBack w
    match newRequest c path params with
    | inl _ => w
    | inr req => w ++ [http.WithContext req ctx]
    end.
Proof.
  intros Hnf Hobj Hun. unfold sendsJsonPost, newRequest.
  rewrite Encode_body. unfold http.NewRequest.
  change (url.nonEmpty http.MethodPost) with true. cbv iota.
  change (http.validMethod http.MethodPost) with true. cbn [negb].
  destruct (url.Parse _) as [e|u]; [reflexivity|].
  eexists. split; [reflexivity|]. unfold jsonPost.
  split; [reflexivity|]. split.
  { unfold http.HeaderGet, http.WithContext, http.HeaderSet.
    cbn [http.header]. now rewrite lookup_insert_eq. }
  split; [reflexivity|].
  cbn [http.WithContext http.HeaderSet http.Body].
  now apply Decode_Encode_pointer.
Qed.

Lemma marshal_object_list (p : USDAListReqParams.t) :
  exists members, json.marshal p = json.Object members.
Proof. eexists. reflexivity. Qed.

Lemma marshal_object_nutrients (p : USDANutrientsReqParams.t) :
  exists members, json.marshal p = json.Object members.
Proof. eexists. reflexivity. Qed.

Lemma marshal_object_foods (p : USDAFoodsReqParams.t) :
  exists members, json.marshal p = json.Object members.
Proof. eexists. reflexivity. Qed.

Lemma marshal_object_search (p : USDASearchReqParams.t) :
  exists members, json.marshal p = json.Object members.
Proof. eexists. reflexivity. Qed.

Lemma map_coerce_valid l :
  forallb utf8.ValidString l = true -> List.map utf8.coerce l = l.
Proof.
  induction l as [|s l IH]; [reflexivity|]. cbn [forallb List.map].
  intros H. apply andb_true_iff in H as [Hs Hl].
  now rewrite (coerce_valid s Hs), IH.
Qed.

Lemma readBackSlice_valid s : validSlice s = true -> readBackSlice s = s.
Proof.
  destruct s as [|l]; [reflexivity|]. unfold validSlice, readBackSlice.
  cbn [items]. intros H. now rewrite map_coerce_valid.
Qed.

Lemma readBackOmitted_valid s :
  validSlice s = true -> s <> Slice [] -> readBackOmitted s = s.
Proof.
  intros Hv Hne. unfold readBackOmitted.
  destruct s as [|[|x l]]; [reflexivity|congruence|].
  cbn [len items length Nat.eqb]. now apply readBackSlice_valid.
Qed.

Lemma andb_true4 a b c d :
  a && b && c && d = true -> a = true /\ b = true /\ c = true /\ d = true.
Proof. destruct a, b, c, d; cbn; intuition congruence. Qed.

Lemma readBackList_valid p : validList p = true -> readBackList p = p.
Proof.
  destruct p as [lt]. unfold validList, readBackList.
  cbn [USDAListReqParams.Lt]. intros H. now rewrite coerce_valid.
Qed.

Lemma readBackNutrients_valid p :
  validNutrients p = true ->
  USDANutrientsReqParams.Fg p <> Slice [] ->
  readBackNutrients p = p.
Proof.
  destruct p as [fg ndbno ids subset]. unfold validNutrients, readBackNutrients.
  cbn [USDANutrientsReqParams.Fg USDANutrientsReqParams.Ndbno
         USDANutrientsReqParams.NutrientsID USDANutrientsReqParams.Subset].
  intros H Hfg. apply andb_true4 in H as (H1 & H2 & H3 & H4).
  now rewrite readBackOmitted_valid, readBackSlice_valid, !coerce_valid.
Qed.

Lemma readBackFoods_valid p : validFoods p = true -> readBackFoods p = p.
Proof.
  destruct p as [ndbno type]. unfold validFoods, readBackFoods.
  cbn [USDAFoodsReqParams.Ndbno USDAFoodsReqParams.Type_].
  intros H. apply andb_true_iff in H as [H1 H2].
  now rewrite readBackSlice_valid, coerce_valid.
Qed.

Lemma readBackSearch_valid p : validSearch p = true -> readBackSearch p = p.
Proof.
  destruct p as [q ds fg]. unfold validSearch, readBackSearch.
  cbn [USDASearchReqParams.Q USDASearchReqParams.Ds USDASearchReqParams.Fg].
  intros H. apply andb_true_iff in H as [H H3].
  apply andb_true_iff in H as [H1 H2].
  now rewrite !coerce_valid.
Qed.

Section Requests.

Context {USDANutrientReport USDAFoodsReport : Type}.
Context `{!json.Unmarshaler USDANutrientReport}.
Context `{!json.Unmarshaler USDAFoodsReport}.

(** C5, as the code has it: each of the four operations sends nothing
    when the options or the target URL are rejected, and else one
    request: a POST with the content type [application/json], to the
    parse of the base URL followed by the path with its options, whose
    body decodes into the parameter type as the parameters read back,
    that is with every string coerced to valid UTF-8 and an empty
    [fg] list of the nutrient report read as nil.  Parameters whose
    strings are valid UTF-8 (and whose [fg] list is not empty and
    non-nil) read back as themselves. *)
Theorem C5_requests_are_json_posts c ctx opts w :
  (forall params,
     sendsJsonPost c (addQueryOptions "list" opts) params readBackList w
       (snd (GetList c ctx params opts w)))
  /\ (forall params,
        sendsJsonPost c (addQueryOptions "nutrients" opts) params
          readBackNutrients w
          (snd (GetUSDANutrientReport
                  (USDANutrientReport := USDANutrientReport)
                  c ctx params opts w)))
  /\ (forall params,
        sendsJsonPost c ("V2/reports", None) params readBackFoods w
          (snd (GetUSDAFoodsReportV2 (USDAFoodsReport := USDAFoodsReport)
                  c ctx params w)))
  /\ (forall params,
        sendsJsonPost c (addQueryOptions "search" opts) params readBackSearch w
          (snd (GetUSDASearch c ctx params opts w)))
  /\ (forall p, validList p = true -> readBackList p = p)
  /\ (forall p, validNutrients p = true ->
                USDANutrientsReqParams.Fg p <> Slice [] ->
                readBackNutrients p = p)
  /\ (forall p, validFoods p = true -> readBackFoods p = p)
  /\ (forall p, validSearch p = true -> readBackSearch p = p).
Proof.
  split; [|split; [|split; [|split]]].
  - intros params. rewrite GetList_wire.
    destruct (addQueryOptions "list" opts) as [q [e|]]; [reflexivity|].
    apply newRequest_sends;
      [apply numberFree_list | apply marshal_object_list | apply unmarshal_list].
  - intros params. rewrite GetUSDANutrientReport_wire.
    destruct (addQueryOptions "nutrients" opts) as [q [e|]]; [reflexivity|].
    apply newRequest_sends;
      [apply numberFree_nutrients | apply marshal_object_nutrients
       | apply unmarshal_nutrients].
  - intros params. rewrite GetUSDAFoodsReportV2_wire.
    apply newRequest_sends;
      [apply numberFree_foods | apply marshal_object_foods
       | apply unmarshal_foods].
  - intros params. rewrite GetUSDASearch_wire.
    destruct (addQueryOptions "search" opts) as [q [e|]]; [reflexivity|].
    apply newRequest_sends;
      [apply numberFree_search | apply marshal_object_search
       | apply unmarshal_search].
  - split; [exact readBackList_valid|].
    split; [exact readBackNutrients_valid|].
    split; [exact readBackFoods_valid|exact readBackSearch_valid].
Qed.

End Requests.

(** C5 as stated fails: the body does not always read back as the
    parameters passed in.  A list type that is not valid UTF-8 (the
    byte 255) is written as U+FFFD and reads back as its three bytes;
    an empty, non-nil [fg] list of the nutrient report is left out of
    the body and reads back as nil. *)
Lemma C5_counterexample :
  exists c req req',
    NewClient (failingTransport io_EOF) "demo123" None = returned c
    /\ snd (GetList c context.Background
              (Some (USDAListReqParams.mk (String "255" EmptyString))) None [])
       = [req]
    /\ json.Decode (http.Body req) (None : option USDAListReqParams.t)
       = (Some (USDAListReqParams.mk
                  (String "239" (String "191" (String "189" EmptyString)))),
          None)
    /\ newRequest c "nutrients"
         (Some (USDANutrientsReqParams.mk (Slice []) EmptyString
                  (Slice ["203"]) EmptyString))
       = inr req'
    /\ json.Decode (http.Body req') (None : option USDANutrientsReqParams.t)
       = (Some (USDANutrientsReqParams.mk Nil EmptyString
                  (Slice ["203"]) EmptyString),
          None).
Proof.
  eexists. eexists. eexists. split; [reflexivity|].
  split; [vm_compute; reflexivity|].
  split; [vm_compute; reflexivity|].
  split; [vm_compute; reflexivity|].
  vm_compute; reflexivity.
Qed.


(** * Beyond the claims *)

Lemma byte_implies (P Q : ascii -> bool) :
  forallByte (fun c => implb (P c) (Q c)) = true ->
  forall c, P c = true -> Q c = true.
Proof.
  intros H c Hc. pose proof (forallByte_spec _ H c) as Hi. cbv beta in Hi.
  now rewrite Hc in Hi.
Qed.

Lemma allBytes_impl (P Q : ascii -> bool) s :
  (forall c, P c = true -> Q c = true) ->
  allBytes P s = true -> allBytes Q s = true.
Proof.
  intros HPQ. induction s as [|a s IH]; [reflexivity|]. cbn [allBytes].
  intros H. apply andb_true_iff in H as [Ha Hs]. now rewrite (HPQ a Ha), IH.
Qed.

Lemma allBytes_app P a b :
  allBytes P (a +:+ b) = allBytes P a && allBytes P b.
Proof.
  induction a as [|x a IH]; [reflexivity|].
  cbn [String.append allBytes]. now rewrite IH, andb_assoc.
Qed.

Lemma CTL_app a b :
  url.stringContainsCTLByte (a +:+ b)
  = url.stringContainsCTLByte a || url.stringContainsCTLByte b.
Proof.
  induction a as [|x a IH]; [reflexivity|].
  cbn [String.append url.stringContainsCTLByte]. rewrite IH.
  now rewrite !orb_assoc.
Qed.

Lemma allBytes_noCTL s :
  allBytes (fun c => negb (isCTL c)) s = true ->
  url.stringContainsCTLByte s = false.
Proof.
  induction s as [|a s IH]; [reflexivity|].
  cbn [allBytes url.stringContainsCTLByte]. intros H.
  apply andb_true_iff in H as [Ha Hs]. rewrite (IH Hs).
  unfold isCTL in Ha. apply negb_true_iff in Ha. now rewrite Ha.
Qed.

Lemma HasSuffixByte_lacks s c : lacks c s -> str.HasSuffixByte s c = false.
Proof.
  unfold lacks. induction s as [|a s IH]; [reflexivity|].
  cbn [str.Contains]. intros H. apply orb_false_iff in H as [Ha Hs].
  destruct s as [|b s]; [exact Ha|]. now apply IH.
Qed.

Lemma HasSuffixByte_app a b c :
  b <> EmptyString -> str.HasSuffixByte (a +:+ b) c = str.HasSuffixByte b c.
Proof.
  intros Hb. induction a as [|x a IH]; [reflexivity|].
  cbn [String.append]. destruct (a +:+ b) as [|y r] eqn:E.
  - destruct a; [cbn in E; congruence|discriminate].
  - exact IH.
Qed.

Lemma substring_all s : String.substring 0 (String.length s) s = s.
Proof. induction s as [|a s IH]; [reflexivity|]. cbn. now rewrite IH. Qed.

Lemma CutLast_none s c : lacks c s -> str.CutLast s c = None.
Proof.
  unfold lacks. induction s as [|a s IH]; [reflexivity|].
  cbn [str.Contains str.CutLast]. intros H.
  apply orb_false_iff in H as [Ha Hs]. now rewrite (IH Hs), Ha.
Qed.

Lemma CutLast_app a b c :
  lacks c b -> str.CutLast (a +:+ String c b) c = Some (a, b).
Proof.
  intros Hb. induction a as [|x a IH].
  - cbn [String.append str.CutLast]. rewrite (CutLast_none b c Hb).
    now rewrite Ascii.eqb_refl.
  - cbn [String.append str.CutLast]. now rewrite IH.
Qed.

Lemma unescape_plain s mode :
  url.isHostMode mode = false ->
  allBytes (fun c => negb (Ascii.eqb c "%") && negb (Ascii.eqb c "+")) s = true ->
  url.unescape s mode = inr s.
Proof.
  intros Hm. induction s as [|a s IH]; [reflexivity|].
  cbn [allBytes]. intros H. apply andb_true_iff in H as [Ha Hs].
  apply andb_true_iff in Ha as [H1 H2].
  apply negb_true_iff in H1, H2.
  cbn [url.unescape]. rewrite H1, H2, Hm. cbn [andb]. now rewrite (IH Hs).
Qed.

Lemma escape_plain s mode :
  allBytes (fun c => negb (url.shouldEscape c mode)) s = true ->
  url.escape s mode = s.
Proof.
  induction s as [|a s IH]; [reflexivity|].
  cbn [allBytes]. intros H. apply andb_true_iff in H as [Ha Hs].
  apply negb_true_iff in Ha. cbn [url.escape]. now rewrite Ha, (IH Hs).
Qed.

Lemma validUserinfo_all s :
  allBytes (fun c => isLetter c || isDigit c || oneOf "-._:~!$&'()*+,;=%@" c) s
  = url.validUserinfo s.
Proof.
  induction s as [|a s IH]; [reflexivity|].
  cbn [allBytes url.validUserinfo]. now rewrite IH.
Qed.

Lemma HasPrefix_lacks s c r : lacks c s -> str.HasPrefix s (String c r) = false.
Proof.
  unfold lacks. destruct s as [|a s]; [reflexivity|].
  cbn [str.Contains]. intros H. apply orb_false_iff in H as [Ha _].
  unfold str.HasPrefix. rewrite Ascii.eqb_sym in Ha. now rewrite Ha.
Qed.

(** Byte classes *)
Lemma unreserved_path c : isUnreserved c = true -> isPathByte c = true.
Proof. unfold isPathByte. now intros ->. Qed.

Lemma path_plain :
  forall c, isPathByte c = true ->
    negb (Ascii.eqb c "%") && negb (Ascii.eqb c "+") = true.
Proof. apply byte_implies. vm_compute. reflexivity. Qed.

Lemma path_unescaped :
  forall c, isPathByte c = true ->
    negb (url.shouldEscape c url.encodePath) = true.
Proof. apply byte_implies. vm_compute. reflexivity. Qed.

Lemma unreserved_user :
  forall c, isUnreserved c = true ->
    negb (url.shouldEscape c url.encodeUserPassword) = true.
Proof. apply byte_implies. vm_compute. reflexivity. Qed.

Lemma unreserved_userinfo :
  forall c, isUnreserved c = true ->
    isLetter c || isDigit c || oneOf "-._:~!$&'()*+,;=%@" c = true.
Proof. apply byte_implies. vm_compute. reflexivity. Qed.

Lemma path_noCTL : forall c, isPathByte c = true -> negb (isCTL c) = true.
Proof. apply byte_implies. vm_compute. reflexivity. Qed.

Lemma path_lacks p c :
  allBytes isPathByte p = true -> isPathByte c = false -> lacks c p.
Proof. apply allBytes_lacks. Qed.

Lemma path_tail c : isPathByte c = true -> isTailByte c = true.
Proof. unfold isTailByte. now intros ->. Qed.

Lemma tail_plain :
  forall c, isTailByte c = true ->
    negb (Ascii.eqb c "%") && negb (Ascii.eqb c "+") = true.
Proof. apply byte_implies. vm_compute. reflexivity. Qed.

Lemma tail_unescaped :
  forall c, isTailByte c = true ->
    negb (url.shouldEscape c url.encodePath) = true.
Proof. apply byte_implies. vm_compute. reflexivity. Qed.

Lemma tail_noCTL : forall c, isTailByte c = true -> negb (isCTL c) = true.
Proof. apply byte_implies. vm_compute. reflexivity. Qed.

Lemma unreserved_host :
  forall c, isUnreserved c = true ->
    negb (Ascii.eqb c "%") && negb (Ascii.eqb c "+")
    && negb (url.shouldEscape c url.encodeHost) = true.
Proof. apply byte_implies. vm_compute. reflexivity. Qed.

Lemma unescape_host s :
  allBytes (fun c => negb (Ascii.eqb c "%") && negb (Ascii.eqb c "+")
                     && negb (url.shouldEscape c url.encodeHost)) s = true ->
  url.unescape s url.encodeHost = inr s.
Proof.
  induction s as [|a s IH]; [reflexivity|].
  cbn [allBytes]. intros H. apply andb_true_iff in H as [Ha Hs].
  apply andb_true_iff in Ha as [Ha H3]. apply andb_true_iff in Ha as [H1 H2].
  apply negb_true_iff in H1, H2, H3.
  cbn [url.unescape]. rewrite H1, H2, H3, andb_false_r. now rewrite (IH Hs).
Qed.

Lemma getScheme_https r : url.getScheme ("https:" +:+ r) = inr ("https", r).
Proof. reflexivity. Qed.

Lemma parseHost_entry : url.parseHost "api.nal.usda.gov" = inr "api.nal.usda.gov".
Proof. vm_compute. reflexivity. Qed.

Lemma queryPart_lacks q c : lacks c q -> Ascii.eqb "?" c = false -> lacks c (queryPart q).
Proof.
  intros Hq Hc. unfold queryPart. destruct (url.nonEmpty q); [|reflexivity].
  apply lacks_cons; assumption.
Qed.

Lemma Cut_queryPart a q :
  lacks "?" a -> lacks "?" q ->
  str.HasSuffixByte (a +:+ queryPart q) "?" = false
  /\ str.Cut (a +:+ queryPart q) "?" = (a, q, url.nonEmpty q).
Proof.
  intros Ha Hq. unfold queryPart, url.nonEmpty.
  destruct q as [|x q].
  - cbn [String.eqb negb]. rewrite append_empty_r.
    split; [now apply HasSuffixByte_lacks|now apply Cut_none].
  - cbn [String.eqb negb]. split.
    + change ("?" +:+ String x q) with (String "?" (String x q)).
      rewrite HasSuffixByte_app by discriminate.
      change (str.HasSuffixByte (String "?" (String x q)) "?")
        with (str.HasSuffixByte (String x q) "?").
      now apply HasSuffixByte_lacks.
    + now apply Cut_app.
Qed.

Lemma path_noCTL_string p :
  allBytes isPathByte p = true -> url.stringContainsCTLByte p = false.
Proof.
  intros H. apply allBytes_noCTL. revert H. apply allBytes_impl, path_noCTL.
Qed.

Lemma tail_noCTL_string p :
  allBytes isTailByte p = true -> url.stringContainsCTLByte p = false.
Proof.
  intros H. apply allBytes_noCTL. revert H. apply allBytes_impl, tail_noCTL.
Qed.

Lemma queryPart_noCTL q :
  url.stringContainsCTLByte q = false ->
  url.stringContainsCTLByte (queryPart q) = false.
Proof.
  intros H. unfold queryPart. destruct (url.nonEmpty q); [|reflexivity].
  cbn [String.append url.stringContainsCTLByte]. now rewrite H.
Qed.

Lemma substring_after2 a b r :
  substring 2 (String.length (String a (String b r)) - 2) (String a (String b r))
  = r.
Proof.
  cbn [String.length Nat.sub]. rewrite Nat.sub_0_r. cbn [substring].
  apply substring_all.
Qed.

Lemma parse_https_authority auth tail q :
  url.stringContainsCTLByte auth = false ->
  url.stringContainsCTLByte q = false ->
  lacks "/" auth -> lacks "?" auth -> lacks "?" q ->
  allBytes isTailByte tail = true ->
  url.parse ("https://" +:+ (auth +:+ String "/" tail) +:+ queryPart q) false
  = match url.parseAuthority auth with
    | inl e => inl e
    | inr (user, host) =>
        inr (url.mkURL "https" EmptyString user host (String "/" tail)
               EmptyString false false q EmptyString EmptyString)
    end.
Proof.
  intros Hc1 Hc3 Hs1 Ha1 Hq1 Htail.
  assert (Hlt : lacks "?" tail)
    by (now apply (allBytes_lacks isTailByte)).
  assert (Hrest : lacks "?" ("//" +:+ (auth +:+ String "/" tail))).
  { apply lacks_cons; [reflexivity|]. apply lacks_cons; [reflexivity|].
    apply lacks_app; [exact Ha1|]. now apply lacks_cons. }
  destruct (Cut_queryPart _ q Hrest Hq1) as [Hsuf Hcut].
  unfold url.parse.
  rewrite !CTL_app, Hc1, (queryPart_noCTL q Hc3).
  change (url.stringContainsCTLByte "https://") with false.
  change (url.stringContainsCTLByte (String "/" tail))
    with (url.stringContainsCTLByte tail).
  rewrite (tail_noCTL_string tail Htail).
  cbn [orb]. cbv iota.
  change (("https://" +:+ (auth +:+ String "/" tail) +:+ queryPart q =? "")%string)
    with false.
  change (("https://" +:+ (auth +:+ String "/" tail) +:+ queryPart q =? "*")%string)
    with false.
  cbn [andb]. cbv iota.
  change ("https://" +:+ (auth +:+ String "/" tail) +:+ queryPart q)
    with ("https:" +:+ (("//" +:+ (auth +:+ String "/" tail)) +:+ queryPart q)).
  rewrite getScheme_https. cbn [bind].
  rewrite Hsuf, Hcut. cbn [andb]. cbv iota beta.
  change (str.ToLower "https") with "https".
  change (url.nonEmpty "https") with true.
  change (str.HasPrefix ("//" +:+ (auth +:+ String "/" tail)) "/") with true.
  change (str.HasPrefix ("//" +:+ (auth +:+ String "/" tail)) "//") with true.
  cbn [negb andb orb]. cbv iota.
  change ("//" +:+ (auth +:+ String "/" tail))
    with (String "/" (String "/" (auth +:+ String "/" tail))).
  rewrite substring_after2, (Cut_app auth tail "/" Hs1). cbv iota beta.
  destruct (url.parseAuthority auth) as [e|[user host]]; [reflexivity|].
  cbn [bind].
  change ("/" +:+ tail) with (String "/" tail).
  assert (Hpath : allBytes isTailByte (String "/" tail) = true) by exact Htail.
  rewrite (unescape_plain (String "/" tail) url.encodePath eq_refl
             (allBytes_impl _ _ _ tail_plain Hpath)).
  cbn [bind].
  rewrite (escape_plain (String "/" tail) url.encodePath
             (allBytes_impl _ _ _ tail_unescaped Hpath)).
  now rewrite String.eqb_refl.
Qed.

Lemma parse_https auth tail q user host :
  url.stringContainsCTLByte auth = false ->
  url.stringContainsCTLByte q = false ->
  lacks "/" auth -> lacks "?" auth -> lacks "?" q ->
  allBytes isTailByte tail = true ->
  url.parseAuthority auth = inr (user, host) ->
  url.parse ("https://" +:+ (auth +:+ String "/" tail) +:+ queryPart q) false
  = inr (url.mkURL "https" EmptyString user host (String "/" tail) EmptyString
           false false q EmptyString EmptyString).
Proof.
  intros Hc1 Hc3 Hs1 Ha1 Hq1 Htail Hauth.
  now rewrite parse_https_authority, Hauth.
Qed.

Lemma parseAuthority_key key :
  allBytes isUnreserved key = true ->
  url.parseAuthority (key +:+ "@api.nal.usda.gov")
  = inr (Some (url.mkUserinfo key EmptyString false), "api.nal.usda.gov").
Proof.
  intros Hkey. unfold url.parseAuthority.
  change (key +:+ "@api.nal.usda.gov")
    with (key +:+ String "@" "api.nal.usda.gov").
  rewrite CutLast_app by reflexivity.
  rewrite parseHost_entry. cbn [bind].
  rewrite <- validUserinfo_all,
    (allBytes_impl _ _ _ unreserved_userinfo Hkey).
  cbn [negb]. cbv iota.
  assert (Hcolon : str.Contains key ":" = false)
    by (now apply (allBytes_lacks isUnreserved)).
  rewrite Hcolon. cbn [negb]. cbv iota.
  rewrite unescape_plain; [reflexivity|reflexivity|].
  revert Hkey. apply allBytes_impl. intros c Hc.
  now apply path_plain, unreserved_path.
Qed.

Lemma requestText key p q :
  "https://" +:+ key +:+ "@" +:+ entryPointURL +:+ p +:+ queryPart q
  = "https://" +:+ ((key +:+ "@api.nal.usda.gov") +:+ String "/" ("ndb/" +:+ p))
    +:+ queryPart q.
Proof.
  unfold entryPointURL.
  change "api.nal.usda.gov/ndb/" with ("api.nal.usda.gov" +:+ "/ndb/").
  change ("@" +:+ ("api.nal.usda.gov" +:+ "/ndb/") +:+ p +:+ queryPart q)
    with ("@api.nal.usda.gov" +:+ ("/ndb/" +:+ p +:+ queryPart q)).
  change (String "/" ("ndb/" +:+ p)) with ("/ndb/" +:+ p).
  now rewrite !append_assoc.
Qed.

Lemma Parse_requestURL key p q :
  allBytes isUnreserved key = true ->
  allBytes isPathByte p = true ->
  lacks "?" q -> lacks "#" q -> url.stringContainsCTLByte q = false ->
  url.Parse ("https://" +:+ key +:+ "@" +:+ entryPointURL +:+ p +:+ queryPart q)
  = inr (requestURL key p q).
Proof.
  intros Hkey Hp Hq1 Hq2 Hq3.
  pose proof (allBytes_impl _ _ _ unreserved_path Hkey) as Hkey'.
  assert (Hl : forall c, isPathByte c = false -> Ascii.eqb "@" c = false ->
                         lacks c ((key +:+ "@api.nal.usda.gov")
                                  +:+ String "/" ("ndb/" +:+ p))).
  { intros c Hc Hat. apply lacks_app.
    - apply lacks_app; [now apply path_lacks|].
      apply lacks_cons; [exact Hat|].
      apply (allBytes_lacks isPathByte); [reflexivity|exact Hc].
    - apply (allBytes_lacks isPathByte); [|exact Hc]. exact Hp. }
  rewrite requestText. unfold url.Parse.
  rewrite Cut_none.
  2:{ apply lacks_app; [reflexivity|].
      apply lacks_app; [now apply Hl|now apply queryPart_lacks]. }
  rewrite (parse_https _ ("ndb/" +:+ p) q
             (Some (url.mkUserinfo key EmptyString false)) "api.nal.usda.gov").
  - reflexivity.
  - rewrite CTL_app, (path_noCTL_string key Hkey'). reflexivity.
  - exact Hq3.
  - apply lacks_app; [now apply (allBytes_lacks isUnreserved)|reflexivity].
  - apply lacks_app; [now apply path_lacks|reflexivity].
  - exact Hq1.
  - revert Hp. apply (allBytes_impl isPathByte isTailByte ("ndb/" +:+ p)), path_tail.
  - now apply parseAuthority_key.
Qed.

Lemma nonEmpty_queryPart q :
  (if url.nonEmpty q then "?" +:+ q else EmptyString) = queryPart q.
Proof. reflexivity. Qed.

(** The text [URL.String] writes for such a URL. *)
Lemma String_requestURL key p q :
  allBytes isUnreserved key = true ->
  allBytes isPathByte p = true ->
  url.String_ (requestURL key p q)
  = "https://" +:+ key +:+ "@" +:+ entryPointURL +:+ p +:+ queryPart q.
Proof.
  intros Hkey Hp.
  assert (Hpath : allBytes isPathByte ("/ndb/" +:+ p) = true) by exact Hp.
  assert (HE : url.EscapedPath (requestURL key p q) = "/ndb/" +:+ p).
  { unfold url.EscapedPath, requestURL. cbn [url.RawPath url.Path].
    change (url.nonEmpty "") with false. cbn [andb]. cbv iota.
    change (("/ndb/" +:+ p =? "*")%string) with false. cbv iota.
    apply escape_plain. revert Hpath. apply allBytes_impl, path_unescaped. }
  unfold url.String_, url.stringHead. rewrite HE.
  unfold requestURL, url.UserinfoString.
  cbn [url.Scheme url.Opaque url.User url.Host url.Path url.RawPath
         url.OmitHost url.ForceQuery url.RawQuery url.Fragment
         url.username url.password url.passwordSet].
  rewrite (escape_plain key url.encodeUserPassword
             (allBytes_impl _ _ _ unreserved_user Hkey)).
  change (url.nonEmpty "") with false.
  change (url.nonEmpty "https") with true.
  change (url.nonEmpty "api.nal.usda.gov") with true.
  change (url.escape "api.nal.usda.gov" url.encodeHost) with "api.nal.usda.gov".
  change (url.nonEmpty ("/ndb/" +:+ p)) with true.
  change (str.HasPrefix ("/ndb/" +:+ p) "/") with true.
  cbn [andb orb negb url.isSome]. cbv iota.
  change ((("https" +:+ ":") +:+ ("//" +:+ ((key +:+ "") +:+ "@") +:+ "api.nal.usda.gov") +:+ "" =? "")%string)
    with false.
  cbn [andb]. cbv iota.
  rewrite nonEmpty_queryPart, !append_empty_r, requestText.
  change ("https" +:+ ":") with "https:".
  rewrite !append_assoc. reflexivity.
Qed.

Lemma removeEmptyPort_entry :
  http.removeEmptyPort "api.nal.usda.gov" = "api.nal.usda.gov".
Proof. vm_compute. reflexivity. Qed.

Lemma scanScheme_none s b : lacks ":" s -> url.scanScheme b s = inr None.
Proof.
  unfold lacks. revert b. induction s as [|a s IH]; intros b; [reflexivity|].
  cbn [str.Contains]. intros H. apply orb_false_iff in H as [Ha Hs].
  cbn [url.scanScheme]. rewrite (IH false Hs), Ha.
  destruct (isLetter a); [reflexivity|].
  destruct (isDigit a || oneOf "+-." a); [destruct b|]; reflexivity.
Qed.

Lemma unreserved_lacks p c :
  allBytes isUnreserved p = true -> isUnreserved c = false -> lacks c p.
Proof. apply allBytes_lacks. Qed.

Lemma eqb_star p :
  allBytes isUnreserved p = true -> String.eqb p "*" = false.
Proof.
  intros Hp. destruct (String.eqb p "*") eqn:E; [|reflexivity].
  apply String.eqb_eq in E. subst p. discriminate Hp.
Qed.

Lemma Parse_relative p :
  allBytes isUnreserved p = true ->
  url.Parse p
  = inr (url.mkURL EmptyString EmptyString None EmptyString p EmptyString
           false false EmptyString EmptyString EmptyString).
Proof.
  intros Hp.
  pose proof (allBytes_impl _ _ _ unreserved_path Hp) as Hp'.
  assert (Hl : forall c, isUnreserved c = false -> lacks c p)
    by (intros c; now apply unreserved_lacks).
  unfold url.Parse. rewrite (Cut_none p "#") by (now apply Hl).
  unfold url.parse.
  rewrite (path_noCTL_string p Hp'), andb_false_r, (eqb_star p Hp).
  unfold url.getScheme. rewrite scanScheme_none by (now apply Hl).
  cbn [bind].
  rewrite (HasSuffixByte_lacks p "?") by (now apply Hl).
  rewrite (Cut_none p "?") by (now apply Hl).
  cbn [andb]. cbv iota beta.
  change (str.ToLower "") with EmptyString.
  change (url.nonEmpty "") with false.
  rewrite (HasPrefix_lacks p "/" EmptyString) by (now apply Hl).
  rewrite (HasPrefix_lacks p "/" "/") by (now apply Hl).
  rewrite (Cut_none p "/") by (now apply Hl).
  cbn [fst negb andb orb].
  pose proof (Hl ":"%char eq_refl) as Hcolon. unfold lacks in Hcolon.
  rewrite Hcolon. cbv iota.
  rewrite andb_false_r.
  rewrite (unescape_plain p url.encodePath eq_refl
             (allBytes_impl _ _ _ path_plain Hp')).
  cbn [bind].
  rewrite (escape_plain p url.encodePath
             (allBytes_impl _ _ _ path_unescaped Hp')).
  now rewrite (String.eqb_refl p).
Qed.

Lemma String_relative p q :
  allBytes isUnreserved p = true ->
  url.String_ (url.mkURL EmptyString EmptyString None EmptyString p EmptyString
                 false false q EmptyString EmptyString)
  = p +:+ queryPart q.
Proof.
  intros Hp.
  pose proof (allBytes_impl _ _ _ unreserved_path Hp) as Hp'.
  unfold url.String_, url.stringHead, url.EscapedPath.
  cbn [url.Scheme url.Opaque url.User url.Host url.Path url.RawPath
         url.OmitHost url.ForceQuery url.RawQuery url.Fragment].
  change (url.nonEmpty "") with false.
  rewrite (eqb_star p Hp).
  rewrite (escape_plain p url.encodePath
             (allBytes_impl _ _ _ path_unescaped Hp')).
  cbn [andb orb url.isSome]. cbv iota.
  rewrite andb_false_r.
  rewrite (Cut_none p "/") by (now apply unreserved_lacks).
  cbn [fst].
  pose proof (unreserved_lacks p ":"%char Hp eq_refl) as Hcolon.
  unfold lacks in Hcolon. rewrite Hcolon.
  change ("" +:+ "" +:+ "") with EmptyString.
  change (("" =? "")%string) with true. cbn [andb]. cbv iota.
  rewrite nonEmpty_queryPart.
  change ("" +:+ "" +:+ p) with p. now rewrite append_empty_r.
Qed.

(** [addQueryOptions] on a path of unreserved bytes. *)
Lemma addQueryOptions_unreserved p opts :
  allBytes isUnreserved p = true ->
  addQueryOptions p (Some opts) = (p +:+ queryPart (optionQuery opts), None).
Proof.
  intros Hp. unfold addQueryOptions.
  change (query.Values (Some opts)) with (inr (optionValues opts) : result url.Values).
  cbv iota. rewrite (Parse_relative p Hp), Encode_optionValues.
  unfold url.withRawQuery.
  cbn [url.Scheme url.Opaque url.User url.Host url.Path url.RawPath
         url.OmitHost url.ForceQuery url.RawQuery url.Fragment url.RawFragment].
  now rewrite String_relative.
Qed.

(** Bytes that never stand in an encoded query. *)
Lemma optionQuery_lacks opts c :
  url.shouldEscape c url.encodeQueryComponent = true ->
  isEscapeByte c = false -> Ascii.eqb "=" c = false -> Ascii.eqb "&" c = false ->
  lacks c (optionQuery opts).
Proof.
  intros H1 H2 H3 H4. rewrite optionQuery_pairs.
  induction (optionPairs opts) as [|p l IH]; [reflexivity|].
  destruct l as [|p' l].
  - now apply queryPair_lacks.
  - change (str.Join (List.map queryPair (p :: p' :: l)) "&")
      with (queryPair p +:+ String "&" (str.Join (List.map queryPair (p' :: l)) "&")).
    apply lacks_app; [now apply queryPair_lacks|].
    apply lacks_cons; [exact H4|exact IH].
Qed.

Lemma lacks_noCTL q :
  (forall c, isCTL c = true -> lacks c q) ->
  url.stringContainsCTLByte q = false.
Proof.
  induction q as [|a q IH]; intros H; [reflexivity|].
  cbn [url.stringContainsCTLByte].
  destruct (isCTL a) eqn:Ha.
  - specialize (H a Ha). unfold lacks in H. cbn [str.Contains] in H.
    now rewrite Ascii.eqb_refl in H.
  - unfold isCTL in Ha. rewrite Ha. cbn [orb]. apply IH. intros c Hc.
    specialize (H c Hc). unfold lacks in *. cbn [str.Contains] in H.
    now apply orb_false_iff in H as [_ H].
Qed.

Lemma CTL_escaped :
  forall c, isCTL c = true ->
    url.shouldEscape c url.encodeQueryComponent && negb (isEscapeByte c)
    && negb (Ascii.eqb "=" c) && negb (Ascii.eqb "&" c) = true.
Proof. apply byte_implies. vm_compute. reflexivity. Qed.

Lemma optionQuery_noCTL opts :
  url.stringContainsCTLByte (optionQuery opts) = false.
Proof.
  apply lacks_noCTL. intros c Hc. pose proof (CTL_escaped c Hc) as H.
  apply andb_true_iff in H as [H H4]. apply andb_true_iff in H as [H H3].
  apply andb_true_iff in H as [H1 H2].
  apply negb_true_iff in H2, H3, H4. now apply optionQuery_lacks.
Qed.

Lemma NewClient_unreserved DefaultClient key hc :
  allBytes isUnreserved key = true ->
  NewClient DefaultClient key hc
  = returned (mkUSDAclient (requestURL key EmptyString EmptyString)
                (default DefaultClient hc)).
Proof.
  intros Hkey. unfold NewClient.
  pose proof (Parse_requestURL key EmptyString EmptyString Hkey eq_refl
                eq_refl eq_refl eq_refl) as HP.
  change (queryPart "") with EmptyString in HP.
  rewrite !append_empty_r in HP. rewrite HP. now destruct hc.
Qed.

Lemma queryOf_facts opts :
  lacks "?" (queryOf opts) /\ lacks "#" (queryOf opts)
  /\ url.stringContainsCTLByte (queryOf opts) = false.
Proof.
  destruct opts as [o|]; [|repeat split; reflexivity]. cbn [queryOf].
  split; [now apply optionQuery_lacks|].
  split; [now apply optionQuery_lacks|apply optionQuery_noCTL].
Qed.

Lemma addQueryOptions_queryOf p opts :
  allBytes isUnreserved p = true ->
  addQueryOptions p opts = (p +:+ queryPart (queryOf opts), None).
Proof.
  intros Hp. destruct opts as [o|].
  - now apply addQueryOptions_unreserved.
  - cbn [queryOf]. change (queryPart "") with EmptyString.
    now rewrite append_empty_r.
Qed.

Lemma newRequest_built {T} `{!json.Marshaler T} key hc p q (data : T) :
  allBytes isUnreserved key = true ->
  allBytes isPathByte p = true ->
  lacks "?" q -> lacks "#" q -> url.stringContainsCTLByte q = false ->
  newRequest (mkUSDAclient (requestURL key EmptyString EmptyString) hc)
    (p +:+ queryPart q) data
  = inr (builtRequest key p q (bodyOf data) context.Background).
Proof.
  intros Hkey Hp Hq1 Hq2 Hq3. unfold newRequest. cbn [baseURL].
  rewrite (String_requestURL key EmptyString EmptyString Hkey eq_refl).
  change (queryPart "") with EmptyString. rewrite !append_empty_r.
  change (json.Encode data) with (inr (bodyOf data) : result string).
  cbv iota. unfold http.NewRequest.
  change (url.nonEmpty http.MethodPost) with true. cbv iota.
  change (http.validMethod http.MethodPost) with true. cbn [negb]. cbv iota.
  replace ((("https://" +:+ key +:+ "@" +:+ entryPointURL) +:+ p +:+ queryPart q))
    with ("https://" +:+ key +:+ "@" +:+ entryPointURL +:+ p +:+ queryPart q)
    by (now rewrite !append_assoc).
  rewrite (Parse_requestURL key p q Hkey Hp Hq1 Hq2 Hq3).
  unfold builtRequest, http.HeaderSet, url.withHost, requestURL.
  cbn [url.Scheme url.Opaque url.User url.Host url.Path url.RawPath
         url.OmitHost url.ForceQuery url.RawQuery url.Fragment url.RawFragment
         http.Method http.URL http.header http.Body http.ContentLength
         http.Host http.ctx].
  rewrite removeEmptyPort_entry.
  change (http.CanonicalMIMEHeaderKey "Content-Type") with "Content-Type".
  now rewrite insert_empty.
Qed.

Lemma do_transportResult {T} `{!json.Unmarshaler T} c ctx req w :
  (let '(_, err, v, w') := do c ctx req (json.zero : T) w in (v, err, w'))
  = transportResult (httpClient c) ctx (http.WithContext req ctx) w.
Proof.
  unfold do, transportResult.
  destruct (http.Do _ _) as [e|r].
  - now destruct (context.Done ctx).
  - now destruct (json.Decode _ _).
Qed.

Lemma GetList_result c ctx params opts w :
  GetList c ctx params opts w
  = operationResult c ctx (addQueryOptions "list" opts) params w.
Proof.
  unfold GetList, operationResult.
  destruct (addQueryOptions _ _) as [q [e|]]; [reflexivity|].
  destruct (newRequest _ _ _) as [e|req]; [reflexivity|].
  apply do_transportResult.
Qed.

Lemma GetUSDASearch_result c ctx params opts w :
  GetUSDASearch c ctx params opts w
  = operationResult c ctx (addQueryOptions "search" opts) params w.
Proof.
  unfold GetUSDASearch, operationResult.
  destruct (addQueryOptions _ _) as [q [e|]]; [reflexivity|].
  destruct (newRequest _ _ _) as [e|req]; [reflexivity|].
  apply do_transportResult.
Qed.

Section Results.

Context {USDANutrientReport USDAFoodsReport : Type}.
Context `{!json.Unmarshaler USDANutrientReport}.
Context `{!json.Unmarshaler USDAFoodsReport}.

Lemma GetUSDANutrientReport_result c ctx params opts w :
  GetUSDANutrientReport (USDANutrientReport := USDANutrientReport)
    c ctx params opts w
  = operationResult c ctx (addQueryOptions "nutrients" opts) params w.
Proof.
  unfold GetUSDANutrientReport, operationResult.
  destruct (addQueryOptions _ _) as [q [e|]]; [reflexivity|].
  destruct (newRequest _ _ _) as [e|req]; [reflexivity|].
  apply do_transportResult.
Qed.

Lemma GetUSDAFoodsReportV2_result c ctx params w :
  GetUSDAFoodsReportV2 (USDAFoodsReport := USDAFoodsReport) c ctx params w
  = operationResult c ctx ("V2/reports", None) params w.
Proof.
  unfold GetUSDAFoodsReportV2, operationResult.
  destruct (newRequest _ _ _) as [e|req]; [reflexivity|].
  apply do_transportResult.
Qed.

End Results.

(** With a client made for a key of unreserved bytes, the request of
    an endpoint is always built. *)
Lemma operationResult_built {P T} `{!json.Marshaler P} `{!json.Unmarshaler T}
  key hc ctx p opts (params : P) w :
  allBytes isUnreserved key = true ->
  allBytes isUnreserved p = true ->
  operationResult (T := T)
    (mkUSDAclient (requestURL key EmptyString EmptyString) hc) ctx
    (addQueryOptions p opts) params w
  = transportResult hc ctx
      (builtRequest key p (queryOf opts) (bodyOf params) ctx) w.
Proof.
  intros Hkey Hp. rewrite (addQueryOptions_queryOf p opts Hp).
  unfold operationResult.
  destruct (queryOf_facts opts) as (H1 & H2 & H3).
  rewrite (newRequest_built key hc p (queryOf opts) params Hkey
             (allBytes_impl _ _ _ unreserved_path Hp) H1 H2 H3).
  reflexivity.
Qed.

Lemma operationResult_builtPath {P T} `{!json.Marshaler P}
  `{!json.Unmarshaler T} key hc ctx p (params : P) w :
  allBytes isUnreserved key = true ->
  allBytes isPathByte p = true ->
  operationResult (T := T)
    (mkUSDAclient (requestURL key EmptyString EmptyString) hc) ctx
    (p, None) params w
  = transportResult hc ctx
      (builtRequest key p EmptyString (bodyOf params) ctx) w.
Proof.
  intros Hkey Hp. unfold operationResult.
  pose proof (newRequest_built key hc p EmptyString params Hkey Hp
                eq_refl eq_refl eq_refl) as Hb.
  change (queryPart "") with EmptyString in Hb. rewrite append_empty_r in Hb.
  now rewrite Hb.
Qed.

Lemma transportResult_wire {T} `{!json.Unmarshaler T} hc ctx req w :
  snd (transportResult (T := T) hc ctx req w) = w ++ [req].
Proof. unfold transportResult. now destruct (http.Do hc req). Qed.

(** What [operationResult] gives when a request went out. *)
Lemma operationResult_sent {P T} `{!json.Marshaler P} `{!json.Unmarshaler T}
  c ctx built (params : P) w (v : T) err w' req :
  operationResult c ctx built params w = (v, err, w') ->
  w' = w ++ [req] ->
  (v, err, w') = transportResult (httpClient c) ctx req w
  /\ exists req0,
       newRequest c (fst built) params = inr req0
       /\ req = http.WithContext req0 ctx.
Proof.
  unfold operationResult. destruct built as [q [e|]].
  - intros [= _ _ <-] Hw. apply (f_equal (@length _)) in Hw.
    rewrite length_app in Hw. cbn in Hw. lia.
  - cbn [fst]. destruct (newRequest c q params) as [e|req0].
    + intros [= _ _ <-] Hw. apply (f_equal (@length _)) in Hw.
      rewrite length_app in Hw. cbn in Hw. lia.
    + intros Hr Hw.
      pose proof (transportResult_wire (T := T) (httpClient c) ctx
                    (http.WithContext req0 ctx) w) as Hwire.
      rewrite Hr in Hwire. cbn [snd] in Hwire. rewrite Hw in Hwire.
      apply app_inj_tail in Hwire as [_ ->].
      split; [now rewrite Hr|]. now exists req0.
Qed.

Lemma skipSpace_blank body :
  allBytes json.isSpace body = true -> json.skipSpace body = EmptyString.
Proof.
  induction body as [|a s IH]; [reflexivity|]. cbn [allBytes json.skipSpace].
  intros H. apply andb_true_iff in H as [Ha Hs]. now rewrite Ha, IH.
Qed.

Lemma Decode_blank {T} `{!json.Unmarshaler T} body (v : T) :
  allBytes json.isSpace body = true -> json.Decode body v = (v, Some io_EOF).
Proof.
  intros Hb. unfold json.Decode, json.readValue.
  now rewrite (skipSpace_blank body Hb).
Qed.

Lemma skipSpace_head body c r :
  json.skipSpace body = String c r -> json.isSpace c = false.
Proof.
  induction body as [|a s IH]; [discriminate|]. cbn [json.skipSpace].
  destruct (json.isSpace a) eqn:Ha; [exact IH|]. now intros [= <- _].
Qed.

Lemma readValue_bad_start body c r :
  json.skipSpace body = String c r -> startsValue c = false ->
  json.readValue body
  = inl (SyntaxError "invalid character looking for beginning of value").
Proof.
  intros Hs Hc. unfold json.readValue. rewrite Hs.
  pose proof (skipSpace_head body c r Hs) as Hsp.
  cbn [json.parseValue json.skipSpace]. rewrite Hsp.
  unfold startsValue in Hc.
  apply orb_false_iff in Hc as [Hc Hn]. apply orb_false_iff in Hc as [Hc Hf].
  apply orb_false_iff in Hc as [Hc Ht]. apply orb_false_iff in Hc as [Hc Hd].
  apply orb_false_iff in Hc as [Hc Hq]. apply orb_false_iff in Hc as [Ho Ha].
  now rewrite Ho, Ha, Hq, Hd, Ht, Hf, Hn.
Qed.

Lemma Decode_bad_start {T} `{!json.Unmarshaler T} body c r (v : T) :
  json.skipSpace body = String c r -> startsValue c = false ->
  json.Decode body v
  = (v, Some (SyntaxError "invalid character looking for beginning of value")).
Proof.
  intros Hs Hc. unfold json.Decode. now rewrite (readValue_bad_start body c r).
Qed.

Lemma findField_list k :
  json.foldName k <> "list" -> json.findField ["list"] k = None.
Proof.
  intros Hk. unfold json.findField. cbn [find].
  destruct (String.eqb k "list") eqn:E.
  - apply String.eqb_eq in E. subst k. now contradict Hk.
  - change (json.foldName "list") with "list".
    destruct (String.eqb "list" (json.foldName k)) eqn:E2; [|reflexivity].
    apply String.eqb_eq in E2. now contradict Hk.
Qed.

Lemma object_no_match {T} type names set members (old : T) :
  (forall m, In m members -> json.findField names (fst m) = None) ->
  json.object type names set (json.Object members) old = (old, None).
Proof.
  intros Hno. unfold json.object.
  induction members as [|m l IH]; [reflexivity|].
  cbn [fold_left]. rewrite (Hno m) by (now left).
  apply IH. intros m' Hm. apply Hno. now right.
Qed.

Lemma unmarshal_no_list_USDAList x :
  carriesNoList x ->
  json.unmarshal x (json.zero : USDAList.t) = (json.zero, None).
Proof.
  intros [->|(members & -> & Hno)]; [reflexivity|].
  apply object_no_match. intros m Hm. now apply findField_list, Hno.
Qed.

Lemma unmarshal_no_list_USDASearch x :
  carriesNoList x ->
  json.unmarshal x (json.zero : USDASearch.t) = (json.zero, None).
Proof.
  intros [->|(members & -> & Hno)]; [reflexivity|].
  apply object_no_match. intros m Hm. now apply findField_list, Hno.
Qed.

(** ** What the operations make of the transport's answer *)

Lemma operationResult_failure {P T} `{!json.Marshaler P} `{!json.Unmarshaler T}
  c ctx built (params : P) w (v : T) err req e :
  operationResult c ctx built params w = (v, err, w ++ [req]) ->
  http.Do (httpClient c) req = inl e ->
  v = json.zero
  /\ err = (if context.Done ctx then context.Err ctx else Some e).
Proof.
  intros Hr Hdo.
  destruct (operationResult_sent _ _ _ _ _ _ _ _ _ Hr eq_refl) as [Ht _].
  unfold transportResult in Ht. rewrite Hdo in Ht. now injection Ht.
Qed.

Lemma operationResult_response {P T} `{!json.Marshaler P}
  `{!json.Unmarshaler T} c ctx built (params : P) w (v : T) err req r :
  operationResult c ctx built params w = (v, err, w ++ [req]) ->
  http.Do (httpClient c) req = inr r ->
  (v, err) = json.Decode (http.respBody r) json.zero.
Proof.
  intros Hr Hdo.
  destruct (operationResult_sent _ _ _ _ _ _ _ _ _ Hr eq_refl) as [Ht _].
  unfold transportResult in Ht. rewrite Hdo in Ht.
  injection Ht as -> ->. now destruct (json.Decode _ _).
Qed.

(** ** Request bodies of the facade *)

Lemma readValue_body {P} `{!json.Marshaler P} (p : P) :
  numberFree (json.marshal p) = true ->
  json.readValue (bodyOf (Some p)) = inr (sanitize (json.marshal p), newline).
Proof. intros Hnf. unfold bodyOf. now apply readValue_encoded. Qed.

Lemma body_list lt :
  json.readValue (bodyOf (Some (USDAListReqParams.mk lt)))
  = inr (json.Object (if (String.length lt =? 0)%nat then []
                      else [("lt", strValue lt)]), newline).
Proof.
  rewrite readValue_body by apply numberFree_list.
  cbn [json.marshal USDAListReqParams.marshaler USDAListReqParams.Lt].
  unfold json.member.
  cbn [json.isEmptyValue json.string_Marshaler andb].
  now destruct (String.length lt =? 0)%nat.
Qed.

Lemma body_search q :
  json.readValue
    (bodyOf (Some (USDASearchReqParams.mk q EmptyString EmptyString)))
  = inr (json.Object (if (String.length q =? 0)%nat then []
                      else [("q", strValue q)]), newline).
Proof.
  rewrite readValue_body by apply numberFree_search.
  cbn [json.marshal USDASearchReqParams.marshaler USDASearchReqParams.Q
         USDASearchReqParams.Ds USDASearchReqParams.Fg].
  unfold json.member.
  cbn [json.isEmptyValue json.string_Marshaler andb].
  now destruct (String.length q =? 0)%nat.
Qed.

Lemma body_foods ndbno :
  json.readValue (bodyOf (Some (USDAFoodsReqParams.mk (Slice [ndbno]) "b")))
  = inr (json.Object [("ndbno", json.Array [strValue ndbno]);
                      ("type", json.Str "b")], newline).
Proof.
  rewrite readValue_body by apply numberFree_foods.
  now rewrite sanitize_foods.
Qed.

Lemma body_nutrients_of ndbno :
  json.readValue
    (bodyOf (Some (USDANutrientsReqParams.mk Nil ndbno (Slice ["306"; "204"])
                     EmptyString)))
  = inr (json.Object
           ((if (String.length ndbno =? 0)%nat then []
             else [("ndbno", strValue ndbno)])
            ++ [("nutrients", json.Array [json.Str "306"; json.Str "204"])]),
         newline).
Proof.
  rewrite readValue_body by apply numberFree_nutrients.
  rewrite sanitize_nutrients.
  cbn [USDANutrientsReqParams.Fg USDANutrientsReqParams.Ndbno
         USDANutrientsReqParams.NutrientsID USDANutrientsReqParams.Subset].
  now destruct (String.length ndbno =? 0)%nat.
Qed.

Lemma body_nutrients :
  json.readValue
    (bodyOf (Some (USDANutrientsReqParams.mk (Slice ["0300"]) EmptyString
                     (Slice ["306"; "204"]) EmptyString)))
  = inr (json.Object
           [("fg", json.Array [json.Str "0300"]);
            ("nutrients", json.Array [json.Str "306"; json.Str "204"])],
         newline).
Proof. vm_compute. reflexivity. Qed.

(** ** The built request *)

Lemma builtRequest_text key p q body ctx :
  allBytes isUnreserved key = true ->
  allBytes isPathByte p = true ->
  url.String_ (http.URL (builtRequest key p q body ctx))
  = "https://" +:+ key +:+ "@" +:+ entryPointURL +:+ p +:+ queryPart q.
Proof. apply String_requestURL. Qed.

Lemma builtRequest_header key p q body ctx :
  http.HeaderGet (builtRequest key p q body ctx) "Content-Type"
  = "application/json".
Proof.
  unfold http.HeaderGet, builtRequest. cbn [http.header].
  change (http.CanonicalMIMEHeaderKey "Content-Type") with "Content-Type".
  now rewrite lookup_singleton_eq.
Qed.

Lemma returned_client DefaultClient key hc c :
  allBytes isUnreserved key = true ->
  NewClient DefaultClient key hc = returned c ->
  c = mkUSDAclient (requestURL key EmptyString EmptyString)
        (default DefaultClient hc).
Proof.
  intros Hkey Hc. rewrite (NewClient_unreserved _ _ _ Hkey) in Hc.
  now injection Hc.
Qed.

(** ** Construction *)

(** A key of unreserved bytes (letters, digits, [-], [_], [.], [~])
    always gives a client: with the transport passed in, or the
    default one for nil; its base URL has the key as user name, the
    host of the service and the path [/ndb/], and is written back as
    it was put together. *)
Theorem NewClient_unreserved_key DefaultClient key hc :
  allBytes isUnreserved key = true ->
  exists c,
    NewClient DefaultClient key hc = returned c
    /\ httpClient c = match hc with
                      | Some given => given
                      | None => DefaultClient
                      end
    /\ baseURL c
       = url.mkURL "https" EmptyString
           (Some (url.mkUserinfo key EmptyString false))
           "api.nal.usda.gov" "/ndb/" EmptyString false false
           EmptyString EmptyString EmptyString
    /\ url.String_ (baseURL c) = "https://" +:+ key +:+ "@api.nal.usda.gov/ndb/".
Proof.
  intros Hkey. eexists. split; [now apply NewClient_unreserved|].
  split; [now destruct hc|]. split; [reflexivity|].
  cbn [baseURL].
  rewrite (String_requestURL key EmptyString EmptyString Hkey eq_refl).
  change (queryPart "") with EmptyString. now rewrite !append_empty_r.
Qed.

Lemma NewClient_unreserved_key_witness :
  allBytes isUnreserved "demo123" = true
  /\ exists c,
       NewClient (failingTransport io_EOF) "demo123" None = returned c
       /\ httpClient c = failingTransport io_EOF
       /\ baseURL c = demoBaseURL
       /\ url.String_ (baseURL c) = "https://demo123@api.nal.usda.gov/ndb/".
Proof.
  split; [reflexivity|].
  exact (NewClient_unreserved_key (failingTransport io_EOF) "demo123" None
           eq_refl).
Defined.

(** ** Query options *)

(** On a path of unreserved bytes (such as [list], [nutrients] and
    [search]) adding options never fails: the result is the path,
    followed by [?] and the encoded non-zero options when there are
    any. *)
Theorem addQueryOptions_endpoint p opts :
  allBytes isUnreserved p = true ->
  addQueryOptions p opts
  = (p +:+ match opts with
           | None => EmptyString
           | Some o =>
               if url.nonEmpty (optionQuery o) then "?" +:+ optionQuery o
               else EmptyString
           end, None).
Proof.
  intros Hp. rewrite (addQueryOptions_queryOf p opts Hp).
  now destruct opts.
Qed.

Lemma addQueryOptions_endpoint_witness :
  allBytes isUnreserved "nutrients" = true
  /\ addQueryOptions "nutrients" (Some (mkUSDAQueryOptions 10 20 "c d"))
     = ("nutrients?max=10&offset=20&sort=c+d", None).
Proof.
  split; [reflexivity|].
  exact (addQueryOptions_endpoint "nutrients"
           (Some (mkUSDAQueryOptions 10 20 "c d")) eq_refl).
Defined.

(** ** Requests *)

(** For a client made with a key of unreserved bytes, a path of
    unreserved bytes and slashes and a query without [?], [#] and
    control bytes, [newRequest] never fails: it gives a POST to the
    service host with that path under [/ndb/] and that query, with the
    content type [application/json] as its only header, the encoded
    value followed by a newline as its body, and the length of the
    body as its content length. *)
Theorem newRequest_for_key {T} `{!json.Marshaler T} DefaultClient key hc c
  p q (data : T) :
  allBytes isUnreserved key = true ->
  NewClient DefaultClient key hc = returned c ->
  allBytes isPathByte p = true ->
  lacks "?" q -> lacks "#" q -> url.stringContainsCTLByte q = false ->
  newRequest c (p +:+ queryPart q) data
  = inr (http.mkRequest "POST"
           (url.mkURL "https" EmptyString
              (Some (url.mkUserinfo key EmptyString false))
              "api.nal.usda.gov" ("/ndb/" +:+ p) EmptyString false false q
              EmptyString EmptyString)
           {[ "Content-Type" := ["application/json"] ]}
           (json.encodeValue (json.marshal data) +:+ newline)
           (Z.of_nat
              (String.length (json.encodeValue (json.marshal data) +:+ newline)))
           "api.nal.usda.gov" context.Background).
Proof.
  intros Hkey Hc Hp Hq1 Hq2 Hq3.
  rewrite (returned_client _ _ _ _ Hkey Hc).
  now apply newRequest_built.
Qed.

Lemma newRequest_for_key_witness :
  exists c,
    NewClient (failingTransport io_EOF) "demo123" None = returned c
    /\ newRequest c "V2/reports?x=1" (Some (USDAListReqParams.mk "f"))
       = inr (http.mkRequest "POST"
                (url.mkURL "https" EmptyString
                   (Some (url.mkUserinfo "demo123" EmptyString false))
                   "api.nal.usda.gov" "/ndb/V2/reports" EmptyString false false
                   "x=1" EmptyString EmptyString)
                {[ "Content-Type" := ["application/json"] ]}
                ("{" +:+ qt "lt" +:+ ":" +:+ qt "f" +:+ "}" +:+ newline)
                11 "api.nal.usda.gov" context.Background).
Proof.
  eexists. split; [reflexivity|].
  exact (newRequest_for_key (failingTransport io_EOF) "demo123" None _
           "V2/reports" "x=1" (Some (USDAListReqParams.mk "f"))
           eq_refl eq_refl eq_refl eq_refl eq_refl eq_refl).
Defined.

Section Covered.

Context {USDANutrientReport USDAFoodsReport : Type}.
Context `{!json.Unmarshaler USDANutrientReport}.
Context `{!json.Unmarshaler USDAFoodsReport}.

(** ** The operations of a client with a well-formed key *)

(** With a client made for a key of unreserved bytes, every call of
    an operation hands exactly one request to the transport, whatever
    the parameters and options are: the POST to its endpoint with the
    encoded options as query and the encoded parameters as body,
    carrying the context of the call; the call returns what the
    transport's answer to that request gives. *)
Theorem operations_dispatch DefaultClient key hc c ctx opts w :
  allBytes isUnreserved key = true ->
  NewClient DefaultClient key hc = returned c ->
  (forall params,
     GetList c ctx params opts w
     = transportResult (httpClient c) ctx
         (builtRequest key "list" (queryOf opts) (bodyOf params) ctx) w)
  /\ (forall params,
        GetUSDANutrientReport (USDANutrientReport := USDANutrientReport)
          c ctx params opts w
        = transportResult (httpClient c) ctx
            (builtRequest key "nutrients" (queryOf opts) (bodyOf params) ctx) w)
  /\ (forall params,
        GetUSDAFoodsReportV2 (USDAFoodsReport := USDAFoodsReport)
          c ctx params w
        = transportResult (httpClient c) ctx
            (builtRequest key "V2/reports" EmptyString (bodyOf params) ctx) w)
  /\ (forall params,
        GetUSDASearch c ctx params opts w
        = transportResult (httpClient c) ctx
            (builtRequest key "search" (queryOf opts) (bodyOf params) ctx) w).
Proof.
  intros Hkey Hc. rewrite (returned_client _ _ _ _ Hkey Hc). cbn [httpClient].
  split; [|split; [|split]]; intros params.
  - rewrite GetList_result. now apply operationResult_built.
  - rewrite GetUSDANutrientReport_result. now apply operationResult_built.
  - rewrite GetUSDAFoodsReportV2_result. now apply operationResult_builtPath.
  - rewrite GetUSDASearch_result. now apply operationResult_built.
Qed.

(** Nil parameters are not rejected: each operation then sends its
    request with the body [null]. *)
Theorem operations_nil_params DefaultClient key hc c ctx opts w :
  allBytes isUnreserved key = true ->
  NewClient DefaultClient key hc = returned c ->
  (exists req,
     snd (GetList c ctx None opts w) = w ++ [req]
     /\ http.Body req = "null" +:+ newline /\ http.ContentLength req = 5%Z)
  /\ (exists req,
        snd (GetUSDANutrientReport (USDANutrientReport := USDANutrientReport)
               c ctx None opts w) = w ++ [req]
        /\ http.Body req = "null" +:+ newline /\ http.ContentLength req = 5%Z)
  /\ (exists req,
        snd (GetUSDAFoodsReportV2 (USDAFoodsReport := USDAFoodsReport)
               c ctx None w) = w ++ [req]
        /\ http.Body req = "null" +:+ newline /\ http.ContentLength req = 5%Z)
  /\ (exists req,
        snd (GetUSDASearch c ctx None opts w) = w ++ [req]
        /\ http.Body req = "null" +:+ newline /\ http.ContentLength req = 5%Z).
Proof.
  intros Hkey Hc. rewrite (returned_client _ _ _ _ Hkey Hc).
  split; [|split; [|split]].
  - rewrite GetList_result.
    rewrite (operationResult_built key _ ctx "list" _ _ w Hkey eq_refl).
    rewrite transportResult_wire. eexists. repeat split.
  - rewrite GetUSDANutrientReport_result.
    rewrite (operationResult_built key _ ctx "nutrients" _ _ w Hkey eq_refl).
    rewrite transportResult_wire. eexists. repeat split.
  - rewrite GetUSDAFoodsReportV2_result.
    rewrite (operationResult_builtPath key _ ctx "V2/reports" _ w Hkey eq_refl).
    rewrite transportResult_wire. eexists. repeat split.
  - rewrite GetUSDASearch_result.
    rewrite (operationResult_built key _ ctx "search" _ _ w Hkey eq_refl).
    rewrite transportResult_wire. eexists. repeat split.
Qed.

(** ** The facade *)

(** [GetListByType]: one POST to [list?max=1500&sort=id], whose body
    reads as the object with the list type under [lt], or as the empty
    object for the empty list type. *)
Theorem GetListByType_request DefaultClient key hc c ctx listType w :
  allBytes isUnreserved key = true ->
  NewClient DefaultClient key hc = returned c ->
  exists req,
    snd (GetListByType c ctx listType w) = w ++ [req]
    /\ http.Method req = "POST"
    /\ http.HeaderGet req "Content-Type" = "application/json"
    /\ http.ctx req = ctx
    /\ url.String_ (http.URL req)
       = "https://" +:+ key +:+ "@api.nal.usda.gov/ndb/list?max=1500&sort=id"
    /\ json.readValue (http.Body req)
       = inr (json.Object (if (String.length listType =? 0)%nat then []
                           else [("lt", strValue listType)]), newline).
Proof.
  intros Hkey Hc. rewrite (returned_client _ _ _ _ Hkey Hc).
  unfold GetListByType. rewrite GetList_result.
  rewrite (operationResult_built key _ ctx "list" _ _ w Hkey eq_refl).
  rewrite transportResult_wire. eexists. split; [reflexivity|].
  split; [reflexivity|]. split; [apply builtRequest_header|].
  split; [reflexivity|].
  split; [now rewrite builtRequest_text|apply body_list].
Qed.

(** [GetNutrientsReport]: one POST to [nutrients?max=10&sort=c] whose
    body reads as [{"fg":["0300"],"nutrients":["306","204"]}]. *)
Theorem GetNutrientsReport_request DefaultClient key hc c ctx w :
  allBytes isUnreserved key = true ->
  NewClient DefaultClient key hc = returned c ->
  exists req,
    snd (GetNutrientsReport (USDANutrientReport := USDANutrientReport) c ctx w)
    = w ++ [req]
    /\ http.Method req = "POST"
    /\ http.HeaderGet req "Content-Type" = "application/json"
    /\ http.ctx req = ctx
    /\ url.String_ (http.URL req)
       = "https://" +:+ key +:+ "@api.nal.usda.gov/ndb/nutrients?max=10&sort=c"
    /\ json.readValue (http.Body req)
       = inr (json.Object
                [("fg", json.Array [json.Str "0300"]);
                 ("nutrients", json.Array [json.Str "306"; json.Str "204"])],
              newline).
Proof.
  intros Hkey Hc. rewrite (returned_client _ _ _ _ Hkey Hc).
  unfold GetNutrientsReport. rewrite GetUSDANutrientReport_result.
  rewrite (operationResult_built key _ ctx "nutrients" _ _ w Hkey eq_refl).
  rewrite transportResult_wire. eexists. split; [reflexivity|].
  split; [reflexivity|]. split; [apply builtRequest_header|].
  split; [reflexivity|].
  split; [now rewrite builtRequest_text|apply body_nutrients].
Qed.

(** [GetFoodNutrientsReport]: one POST to [nutrients?max=100&sort=c]
    whose body reads as the object with the nutrients [306] and [204]
    and, unless it is empty, the food id under [ndbno]. *)
Theorem GetFoodNutrientsReport_request DefaultClient key hc c ctx ndbno w :
  allBytes isUnreserved key = true ->
  NewClient DefaultClient key hc = returned c ->
  exists req,
    snd (GetFoodNutrientsReport (USDANutrientReport := USDANutrientReport)
           c ctx ndbno w)
    = w ++ [req]
    /\ http.Method req = "POST"
    /\ http.HeaderGet req "Content-Type" = "application/json"
    /\ http.ctx req = ctx
    /\ url.String_ (http.URL req)
       = "https://" +:+ key +:+ "@api.nal.usda.gov/ndb/nutrients?max=100&sort=c"
    /\ json.readValue (http.Body req)
       = inr (json.Object
                ((if (String.length ndbno =? 0)%nat then []
                  else [("ndbno", strValue ndbno)])
                 ++ [("nutrients",
                      json.Array [json.Str "306"; json.Str "204"])]),
              newline).
Proof.
  intros Hkey Hc. rewrite (returned_client _ _ _ _ Hkey Hc).
  unfold GetFoodNutrientsReport. rewrite GetUSDANutrientReport_result.
  rewrite (operationResult_built key _ ctx "nutrients" _ _ w Hkey eq_refl).
  rewrite transportResult_wire. eexists. split; [reflexivity|].
  split; [reflexivity|]. split; [apply builtRequest_header|].
  split; [reflexivity|].
  split; [now rewrite builtRequest_text|apply body_nutrients_of].
Qed.

(** [GetBasicFoodReport]: one POST to [V2/reports], without a query,
    whose body reads as the object with the one food id in the list
    [ndbno] (the empty id included) and the type [b]. *)
Theorem GetBasicFoodReport_request DefaultClient key hc c ctx ndbno w :
  allBytes isUnreserved key = true ->
  NewClient DefaultClient key hc = returned c ->
  exists req,
    snd (GetBasicFoodReport (USDAFoodsReport := USDAFoodsReport) c ctx ndbno w)
    = w ++ [req]
    /\ http.Method req = "POST"
    /\ http.HeaderGet req "Content-Type" = "application/json"
    /\ http.ctx req = ctx
    /\ url.String_ (http.URL req)
       = "https://" +:+ key +:+ "@api.nal.usda.gov/ndb/V2/reports"
    /\ json.readValue (http.Body req)
       = inr (json.Object [("ndbno", json.Array [strValue ndbno]);
                           ("type", json.Str "b")], newline).
Proof.
  intros Hkey Hc. rewrite (returned_client _ _ _ _ Hkey Hc).
  unfold GetBasicFoodReport. rewrite GetUSDAFoodsReportV2_result.
  rewrite (operationResult_builtPath key _ ctx "V2/reports" _ w Hkey eq_refl).
  rewrite transportResult_wire. eexists. split; [reflexivity|].
  split; [reflexivity|]. split; [apply builtRequest_header|].
  split; [reflexivity|].
  split; [|apply body_foods].
  rewrite builtRequest_text by (exact Hkey || reflexivity).
  change (queryPart "") with EmptyString. reflexivity.
Qed.

End Covered.

(** [GetFoodNameSearch]: one POST to [search?max=100&sort=n], whose
    body reads as the object with the name under [q], or as the empty
    object for the empty name. *)
Theorem GetFoodNameSearch_request DefaultClient key hc c ctx name w :
  allBytes isUnreserved key = true ->
  NewClient DefaultClient key hc = returned c ->
  exists req,
    snd (GetFoodNameSearch c ctx name w) = w ++ [req]
    /\ http.Method req = "POST"
    /\ http.HeaderGet req "Content-Type" = "application/json"
    /\ http.ctx req = ctx
    /\ url.String_ (http.URL req)
       = "https://" +:+ key +:+ "@api.nal.usda.gov/ndb/search?max=100&sort=n"
    /\ json.readValue (http.Body req)
       = inr (json.Object (if (String.length name =? 0)%nat then []
                           else [("q", strValue name)]), newline).
Proof.
  intros Hkey Hc. rewrite (returned_client _ _ _ _ Hkey Hc).
  unfold GetFoodNameSearch. rewrite GetUSDASearch_result.
  rewrite (operationResult_built key _ ctx "search" _ _ w Hkey eq_refl).
  rewrite transportResult_wire. eexists. split; [reflexivity|].
  split; [reflexivity|]. split; [apply builtRequest_header|].
  split; [reflexivity|].
  split; [now rewrite builtRequest_text|apply body_search].
Qed.

Section Answers.

Context {USDANutrientReport USDAFoodsReport : Type}.
Context `{!json.Unmarshaler USDANutrientReport}.
Context `{!json.Unmarshaler USDAFoodsReport}.

(** An operation whose request the transport fails returns the zero
    value of its response type with the transport's error, or with the
    context's error when the context is done. *)
Theorem operations_transport_failure c ctx opts w e :
  (forall params v err req,
     GetList c ctx params opts w = (v, err, w ++ [req]) ->
     http.Do (httpClient c) req = inl e ->
     v = json.zero
     /\ err = (if context.Done ctx then context.Err ctx else Some e))
  /\ (forall params (v : USDANutrientReport) err req,
        GetUSDANutrientReport c ctx params opts w = (v, err, w ++ [req]) ->
        http.Do (httpClient c) req = inl e ->
        v = json.zero
        /\ err = (if context.Done ctx then context.Err ctx else Some e))
  /\ (forall params (v : USDAFoodsReport) err req,
        GetUSDAFoodsReportV2 c ctx params w = (v, err, w ++ [req]) ->
        http.Do (httpClient c) req = inl e ->
        v = json.zero
        /\ err = (if context.Done ctx then context.Err ctx else Some e))
  /\ (forall params v err req,
        GetUSDASearch c ctx params opts w = (v, err, w ++ [req]) ->
        http.Do (httpClient c) req = inl e ->
        v = json.zero
        /\ err = (if context.Done ctx then context.Err ctx else Some e)).
Proof.
  split; [|split; [|split]]; intros params v err req Hr Hdo.
  - rewrite GetList_result in Hr.
    exact (operationResult_failure _ _ _ _ _ _ _ _ _ Hr Hdo).
  - rewrite GetUSDANutrientReport_result in Hr.
    exact (operationResult_failure _ _ _ _ _ _ _ _ _ Hr Hdo).
  - rewrite GetUSDAFoodsReportV2_result in Hr.
    exact (operationResult_failure _ _ _ _ _ _ _ _ _ Hr Hdo).
  - rewrite GetUSDASearch_result in Hr.
    exact (operationResult_failure _ _ _ _ _ _ _ _ _ Hr Hdo).
Qed.

(** A response without a JSON text in its body, blank or empty, makes
    an operation return [io.EOF] with the zero value, whatever the
    status code is. *)
Theorem operations_blank_body c ctx opts w r :
  allBytes json.isSpace (http.respBody r) = true ->
  (forall params v err req,
     GetList c ctx params opts w = (v, err, w ++ [req]) ->
     http.Do (httpClient c) req = inr r ->
     v = json.zero /\ err = Some io_EOF)
  /\ (forall params (v : USDANutrientReport) err req,
        GetUSDANutrientReport c ctx params opts w = (v, err, w ++ [req]) ->
        http.Do (httpClient c) req = inr r ->
        v = json.zero /\ err = Some io_EOF)
  /\ (forall params (v : USDAFoodsReport) err req,
        GetUSDAFoodsReportV2 c ctx params w = (v, err, w ++ [req]) ->
        http.Do (httpClient c) req = inr r ->
        v = json.zero /\ err = Some io_EOF)
  /\ (forall params v err req,
        GetUSDASearch c ctx params opts w = (v, err, w ++ [req]) ->
        http.Do (httpClient c) req = inr r ->
        v = json.zero /\ err = Some io_EOF).
Proof.
  intros Hb.
  split; [|split; [|split]]; intros params v err req Hr Hdo;
    [rewrite GetList_result in Hr
    |rewrite GetUSDANutrientReport_result in Hr
    |rewrite GetUSDAFoodsReportV2_result in Hr
    |rewrite GetUSDASearch_result in Hr];
    pose proof (operationResult_response _ _ _ _ _ _ _ _ _ Hr Hdo) as Hd;
    rewrite (Decode_blank _ _ Hb) in Hd; now injection Hd.
Qed.

(** A response whose body does not begin, after white space, with a
    byte that can open a JSON value (an HTML page, say) makes an
    operation return a syntax error with the zero value. *)
Theorem operations_non_json_body c ctx opts w r first rest :
  json.skipSpace (http.respBody r) = String first rest ->
  startsValue first = false ->
  (forall params v err req,
     GetList c ctx params opts w = (v, err, w ++ [req]) ->
     http.Do (httpClient c) req = inr r ->
     v = json.zero /\ exists msg, err = Some (SyntaxError msg))
  /\ (forall params (v : USDANutrientReport) err req,
        GetUSDANutrientReport c ctx params opts w = (v, err, w ++ [req]) ->
        http.Do (httpClient c) req = inr r ->
        v = json.zero /\ exists msg, err = Some (SyntaxError msg))
  /\ (forall params (v : USDAFoodsReport) err req,
        GetUSDAFoodsReportV2 c ctx params w = (v, err, w ++ [req]) ->
        http.Do (httpClient c) req = inr r ->
        v = json.zero /\ exists msg, err = Some (SyntaxError msg))
  /\ (forall params v err req,
        GetUSDASearch c ctx params opts w = (v, err, w ++ [req]) ->
        http.Do (httpClient c) req = inr r ->
        v = json.zero /\ exists msg, err = Some (SyntaxError msg)).
Proof.
  intros Hs Hf.
  split; [|split; [|split]]; intros params v err req Hr Hdo;
    [rewrite GetList_result in Hr
    |rewrite GetUSDANutrientReport_result in Hr
    |rewrite GetUSDAFoodsReportV2_result in Hr
    |rewrite GetUSDASearch_result in Hr];
    pose proof (operationResult_response _ _ _ _ _ _ _ _ _ Hr Hdo) as Hd;
    rewrite (Decode_bad_start _ _ _ _ Hs Hf) in Hd;
    injection Hd as -> ->; (split; [reflexivity|eexists; reflexivity]).
Qed.

End Answers.

(** A response whose body is [null], or an object without the key
    [list] in any letter case (an error report of the service, say),
    makes [GetList] and [GetUSDASearch] return the zero value and no
    error. *)
Theorem list_key_missing c ctx opts w r x rest :
  json.readValue (http.respBody r) = inr (x, rest) ->
  carriesNoList x ->
  (forall params v err req,
     GetList c ctx params opts w = (v, err, w ++ [req]) ->
     http.Do (httpClient c) req = inr r ->
     v = json.zero /\ err = None)
  /\ (forall params v err req,
        GetUSDASearch c ctx params opts w = (v, err, w ++ [req]) ->
        http.Do (httpClient c) req = inr r ->
        v = json.zero /\ err = None).
Proof.
  intros Hread Hx.
  split; intros params v err req Hr Hdo;
    [rewrite GetList_result in Hr|rewrite GetUSDASearch_result in Hr];
    pose proof (operationResult_response _ _ _ _ _ _ _ _ _ Hr Hdo) as Hd;
    unfold json.Decode in Hd; rewrite Hread in Hd;
    [rewrite (unmarshal_no_list_USDAList x Hx) in Hd
    |rewrite (unmarshal_no_list_USDASearch x Hx) in Hd];
    now injection Hd.
Qed.

Lemma unreserved_tail s :
  allBytes isUnreserved s = true -> allBytes isTailByte s = true.
Proof.
  apply allBytes_impl. intros c Hc. now apply path_tail, unreserved_path.
Qed.

Lemma parseHost_unreserved h :
  allBytes isUnreserved h = true -> url.parseHost h = inr h.
Proof.
  intros Hh. unfold url.parseHost.
  rewrite (HasPrefix_lacks h "[" EmptyString)
    by (now apply (allBytes_lacks isUnreserved)).
  rewrite (CutLast_none h ":") by (now apply (allBytes_lacks isUnreserved)).
  apply unescape_host. revert Hh. apply allBytes_impl, unreserved_host.
Qed.

Lemma parseAuthority_host h :
  allBytes isUnreserved h = true -> url.parseAuthority h = inr (None, h).
Proof.
  intros Hh. unfold url.parseAuthority.
  rewrite (CutLast_none h "@") by (now apply (allBytes_lacks isUnreserved)).
  now rewrite (parseHost_unreserved h Hh).
Qed.

Lemma Parse_strayURL h tail q :
  allBytes isUnreserved h = true ->
  allBytes isTailByte tail = true ->
  lacks "?" q -> lacks "#" q -> url.stringContainsCTLByte q = false ->
  url.Parse ("https://" +:+ (h +:+ String "/" tail) +:+ queryPart q)
  = inr (strayURL h tail q).
Proof.
  intros Hh Ht Hq1 Hq2 Hq3.
  pose proof (unreserved_tail h Hh) as Hh'.
  unfold url.Parse. rewrite Cut_none.
  2:{ apply lacks_app; [reflexivity|]. apply lacks_app.
      - apply lacks_app; [now apply (allBytes_lacks isTailByte)|].
        now apply (allBytes_lacks isTailByte (String "/" tail)).
      - now apply queryPart_lacks. }
  rewrite (parse_https h tail q None h); [reflexivity|..].
  - now apply tail_noCTL_string.
  - exact Hq3.
  - now apply (allBytes_lacks isUnreserved).
  - now apply (allBytes_lacks isUnreserved).
  - exact Hq1.
  - exact Ht.
  - now apply parseAuthority_host.
Qed.

Lemma String_strayURL h tail q :
  allBytes isUnreserved h = true ->
  allBytes isTailByte tail = true ->
  url.String_ (strayURL h tail q)
  = "https://" +:+ (h +:+ String "/" tail) +:+ queryPart q.
Proof.
  intros Hh Ht.
  assert (Hpath : allBytes isTailByte (String "/" tail) = true) by exact Ht.
  assert (HE : url.EscapedPath (strayURL h tail q) = String "/" tail).
  { unfold url.EscapedPath, strayURL. cbn [url.RawPath url.Path].
    change (url.nonEmpty "") with false. cbn [andb]. cbv iota.
    change ((String "/" tail =? "*")%string) with false. cbv iota.
    apply escape_plain. revert Hpath. apply allBytes_impl, tail_unescaped. }
  assert (Hhost : (if url.nonEmpty h then url.escape h url.encodeHost
                   else EmptyString) = h).
  { destruct h as [|a h]; [reflexivity|].
    change (url.nonEmpty (String a h)) with true. cbv iota.
    apply escape_plain. revert Hh. apply allBytes_impl. intros c Hc.
    pose proof (unreserved_host c Hc) as Hu.
    now apply andb_true_iff in Hu as [_ Hu]. }
  unfold url.String_, url.stringHead. rewrite HE.
  unfold strayURL.
  cbn [url.Scheme url.Opaque url.User url.Host url.Path url.RawPath
         url.OmitHost url.ForceQuery url.RawQuery url.Fragment].
  rewrite Hhost.
  change (url.nonEmpty "") with false.
  change (url.nonEmpty "https") with true.
  change (url.nonEmpty (String "/" tail)) with true.
  change (str.HasPrefix (String "/" tail) "/") with true.
  rewrite orb_true_r.
  cbn [andb orb negb url.isSome]. cbv iota.
  change ((("https" +:+ ":") +:+ ("//" +:+ "" +:+ h) +:+ "" =? "")%string)
    with false.
  cbn [andb]. cbv iota.
  rewrite nonEmpty_queryPart, !append_empty_r.
  change ("https" +:+ ":") with "https:".
  change ("//" +:+ "" +:+ h) with ("//" +:+ h).
  rewrite !append_assoc. reflexivity.
Qed.

Lemma removeEmptyPort_unreserved h :
  allBytes isUnreserved h = true -> http.removeEmptyPort h = h.
Proof.
  intros Hh. unfold http.removeEmptyPort.
  now rewrite (CutLast_none h ":") by (now apply (allBytes_lacks isUnreserved)).
Qed.

Lemma strayText h r :
  "https://" +:+ (h +:+ "/" +:+ r) +:+ "@" +:+ entryPointURL
  = "https://" +:+ (h +:+ String "/" (r +:+ "@" +:+ entryPointURL))
    +:+ queryPart EmptyString.
Proof.
  change (queryPart "") with EmptyString.
  change ("/" +:+ r) with (String "/" r).
  rewrite !append_empty_r.
  change (String "/" r) with ("/" +:+ r).
  change (String "/" (r +:+ "@" +:+ entryPointURL))
    with ("/" +:+ (r +:+ "@" +:+ entryPointURL)).
  now rewrite !append_assoc.
Qed.

Lemma strayTail r p :
  allBytes isUnreserved r = true -> allBytes isPathByte p = true ->
  allBytes isTailByte ((r +:+ "@" +:+ entryPointURL) +:+ p) = true.
Proof.
  intros Hr Hp. rewrite !allBytes_app, (unreserved_tail r Hr).
  rewrite (allBytes_impl _ _ _ path_tail Hp). reflexivity.
Qed.

Lemma NewClient_stray DefaultClient h r hc :
  allBytes isUnreserved h = true ->
  allBytes isUnreserved r = true ->
  NewClient DefaultClient (h +:+ "/" +:+ r) hc
  = returned (mkUSDAclient (strayURL h (r +:+ "@" +:+ entryPointURL) EmptyString)
                (default DefaultClient hc)).
Proof.
  intros Hh Hr. unfold NewClient. rewrite strayText.
  pose proof (strayTail r EmptyString Hr eq_refl) as Ht.
  rewrite append_empty_r in Ht.
  rewrite (Parse_strayURL h _ EmptyString Hh Ht eq_refl eq_refl eq_refl).
  now destruct hc.
Qed.

Lemma newRequest_stray {T} `{!json.Marshaler T} h r hc p q (data : T) :
  allBytes isUnreserved h = true ->
  allBytes isUnreserved r = true ->
  allBytes isPathByte p = true ->
  lacks "?" q -> lacks "#" q -> url.stringContainsCTLByte q = false ->
  newRequest
    (mkUSDAclient (strayURL h (r +:+ "@" +:+ entryPointURL) EmptyString) hc)
    (p +:+ queryPart q) data
  = inr (http.mkRequest http.MethodPost
           (strayURL h ((r +:+ "@" +:+ entryPointURL) +:+ p) q)
           {[ "Content-Type" := ["application/json"] ]} (bodyOf data)
           (Z.of_nat (String.length (bodyOf data))) h context.Background).
Proof.
  intros Hh Hr Hp Hq1 Hq2 Hq3. unfold newRequest. cbn [baseURL].
  pose proof (strayTail r EmptyString Hr eq_refl) as Ht0.
  rewrite append_empty_r in Ht0.
  rewrite (String_strayURL h _ EmptyString Hh Ht0).
  change (queryPart "") with EmptyString. rewrite !append_empty_r.
  change (json.Encode data) with (inr (bodyOf data) : result string).
  cbv iota. unfold http.NewRequest.
  change (url.nonEmpty http.MethodPost) with true. cbv iota.
  change (http.validMethod http.MethodPost) with true. cbn [negb]. cbv iota.
  replace (("https://" +:+ h +:+ String "/" (r +:+ "@" +:+ entryPointURL))
           +:+ p +:+ queryPart q)
    with ("https://" +:+ (h +:+ String "/" ((r +:+ "@" +:+ entryPointURL) +:+ p))
          +:+ queryPart q).
  2:{ change (String "/" ((r +:+ "@" +:+ entryPointURL) +:+ p))
        with ("/" +:+ ((r +:+ "@" +:+ entryPointURL) +:+ p)).
      change (String "/" (r +:+ "@" +:+ entryPointURL))
        with ("/" +:+ (r +:+ "@" +:+ entryPointURL)).
      now rewrite !append_assoc. }
  rewrite (Parse_strayURL h _ q Hh (strayTail r p Hr Hp) Hq1 Hq2 Hq3).
  unfold http.HeaderSet, url.withHost, strayURL.
  cbn [url.Scheme url.Opaque url.User url.Host url.Path url.RawPath
         url.OmitHost url.ForceQuery url.RawQuery url.Fragment url.RawFragment
         http.Method http.URL http.header http.Body http.ContentLength
         http.Host http.ctx].
  rewrite (removeEmptyPort_unreserved h Hh).
  change (http.CanonicalMIMEHeaderKey "Content-Type") with "Content-Type".
  now rewrite insert_empty.
Qed.

(** A key with a slash is not rejected: for [h/r], with [h] and [r]
    of unreserved bytes, [NewClient] returns a client whose base URL
    has the host [h], no user and the rest of the key with the service
    address as its path. *)
Theorem NewClient_slash_key DefaultClient h r hc :
  allBytes isUnreserved h = true ->
  allBytes isUnreserved r = true ->
  exists c,
    NewClient DefaultClient (h +:+ "/" +:+ r) hc = returned c
    /\ baseURL c
       = url.mkURL "https" EmptyString None h
           ("/" +:+ r +:+ "@api.nal.usda.gov/ndb/") EmptyString false false
           EmptyString EmptyString EmptyString.
Proof.
  intros Hh Hr. eexists. split; [now apply NewClient_stray|reflexivity].
Qed.

Lemma NewClient_slash_key_witness :
  exists c,
    NewClient (failingTransport io_EOF) "example.org/k" None = returned c
    /\ url.Host (baseURL c) = "example.org"
    /\ url.Path (baseURL c) = "/k@api.nal.usda.gov/ndb/".
Proof.
  destruct (NewClient_slash_key (failingTransport io_EOF) "example.org" "k"
              None eq_refl eq_refl) as (c & Hc & Hu).
  exists c. split; [exact Hc|]. rewrite Hu. split; reflexivity.
Defined.

Section Stray.

Context {USDANutrientReport USDAFoodsReport : Type}.
Context `{!json.Unmarshaler USDANutrientReport}.
Context `{!json.Unmarshaler USDAFoodsReport}.

(** The requests of such a client go to the host [h]: each operation
    sends one request whose URL and [Host] name [h], with the
    parameters as its body. *)
Theorem operations_slash_key DefaultClient h r hc c ctx opts w :
  allBytes isUnreserved h = true ->
  allBytes isUnreserved r = true ->
  NewClient DefaultClient (h +:+ "/" +:+ r) hc = returned c ->
  (forall params, exists req,
     snd (GetList c ctx params opts w) = w ++ [req]
     /\ http.Host req = h /\ url.Host (http.URL req) = h
     /\ url.User (http.URL req) = None
     /\ http.Body req = json.encodeValue (json.marshal params) +:+ newline)
  /\ (forall params, exists req,
        snd (GetUSDANutrientReport (USDANutrientReport := USDANutrientReport)
               c ctx params opts w) = w ++ [req]
        /\ http.Host req = h /\ url.Host (http.URL req) = h
        /\ url.User (http.URL req) = None
        /\ http.Body req = json.encodeValue (json.marshal params) +:+ newline)
  /\ (forall params, exists req,
        snd (GetUSDAFoodsReportV2 (USDAFoodsReport := USDAFoodsReport)
               c ctx params w) = w ++ [req]
        /\ http.Host req = h /\ url.Host (http.URL req) = h
        /\ url.User (http.URL req) = None
        /\ http.Body req = json.encodeValue (json.marshal params) +:+ newline)
  /\ (forall params, exists req,
        snd (GetUSDASearch c ctx params opts w) = w ++ [req]
        /\ http.Host req = h /\ url.Host (http.URL req) = h
        /\ url.User (http.URL req) = None
        /\ http.Body req = json.encodeValue (json.marshal params) +:+ newline).
Proof.
  intros Hh Hr Hc. rewrite (NewClient_stray _ _ _ _ Hh Hr) in Hc.
  assert (Ec : c = mkUSDAclient
                     (strayURL h (r +:+ "@" +:+ entryPointURL) EmptyString)
                     (default DefaultClient hc)) by congruence.
  subst c. clear Hc.
  destruct (queryOf_facts opts) as (H1 & H2 & H3).
  split; [|split; [|split]]; intros params.
  - rewrite GetList_wire, (addQueryOptions_queryOf "list" opts eq_refl).
    rewrite (newRequest_stray h r _ "list" (queryOf opts) params
               Hh Hr eq_refl H1 H2 H3).
    eexists. split; [reflexivity|]. repeat split.
  - rewrite GetUSDANutrientReport_wire,
      (addQueryOptions_queryOf "nutrients" opts eq_refl).
    rewrite (newRequest_stray h r _ "nutrients" (queryOf opts) params
               Hh Hr eq_refl H1 H2 H3).
    eexists. split; [reflexivity|]. repeat split.
  - rewrite GetUSDAFoodsReportV2_wire.
    pose proof (newRequest_stray h r (default DefaultClient hc) "V2/reports"
                  EmptyString params Hh Hr eq_refl eq_refl eq_refl eq_refl)
      as Hn.
    change (queryPart "") with EmptyString in Hn.
    rewrite append_empty_r in Hn. rewrite Hn.
    eexists. split; [reflexivity|]. repeat split.
  - rewrite GetUSDASearch_wire, (addQueryOptions_queryOf "search" opts eq_refl).
    rewrite (newRequest_stray h r _ "search" (queryOf opts) params
               Hh Hr eq_refl H1 H2 H3).
    eexists. split; [reflexivity|]. repeat split.
Qed.

End Stray.

(** ** Keys that make construction panic *)

(** A key with an ASCII control byte (a trailing newline, say) and
    without [#] makes [NewClient] panic with the parse error of the
    base URL. *)
Theorem NewClient_control_byte DefaultClient key hc :
  url.stringContainsCTLByte key = true ->
  lacks "#" key ->
  NewClient DefaultClient key hc
  = panicked
      (url_Error "parse" ("https://" +:+ key +:+ "@api.nal.usda.gov/ndb/")
         (errorString "net/url: invalid control character in URL")).
Proof.
  intros Hctl Hh. unfold NewClient, url.Parse.
  change ("https://" +:+ key +:+ "@" +:+ entryPointURL)
    with ("https://" +:+ key +:+ "@api.nal.usda.gov/ndb/").
  rewrite Cut_none.
  2:{ apply lacks_app; [reflexivity|]. apply lacks_app; [exact Hh|reflexivity]. }
  unfold url.parse. rewrite !CTL_app, Hctl, orb_true_r. reflexivity.
Qed.

Lemma NewClient_control_byte_witness :
  NewClient (failingTransport io_EOF) ("demo123" +:+ newline) None
  = panicked
      (url_Error "parse"
         ("https://demo123" +:+ newline +:+ "@api.nal.usda.gov/ndb/")
         (errorString "net/url: invalid control character in URL")).
Proof.
  exact (NewClient_control_byte (failingTransport io_EOF)
           ("demo123" +:+ newline) None eq_refl eq_refl).
Defined.

(** A key with a byte that may not stand in the user information of a
    URL (a space, a quote, a byte above 127), and without control
    bytes, [/], [?] and [#], makes [NewClient] panic with
    [net/url: invalid userinfo]. *)
Theorem NewClient_invalid_userinfo DefaultClient key hc :
  url.validUserinfo key = false ->
  url.stringContainsCTLByte key = false ->
  lacks "/" key -> lacks "?" key -> lacks "#" key ->
  NewClient DefaultClient key hc
  = panicked
      (url_Error "parse" ("https://" +:+ key +:+ "@api.nal.usda.gov/ndb/")
         (errorString "net/url: invalid userinfo")).
Proof.
  intros Hu Hctl H1 H2 H3. unfold NewClient, url.Parse.
  change ("https://" +:+ key +:+ "@" +:+ entryPointURL)
    with ("https://" +:+ key +:+ "@api.nal.usda.gov/ndb/").
  rewrite Cut_none.
  2:{ apply lacks_app; [reflexivity|]. apply lacks_app; [exact H3|reflexivity]. }
  replace ("https://" +:+ key +:+ "@api.nal.usda.gov/ndb/")
    with ("https://" +:+ ((key +:+ "@api.nal.usda.gov") +:+ String "/" "ndb/")
          +:+ queryPart EmptyString) at 1.
  2:{ change (queryPart "") with EmptyString. rewrite append_empty_r.
      change "@api.nal.usda.gov/ndb/"
        with ("@api.nal.usda.gov" +:+ String "/" "ndb/").
      now rewrite !append_assoc. }
  rewrite parse_https_authority; try reflexivity.
  - unfold url.parseAuthority.
    change (key +:+ "@api.nal.usda.gov")
      with (key +:+ String "@" "api.nal.usda.gov").
    rewrite CutLast_app by reflexivity. rewrite parseHost_entry.
    cbn [bind]. now rewrite Hu.
  - now rewrite CTL_app, Hctl.
  - apply lacks_app; [exact H1|reflexivity].
  - apply lacks_app; [exact H2|reflexivity].
Qed.

Lemma NewClient_invalid_userinfo_witness :
  NewClient (failingTransport io_EOF) "my key" None
  = panicked
      (url_Error "parse" "https://my key@api.nal.usda.gov/ndb/"
         (errorString "net/url: invalid userinfo")).
Proof.
  exact (NewClient_invalid_userinfo (failingTransport io_EOF) "my key" None
           eq_refl eq_refl eq_refl eq_refl eq_refl).
Defined.

(** ** Options on a path that has a query *)

Lemma scanScheme_query p q b :
  lacks ":" p -> url.scanScheme b (p +:+ String "?" q) = inr None.
Proof.
  unfold lacks. revert b. induction p as [|a s IH]; intros b; [reflexivity|].
  cbn [str.Contains]. intros H. apply orb_false_iff in H as [Ha Hs].
  cbn [String.append url.scanScheme]. rewrite (IH false Hs), Ha.
  destruct (isLetter a); [reflexivity|].
  destruct (isDigit a || oneOf "+-." a); [destruct b|]; reflexivity.
Qed.

Lemma getScheme_relative p q :
  lacks ":" p -> url.getScheme (p +:+ queryPart q) = inr (EmptyString, p +:+ queryPart q).
Proof.
  intros Hp. unfold url.getScheme, queryPart.
  destruct (url.nonEmpty q).
  - change ("?" +:+ q) with (String "?" q). now rewrite scanScheme_query.
  - rewrite append_empty_r. now rewrite scanScheme_none.
Qed.

Lemma eqb_star_query p q :
  allBytes isUnreserved p = true -> String.eqb (p +:+ queryPart q) "*" = false.
Proof.
  intros Hp. destruct p as [|a p].
  - unfold queryPart. now destruct (url.nonEmpty q).
  - cbn [allBytes] in Hp. apply andb_true_iff in Hp as [Ha _].
    cbn [String.append String.eqb].
    now rewrite (eqb_false_of isUnreserved a "*" Ha eq_refl).
Qed.

Lemma Parse_relative_query p q :
  allBytes isUnreserved p = true ->
  lacks "?" q -> lacks "#" q -> url.stringContainsCTLByte q = false ->
  url.Parse (p +:+ queryPart q)
  = inr (url.mkURL EmptyString EmptyString None EmptyString p EmptyString
           false false q EmptyString EmptyString).
Proof.
  intros Hp Hq1 Hq2 Hq3.
  pose proof (allBytes_impl _ _ _ unreserved_path Hp) as Hp'.
  assert (Hl : forall c, isUnreserved c = false -> lacks c p)
    by (intros c; now apply unreserved_lacks).
  destruct (Cut_queryPart p q (Hl "?"%char eq_refl) Hq1) as [Hsuf Hcut].
  unfold url.Parse. rewrite Cut_none.
  2:{ apply lacks_app; [now apply Hl|now apply queryPart_lacks]. }
  unfold url.parse.
  rewrite CTL_app, (path_noCTL_string p Hp'), (queryPart_noCTL q Hq3).
  rewrite andb_false_r, (eqb_star_query p q Hp).
  cbn [orb]. cbv iota.
  rewrite getScheme_relative by (now apply Hl).
  cbn [bind]. rewrite Hsuf, Hcut.
  cbn [andb]. cbv iota beta.
  change (str.ToLower "") with EmptyString.
  change (url.nonEmpty "") with false.
  rewrite (HasPrefix_lacks p "/" EmptyString) by (now apply Hl).
  rewrite (HasPrefix_lacks p "/" "/") by (now apply Hl).
  rewrite (Cut_none p "/") by (now apply Hl).
  cbn [fst negb andb orb].
  pose proof (Hl ":"%char eq_refl) as Hcolon. unfold lacks in Hcolon.
  rewrite Hcolon. cbv iota.
  rewrite andb_false_r.
  rewrite (unescape_plain p url.encodePath eq_refl
             (allBytes_impl _ _ _ path_plain Hp')).
  cbn [bind].
  rewrite (escape_plain p url.encodePath
             (allBytes_impl _ _ _ path_unescaped Hp')).
  now rewrite (String.eqb_refl p).
Qed.

(** The options replace the query a path already has: on a path of
    unreserved bytes followed by [?] and a query, the result is the
    path with the encoded options, and the old query is gone; so adding
    options to the result of adding options keeps the last ones only. *)
Theorem addQueryOptions_replaces_query p opts :
  allBytes isUnreserved p = true ->
  (forall old,
     old <> EmptyString ->
     lacks "?" old -> lacks "#" old -> url.stringContainsCTLByte old = false ->
     addQueryOptions (p +:+ "?" +:+ old) (Some opts)
     = addQueryOptions p (Some opts))
  /\ (forall earlier,
        addQueryOptions (fst (addQueryOptions p (Some earlier))) (Some opts)
        = addQueryOptions p (Some opts)).
Proof.
  intros Hp.
  assert (Hgen : forall old,
            lacks "?" old -> lacks "#" old ->
            url.stringContainsCTLByte old = false ->
            addQueryOptions (p +:+ queryPart old) (Some opts)
            = addQueryOptions p (Some opts)).
  { intros old H1 H2 H3. rewrite (addQueryOptions_unreserved p opts Hp).
    unfold addQueryOptions.
    change (query.Values (Some opts))
      with (inr (optionValues opts) : result url.Values).
    cbv iota. rewrite (Parse_relative_query p old Hp H1 H2 H3).
    rewrite Encode_optionValues. unfold url.withRawQuery.
    cbn [url.Scheme url.Opaque url.User url.Host url.Path url.RawPath
           url.OmitHost url.ForceQuery url.RawQuery url.Fragment
           url.RawFragment].
    now rewrite String_relative. }
  split.
  - intros old Hne H1 H2 H3. destruct old as [|a old]; [congruence|].
    exact (Hgen (String a old) H1 H2 H3).
  - intros earlier. rewrite (addQueryOptions_unreserved p earlier Hp).
    cbn [fst]. apply Hgen.
    + now apply optionQuery_lacks.
    + now apply optionQuery_lacks.
    + apply optionQuery_noCTL.
Qed.

Lemma addQueryOptions_replaces_query_witness :
  addQueryOptions "list?max=5&x=1" (Some (mkUSDAQueryOptions 0 7 EmptyString))
  = ("list?offset=7", None)
  /\ addQueryOptions
       (fst (addQueryOptions "list" (Some (mkUSDAQueryOptions 5 0 "n"))))
       (Some (mkUSDAQueryOptions 0 7 EmptyString))
     = ("list?offset=7", None).
Proof.
  destruct (addQueryOptions_replaces_query "list"
              (mkUSDAQueryOptions 0 7 EmptyString) eq_refl) as [Hold Hearlier].
  split.
  - exact (Hold "max=5&x=1" ltac:(discriminate) eq_refl eq_refl eq_refl).
  - exact (Hearlier (mkUSDAQueryOptions 5 0 "n")).
Defined.

(** ** Instances of the statements above

    The client of the key [demo123] over a test transport; where a
    report type is needed the list response stands in for it. *)

Lemma operations_dispatch_witness :
  GetList (demoClient (failingTransport io_EOF))
    (context.done context_Canceled) (Some (USDAListReqParams.mk "f"))
    (Some (mkUSDAQueryOptions 25 0 "n")) []
  = (json.zero, Some context_Canceled,
     [builtRequest "demo123" "list" "max=25&sort=n"
        ("{" +:+ qt "lt" +:+ ":" +:+ qt "f" +:+ "}" +:+ newline)
        (context.done context_Canceled)]).
Proof.
  exact (proj1 (operations_dispatch (USDANutrientReport := USDAList.t)
                  (USDAFoodsReport := USDAList.t)
                  (failingTransport io_EOF) "demo123"
                  (Some (failingTransport io_EOF)) _
                  (context.done context_Canceled)
                  (Some (mkUSDAQueryOptions 25 0 "n")) [] eq_refl eq_refl)
           (Some (USDAListReqParams.mk "f"))).
Defined.

Lemma GetListByType_request_witness :
  exists req,
    snd (GetListByType (demoClient (failingTransport io_EOF))
           context.Background "f" []) = [req]
    /\ url.String_ (http.URL req)
       = "https://demo123@api.nal.usda.gov/ndb/list?max=1500&sort=id"
    /\ json.readValue (http.Body req)
       = inr (json.Object [("lt", json.Str "f")], newline).
Proof.
  destruct (GetListByType_request (failingTransport io_EOF) "demo123" None
              (demoClient (failingTransport io_EOF)) context.Background "f" []
              eq_refl eq_refl) as (req & H1 & _ & _ & _ & H5 & H6).
  exists req. split; [exact H1|]. split; [exact H5|exact H6].
Defined.

Lemma GetNutrientsReport_request_witness :
  exists req,
    snd (GetNutrientsReport (USDANutrientReport := USDAList.t)
           (demoClient (failingTransport io_EOF)) context.Background [])
    = [req]
    /\ url.String_ (http.URL req)
       = "https://demo123@api.nal.usda.gov/ndb/nutrients?max=10&sort=c".
Proof.
  destruct (GetNutrientsReport_request (USDANutrientReport := USDAList.t)
              (failingTransport io_EOF) "demo123" None
              (demoClient (failingTransport io_EOF)) context.Background []
              eq_refl eq_refl) as (req & H1 & _ & _ & _ & H5 & _).
  exists req. split; [exact H1|exact H5].
Defined.

Lemma GetFoodNutrientsReport_request_witness :
  exists req,
    snd (GetFoodNutrientsReport (USDANutrientReport := USDAList.t)
           (demoClient (failingTransport io_EOF)) context.Background "01009" [])
    = [req]
    /\ url.String_ (http.URL req)
       = "https://demo123@api.nal.usda.gov/ndb/nutrients?max=100&sort=c"
    /\ json.readValue (http.Body req)
       = inr (json.Object
                [("ndbno", json.Str "01009");
                 ("nutrients", json.Array [json.Str "306"; json.Str "204"])],
              newline).
Proof.
  destruct (GetFoodNutrientsReport_request (USDANutrientReport := USDAList.t)
              (failingTransport io_EOF) "demo123" None
              (demoClient (failingTransport io_EOF)) context.Background
              "01009" [] eq_refl eq_refl) as (req & H1 & _ & _ & _ & H5 & H6).
  exists req. split; [exact H1|]. split; [exact H5|exact H6].
Defined.

Lemma GetBasicFoodReport_request_witness :
  exists req,
    snd (GetBasicFoodReport (USDAFoodsReport := USDAList.t)
           (demoClient (failingTransport io_EOF)) context.Background
           EmptyString [])
    = [req]
    /\ url.String_ (http.URL req)
       = "https://demo123@api.nal.usda.gov/ndb/V2/reports"
    /\ json.readValue (http.Body req)
       = inr (json.Object [("ndbno", json.Array [json.Str EmptyString]);
                           ("type", json.Str "b")], newline).
Proof.
  destruct (GetBasicFoodReport_request (USDAFoodsReport := USDAList.t)
              (failingTransport io_EOF) "demo123" None
              (demoClient (failingTransport io_EOF)) context.Background
              EmptyString [] eq_refl eq_refl)
    as (req & H1 & _ & _ & _ & H5 & H6).
  exists req. split; [exact H1|]. split; [exact H5|exact H6].
Defined.

Lemma GetFoodNameSearch_request_witness :
  exists req,
    snd (GetFoodNameSearch (demoClient (failingTransport io_EOF))
           context.Background EmptyString []) = [req]
    /\ url.String_ (http.URL req)
       = "https://demo123@api.nal.usda.gov/ndb/search?max=100&sort=n"
    /\ json.readValue (http.Body req) = inr (json.Object [], newline).
Proof.
  destruct (GetFoodNameSearch_request (failingTransport io_EOF) "demo123" None
              (demoClient (failingTransport io_EOF)) context.Background
              EmptyString [] eq_refl eq_refl)
    as (req & H1 & _ & _ & _ & H5 & H6).
  exists req. split; [exact H1|]. split; [exact H5|exact H6].
Defined.

Lemma operations_transport_failure_witness :
  let res :=
    GetList (demoClient (failingTransport (errorString "connection refused")))
      context.Background None None [] in
  fst (fst res) = json.zero
  /\ snd (fst res) = Some (errorString "connection refused").
Proof.
  exact (proj1 (operations_transport_failure
                  (USDANutrientReport := USDAList.t)
                  (USDAFoodsReport := USDAList.t)
                  (demoClient (failingTransport
                                 (errorString "connection refused")))
                  context.Background None []
                  (errorString "connection refused"))
           None _ _ (bareListRequest context.Background) eq_refl eq_refl).
Defined.

Lemma operations_blank_body_witness :
  let res :=
    GetList (demoClient (cannedTransport 204 newline))
      context.Background None None [] in
  fst (fst res) = json.zero /\ snd (fst res) = Some io_EOF.
Proof.
  exact (proj1 (operations_blank_body
                  (USDANutrientReport := USDAList.t)
                  (USDAFoodsReport := USDAList.t)
                  (demoClient (cannedTransport 204 newline))
                  context.Background None []
                  (http.mkResponse 204 ∅ newline) eq_refl)
           None _ _ (bareListRequest context.Background) eq_refl eq_refl).
Defined.

Lemma operations_non_json_body_witness :
  let res :=
    GetList (demoClient (cannedTransport 502 "<html>Bad Gateway</html>"))
      context.Background None None [] in
  fst (fst res) = json.zero
  /\ exists msg, snd (fst res) = Some (SyntaxError msg).
Proof.
  exact (proj1 (operations_non_json_body
                  (USDANutrientReport := USDAList.t)
                  (USDAFoodsReport := USDAList.t)
                  (demoClient (cannedTransport 502 "<html>Bad Gateway</html>"))
                  context.Background None []
                  (http.mkResponse 502 ∅ "<html>Bad Gateway</html>")
                  "<" "html>Bad Gateway</html>" eq_refl eq_refl)
           None _ _ (bareListRequest context.Background) eq_refl eq_refl).
Defined.

Lemma operations_nil_params_witness :
  exists req,
    snd (GetList (demoClient (failingTransport io_EOF)) context.Background
           None (Some (mkUSDAQueryOptions 5 0 EmptyString)) [])
    = [req]
    /\ http.Body req = "null" +:+ newline.
Proof.
  destruct (proj1 (operations_nil_params (USDANutrientReport := USDAList.t)
                     (USDAFoodsReport := USDAList.t)
                     (failingTransport io_EOF) "demo123" None
                     (demoClient (failingTransport io_EOF)) context.Background
                     (Some (mkUSDAQueryOptions 5 0 EmptyString)) []
                     eq_refl eq_refl)) as (req & H1 & H2 & _).
  exists req. split; [exact H1|exact H2].
Defined.

Lemma list_key_missing_witness :
  let res :=
    GetList (demoClient (cannedTransport 400 errorReportBody))
      context.Background None None [] in
  fst (fst res) = json.zero /\ snd (fst res) = None.
Proof.
  refine (proj1 (list_key_missing
                   (demoClient (cannedTransport 400 errorReportBody))
                   context.Background None []
                   (http.mkResponse 400 ∅ errorReportBody)
                   (json.Object
                      [("errors",
                        json.Object
                          [("error",
                            json.Array
                              [json.Object [("status", json.Number "400")]])])])
                   EmptyString eq_refl _)
            None _ _ (bareListRequest context.Background) eq_refl eq_refl).
  right. eexists. split; [reflexivity|].
  intros m [<-|[]]. discriminate.
Defined.

Lemma operations_slash_key_witness :
  exists c req,
    NewClient (failingTransport io_EOF) "example.org/k" None = returned c
    /\ snd (GetList c context.Background None None []) = [req]
    /\ http.Host req = "example.org".
Proof.
  eexists.
  destruct (proj1 (operations_slash_key (USDANutrientReport := USDAList.t)
                     (USDAFoodsReport := USDAList.t)
                     (failingTransport io_EOF) "example.org" "k" None _
                     context.Background None [] eq_refl eq_refl eq_refl) None)
    as (req & H1 & H2 & _).
  exists req. split; [reflexivity|]. split; [exact H1|exact H2].
Defined.

(** ** Decimal numbers written and read *)

Lemma digitsValue_acc d acc :
  strconv.digitsValue (Zpos acc) (NilEmpty.string_of_uint d)
  = Some (Zpos (Pos.of_uint_acc d acc)).
Proof.
  revert acc. induction d as [|d IH|d IH|d IH|d IH|d IH|d IH|d IH|d IH|d IH|d IH];
    intros acc; [reflexivity|..];
    cbn [NilEmpty.string_of_uint strconv.digitsValue Pos.of_uint_acc];
    match goal with |- context [isDigit ?c] => change (isDigit c) with true end;
    cbv iota; rewrite <- IH; f_equal;
    match goal with
    | |- context [code ?c - 48] =>
        let v := eval vm_compute in (Z.of_N (code c - 48)) in
        change (Z.of_N (code c - 48)) with v
    end; lia.
Qed.

Lemma digitsValue_uint d :
  strconv.digitsValue 0 (NilEmpty.string_of_uint d)
  = Some (Z.of_N (Pos.of_uint d)).
Proof.
  induction d as [|d IH|d IH|d IH|d IH|d IH|d IH|d IH|d IH|d IH|d IH];
    [reflexivity|exact IH|..];
    cbn [NilEmpty.string_of_uint strconv.digitsValue Pos.of_uint];
    match goal with |- context [isDigit ?c] => change (isDigit c) with true end;
    cbv iota;
    match goal with
    | |- context [code ?c - 48] =>
        let v := eval vm_compute in (0 * 10 + Z.of_N (code c - 48))%Z in
        change (0 * 10 + Z.of_N (code c - 48))%Z with v
    end; apply digitsValue_acc.
Qed.

Lemma string_of_uint_digits d :
  url.allDigits (NilEmpty.string_of_uint d) = true.
Proof.
  induction d; [reflexivity|..];
    cbn [NilEmpty.string_of_uint]; exact IHd.
Qed.

Lemma string_of_uint_head d :
  d <> Decimal.Nil ->
  exists c r, NilEmpty.string_of_uint d = String c r /\ isDigit c = true.
Proof.
  destruct d; [congruence|..]; intros _; cbn [NilEmpty.string_of_uint];
    eexists; eexists; (split; [reflexivity|reflexivity]).
Qed.

Lemma string_of_uint_NilZero d :
  d <> Decimal.Nil -> NilZero.string_of_uint d = NilEmpty.string_of_uint d.
Proof. destruct d; [congruence|reflexivity..]. Qed.

Lemma unorm_D0 d d' : Decimal.unorm d = Decimal.D0 d' -> d' = Decimal.Nil.
Proof.
  induction d; cbn [Decimal.unorm]; try discriminate; try (now intros [= <-]).
  exact IHd.
Qed.

Lemma to_uint_unorm p : Decimal.unorm (Pos.to_uint p) = Pos.to_uint p.
Proof.
  pose proof (DecimalPos.Unsigned.to_of (Pos.to_uint p)) as H.
  rewrite DecimalPos.Unsigned.of_to in H. symmetry. exact H.
Qed.

(** The decimal digits of a positive number: no leading zero. *)
Lemma to_uint_head p :
  exists c r,
    NilEmpty.string_of_uint (Pos.to_uint p) = String c r
    /\ isDigit c = true /\ Ascii.eqb c "0" = false
    /\ url.allDigits r = true.
Proof.
  pose proof (to_uint_unorm p) as Hn.
  pose proof (DecimalPos.Unsigned.to_uint_nonzero p) as Hz.
  pose proof (string_of_uint_digits (Pos.to_uint p)) as Hd.
  destruct (Pos.to_uint p) as [|d|d|d|d|d|d|d|d|d|d] eqn:E;
    [exfalso; now apply (DecimalPos.Unsigned.to_uint_nonnil p)|..];
    cbn [NilEmpty.string_of_uint] in *;
    try (eexists; eexists; split; [reflexivity|];
         split; [reflexivity|]; split; [reflexivity|exact Hd]).
  exfalso. cbn [Decimal.unorm] in Hn.
  pose proof (unorm_D0 d d Hn) as ->. now apply Hz.
Qed.

Lemma ParseInt_Itoa i :
  (- 2 ^ 63 <= i < 2 ^ 63)%Z -> strconv.ParseInt (strconv.Itoa i) = Some i.
Proof.
  intros Hi. unfold strconv.Itoa. destruct i as [|p|p].
  - reflexivity.
  - cbn [Z.to_int NilZero.string_of_int].
    rewrite string_of_uint_NilZero
      by apply DecimalPos.Unsigned.to_uint_nonnil.
    destruct (to_uint_head p) as (c & r & Hs & Hc & H0 & Hr).
    unfold strconv.ParseInt.
    pose proof (digitsValue_uint (Pos.to_uint p)) as Hv.
    rewrite DecimalPos.Unsigned.of_to in Hv. rewrite Hs in *.
    assert (Hm : Ascii.eqb c "-" = false)
      by (now apply (eqb_false_of isDigit)).
    assert (Hp : Ascii.eqb c "+" = false)
      by (now apply (eqb_false_of isDigit)).
    rewrite Hm, Hp, Hv. cbn [Z.of_N].
    destruct ((- 2 ^ 63 <=? Z.pos p) && (Z.pos p <? 2 ^ 63))%Z eqn:E;
      [reflexivity|].
    apply andb_false_iff in E as [E|E]; [apply Z.leb_gt in E|apply Z.ltb_ge in E];
      lia.
  - cbn [Z.to_int NilZero.string_of_int].
    rewrite string_of_uint_NilZero
      by apply DecimalPos.Unsigned.to_uint_nonnil.
    destruct (to_uint_head p) as (c & r & Hs & Hc & H0 & Hr).
    unfold strconv.ParseInt. rewrite Ascii.eqb_refl.
    pose proof (digitsValue_uint (Pos.to_uint p)) as Hv.
    rewrite DecimalPos.Unsigned.of_to in Hv. rewrite Hs in *.
    rewrite Hv. cbn [Z.of_N]. change (- Z.pos p)%Z with (Z.neg p).
    destruct ((- 2 ^ 63 <=? Z.neg p) && (Z.neg p <? 2 ^ 63))%Z eqn:E;
      [reflexivity|].
    apply andb_false_iff in E as [E|E]; [apply Z.leb_gt in E|apply Z.ltb_ge in E];
      lia.
Qed.

Lemma spanDigits_all d rest :
  url.allDigits d = true -> endsNumber rest = true ->
  json.spanDigits (d +:+ rest) = (d, rest).
Proof.
  intros Hd Hr. induction d as [|c d IH].
  - cbn [String.append]. destruct rest as [|a r]; [reflexivity|].
    cbn [json.spanDigits]. cbn [endsNumber] in Hr.
    apply negb_true_iff in Hr. apply orb_false_iff in Hr as [Hr _].
    apply orb_false_iff in Hr as [Hr _]. apply orb_false_iff in Hr as [Hr _].
    now rewrite Hr.
  - cbn [url.allDigits] in Hd. apply andb_true_iff in Hd as [Hc Hd].
    cbn [String.append json.spanDigits]. now rewrite Hc, (IH Hd).
Qed.

Lemma endsNumber_cases rest :
  endsNumber rest = true ->
  match rest with
  | EmptyString => True
  | String c _ =>
      Ascii.eqb c "." = false /\ Ascii.eqb c "e" = false
      /\ Ascii.eqb c "E" = false
  end.
Proof.
  destruct rest as [|c r]; [trivial|]. cbn [endsNumber]. intros Hr.
  apply negb_true_iff in Hr. apply orb_false_iff in Hr as [Hr H3].
  apply orb_false_iff in Hr as [Hr H2]. apply orb_false_iff in Hr as [_ H1].
  auto.
Qed.

Lemma scanNumber_tail rest :
  endsNumber rest = true ->
  forall sign int,
    (try (frac, s3) <-
       match rest with
       | String c r =>
           if Ascii.eqb c "." then
             let '(d, t) := json.spanDigits r in
             if (String.length d =? 0)%nat then inl (json.badNumber t)
             else inr (String c d, t)
           else inr (EmptyString, rest)
       | EmptyString => inr (EmptyString, rest)
       end in
     try (exp, s4) <-
       match s3 with
       | String c r =>
           if Ascii.eqb c "e" || Ascii.eqb c "E" then
             let '(sg, r1) :=
               match r with
               | String g r' =>
                   if Ascii.eqb g "+" || Ascii.eqb g "-"
                   then (String g EmptyString, r') else (EmptyString, r)
               | EmptyString => (EmptyString, r)
               end in
             let '(d, t) := json.spanDigits r1 in
             if (String.length d =? 0)%nat then inl (json.badNumber t)
             else inr (String c (sg +:+ d), t)
           else inr (EmptyString, s3)
       | EmptyString => inr (EmptyString, s3)
       end in
     inr (sign +:+ int +:+ frac +:+ exp, s4))
    = (inr (sign +:+ int, rest) : result (string * string)).
Proof.
  intros Hr sign int. pose proof (endsNumber_cases rest Hr) as Hc.
  destruct rest as [|c r].
  - cbn [bind]. change ("" +:+ "") with EmptyString.
    now rewrite append_empty_r.
  - destruct Hc as (H1 & H2 & H3). rewrite H1. cbn [bind].
    rewrite H2, H3. cbn [orb]. cbv iota. cbn [bind].
    change ("" +:+ "") with EmptyString. now rewrite append_empty_r.
Qed.

(** The number literal [Itoa i] at the head of a text is scanned whole. *)
Lemma scanNumber_Itoa i rest :
  endsNumber rest = true ->
  json.scanNumber (strconv.Itoa i +:+ rest) = inr (strconv.Itoa i, rest).
Proof.
  intros Hr. unfold strconv.Itoa. destruct i as [|p|p].
  - change (NilZero.string_of_int (Z.to_int 0)) with "0".
    unfold json.scanNumber. cbn [String.append].
    change (Ascii.eqb "0" "-") with false. cbv iota.
    rewrite Ascii.eqb_refl. cbn [bind].
    apply (scanNumber_tail rest Hr EmptyString "0").
  - cbn [Z.to_int NilZero.string_of_int].
    rewrite string_of_uint_NilZero
      by apply DecimalPos.Unsigned.to_uint_nonnil.
    destruct (to_uint_head p) as (c & r & -> & Hc & H0 & Hd).
    unfold json.scanNumber. cbn [String.append].
    rewrite (eqb_false_of isDigit c "-" Hc eq_refl), H0, Hc.
    rewrite (spanDigits_all r rest Hd Hr). cbn [bind].
    apply (scanNumber_tail rest Hr EmptyString (String c r)).
  - cbn [Z.to_int NilZero.string_of_int].
    rewrite string_of_uint_NilZero
      by apply DecimalPos.Unsigned.to_uint_nonnil.
    destruct (to_uint_head p) as (c & r & -> & Hc & H0 & Hd).
    unfold json.scanNumber. cbn [String.append].
    rewrite Ascii.eqb_refl, H0, Hc.
    rewrite (spanDigits_all r rest Hd Hr). cbn [bind].
    apply (scanNumber_tail rest Hr "-" (String c r)).
Qed.

(** The first byte of [Itoa i]. *)
Lemma Itoa_head i :
  exists c r,
    strconv.Itoa i = String c r /\ (Ascii.eqb c "-" || isDigit c) = true.
Proof.
  unfold strconv.Itoa. destruct i as [|p|p].
  - exists "0"%char, EmptyString. split; reflexivity.
  - cbn [Z.to_int NilZero.string_of_int].
    rewrite string_of_uint_NilZero
      by apply DecimalPos.Unsigned.to_uint_nonnil.
    destruct (to_uint_head p) as (c & r & -> & Hc & _).
    exists c, r. split; [reflexivity|]. now rewrite Hc, orb_true_r.
  - cbn [Z.to_int NilZero.string_of_int].
    eexists. eexists. split; reflexivity.
Qed.

Lemma isItoa_spec lit :
  isItoa lit = true -> exists i, lit = strconv.Itoa i.
Proof.
  unfold isItoa. destruct (strconv.ParseInt lit) as [i|]; [|discriminate].
  intros E. apply String.eqb_eq in E. now exists i.
Qed.

Lemma isItoa_Itoa i :
  (- 2 ^ 63 <= i < 2 ^ 63)%Z -> isItoa (strconv.Itoa i) = true.
Proof.
  intros Hi. unfold isItoa. rewrite (ParseInt_Itoa i Hi).
  apply String.eqb_refl.
Qed.

Lemma encodeValue_opens v :
  intsOnly v = true ->
  exists c t, json.encodeValue v = String c t /\ opensAny c = true.
Proof.
  destruct v as [ |[|]|lit|s|elems|members]; cbn [json.encodeValue intsOnly];
    intros Hi; try (eexists; eexists; split; reflexivity).
  destruct (isItoa_spec lit Hi) as [i ->].
  destruct (Itoa_head i) as (c & r & -> & Hc).
  exists c, r. split; [reflexivity|]. unfold opensAny.
  apply orb_true_iff in Hc as [-> | ->]; now rewrite ?orb_true_r.
Qed.

Lemma opensAny_plain c :
  opensAny c = true ->
  json.isSpace c = false /\ Ascii.eqb c "]" = false /\ Ascii.eqb c "}" = false.
Proof.
  revert c.
  assert (H : forall c, opensAny c = true ->
                negb (json.isSpace c) && negb (Ascii.eqb c "]")
                && negb (Ascii.eqb c "}") = true)
    by (apply byte_implies; vm_compute; reflexivity).
  intros c Hc. specialize (H c Hc).
  apply andb_true_iff in H as [H H3]. apply andb_true_iff in H as [H1 H2].
  now apply negb_true_iff in H1, H2, H3.
Qed.

Lemma parseValue_number i rest f :
  endsNumber rest = true ->
  json.parseValue (S f) (strconv.Itoa i +:+ rest)
  = inr (json.Number (strconv.Itoa i), rest).
Proof.
  intros Hr. pose proof (scanNumber_Itoa i rest Hr) as Hs.
  destruct (Itoa_head i) as (c & r & E & Hc). rewrite E in *.
  assert (Ho : opensAny c = true).
  { unfold opensAny. apply orb_true_iff in Hc as [-> | ->];
      now rewrite ?orb_true_r. }
  destruct (opensAny_plain c Ho) as (Hsp & _).
  assert (Hx : Ascii.eqb c "{" = false /\ Ascii.eqb c "[" = false
               /\ Ascii.eqb c json.dquote = false).
  { clear - Hc. revert c Hc.
    assert (H : forall c, (Ascii.eqb c "-" || isDigit c) = true ->
                  negb (Ascii.eqb c "{") && negb (Ascii.eqb c "[")
                  && negb (Ascii.eqb c json.dquote) = true)
      by (apply byte_implies; vm_compute; reflexivity).
    intros c Hc. specialize (H c Hc).
    apply andb_true_iff in H as [H H3]. apply andb_true_iff in H as [H1 H2].
    now apply negb_true_iff in H1, H2, H3. }
  destruct Hx as (H1 & H2 & H3).
  cbn [String.append json.parseValue json.skipSpace].
  rewrite Hsp, H1, H2, H3, Hc.
  change (String c (r +:+ rest)) with (String c r +:+ rest).
  now rewrite Hs.
Qed.

Lemma parseElems_ints elems :
  Forall readsBackInts elems -> forallb intsOnly elems = true -> elems <> [] ->
  forall fuel rest,
    (String.length (str.Join (List.map json.encodeValue elems) ",") + 1 < fuel)%nat ->
    json.parseElems fuel
      (str.Join (List.map json.encodeValue elems) "," +:+ String "]" rest)
    = inr (List.map sanitize elems, rest).
Proof.
  induction 1 as [|x l Hx Hl IH]; [congruence|].
  cbn [forallb]. intros Hnf _ fuel rest Hfuel.
  apply andb_true_iff in Hnf as [Hnx Hnl].
  destruct fuel as [|f]; [lia|].
  destruct l as [|y l'].
  - cbn [List.map str.Join] in *. cbn [json.parseElems].
    rewrite (Hx Hnx f (String "]" rest)) by (lia || reflexivity).
    reflexivity.
  - rewrite List.map_cons, (List.map_cons _ y), Join_cons2 in *.
    rewrite !length_append in Hfuel. cbn [String.length] in Hfuel.
    rewrite !append_assoc. cbn [json.parseElems].
    rewrite (Hx Hnx f) by (lia || reflexivity).
    cbn [bind String.append json.skipSpace].
    change (json.isSpace ",") with false. cbv iota.
    change (Ascii.eqb "," "]") with false. cbv iota.
    change (Ascii.eqb "," ",") with true. cbv iota.
    rewrite (IH Hnl ltac:(discriminate) f rest) by lia.
    reflexivity.
Qed.

Lemma parseMembers_ints members :
  Forall (fun m => readsBackInts (snd m)) members ->
  forallb (fun m => intsOnly (snd m)) members = true -> members <> [] ->
  forall fuel rest,
    (String.length (str.Join (List.map encodeMember members) ",") + 1 < fuel)%nat ->
    json.parseMembers fuel
      (str.Join (List.map encodeMember members) "," +:+ String "}" rest)
    = inr (List.map sanitizeMember members, rest).
Proof.
  induction 1 as [|[k v] l Hv Hl IH]; [congruence|].
  cbn [forallb snd] in *. intros Hnf _ fuel rest Hfuel.
  apply andb_true_iff in Hnf as [Hnv Hnl].
  destruct fuel as [|f]; [lia|].
  assert (Hone : forall t,
    (String.length (json.encodeValue v) < f)%nat ->
    endsNumber t = true ->
    json.parseMembers (S f) (encodeMember (k, v) +:+ t)
    = (try (v', r3) <- (inr (sanitize v, t) : result (json.value * string)) in
       match json.skipSpace r3 with
       | EmptyString => inl io_ErrUnexpectedEOF
       | String c4 r4 =>
           if Ascii.eqb c4 "}" then inr ([(utf8.coerce k, v')], r4)
           else if Ascii.eqb c4 "," then
             try (ms, r5) <- json.parseMembers f (json.skipSpace r4) in
             inr ((utf8.coerce k, v') :: ms, r5)
           else inl (SyntaxError
                       "invalid character after object key:value pair")
       end)).
  { intros t Hlen Hend. unfold encodeMember. cbn [fst snd].
    rewrite !append_assoc, quote_append. cbn [json.parseMembers].
    rewrite Ascii.eqb_refl. cbn [negb].
    rewrite unquote_quoted. cbn [bind String.append json.skipSpace].
    change (json.isSpace ":") with false. cbv iota.
    rewrite Ascii.eqb_refl. cbn [negb].
    rewrite (Hv Hnv f t Hlen (fun _ => Hend)). reflexivity. }
  destruct l as [|m' l'].
  - cbn [List.map str.Join] in *.
    assert (Hlen : (String.length (json.encodeValue v) < f)%nat).
    { unfold encodeMember in Hfuel. cbn [fst snd] in Hfuel.
      rewrite !length_append in Hfuel. lia. }
    rewrite Hone; [reflexivity|exact Hlen|reflexivity].
  - rewrite List.map_cons, (List.map_cons _ m'), Join_cons2 in *.
    assert (Hlen : (String.length (json.encodeValue v) < f)%nat).
    { unfold encodeMember in Hfuel at 1. cbn [fst snd] in Hfuel.
      rewrite !length_append in Hfuel. lia. }
    rewrite !append_assoc, Hone; [|exact Hlen|reflexivity].
    cbn [bind String.append json.skipSpace].
    change (json.isSpace ",") with false. cbv iota.
    change (Ascii.eqb "," "}") with false. cbv iota.
    change (Ascii.eqb "," ",") with true. cbv iota.
    rewrite <- (List.map_cons encodeMember m' l'), skipSpace_members.
    rewrite (List.map_cons encodeMember m' l').
    rewrite (IH Hnl ltac:(discriminate) f rest).
    + reflexivity.
    + rewrite !length_append in Hfuel. cbn [String.length] in Hfuel. lia.
Qed.

(** A value with strings and [int] literals, written by the encoder,
    is read back by the parser; a number needs a text after it that
    does not continue the literal. *)
Lemma parseValue_ints v : readsBackInts v.
Proof.
  induction v as [ |b|lit|s|elems IH|members IH] using value_ind';
    intros Hnf fuel rest Hfuel Hend;
    (destruct fuel as [|f]; [lia|]).
  - reflexivity.
  - destruct b; reflexivity.
  - cbn [intsOnly] in Hnf. destruct (isItoa_spec lit Hnf) as [i ->].
    cbn [json.encodeValue sanitize].
    apply parseValue_number. now apply Hend.
  - cbn [json.encodeValue sanitize]. rewrite quote_append.
    cbn [json.parseValue json.skipSpace].
    change (json.isSpace json.dquote) with false. cbv iota.
    change (Ascii.eqb json.dquote "{") with false.
    change (Ascii.eqb json.dquote "[") with false. cbv iota.
    rewrite Ascii.eqb_refl, unquote_quoted. reflexivity.
  - cbn [json.encodeValue sanitize intsOnly] in *.
    destruct elems as [|x l]; [reflexivity|].
    rewrite !length_append in Hfuel. cbn [String.length] in Hfuel.
    destruct (encodeValue_opens x) as (c & t & Hc & Hopen).
    { cbn [forallb] in Hnf. now apply andb_true_iff in Hnf as [? _]. }
    destruct (opensAny_plain c Hopen) as (Hsp & Hclose & _).
    assert (Hjoin : exists t', str.Join (List.map json.encodeValue (x :: l)) ","
                               = String c t').
    { destruct l; cbn [List.map str.Join]; rewrite Hc; simpl; eauto. }
    destruct Hjoin as [t' Hjoin].
    rewrite !append_assoc. cbn [String.append].
    rewrite Hjoin at 1. cbn [String.append].
    rewrite (parseValue_array c _ f Hsp Hclose).
    change (String c (t' +:+ String "]" rest))
      with (String c t' +:+ String "]" rest).
    rewrite <- Hjoin.
    rewrite (parseElems_ints (x :: l) IH Hnf ltac:(discriminate) f rest)
      by lia.
    reflexivity.
  - cbn [json.encodeValue sanitize intsOnly] in *.
    destruct members as [|m l]; [reflexivity|].
    rewrite !length_append in Hfuel. cbn [String.length] in Hfuel.
    change (fun m0 : string * json.value =>
              json.quote (fst m0) +:+ ":" +:+ json.encodeValue (snd m0))
      with encodeMember in *.
    change (fun m0 : string * json.value =>
              (utf8.coerce (fst m0), sanitize (snd m0)))
      with sanitizeMember.
    destruct (members_head m l) as [t' Hjoin].
    rewrite !append_assoc. cbn [String.append].
    rewrite Hjoin at 1. cbn [String.append].
    rewrite (parseValue_object json.dquote _ f eq_refl eq_refl).
    change (String json.dquote (t' +:+ String "}" rest))
      with (String json.dquote t' +:+ String "}" rest).
    rewrite <- Hjoin.
    rewrite (parseMembers_ints (m :: l) IH Hnf ltac:(discriminate) f rest)
      by lia.
    reflexivity.
Qed.

(** The same for a whole body: an object written by the encoder and
    followed by any text. *)
Lemma readValue_object_ints members rest :
  intsOnly (json.Object members) = true ->
  json.readValue (json.encodeValue (json.Object members) +:+ rest)
  = inr (sanitize (json.Object members), rest).
Proof.
  intros Hnf. unfold json.readValue.
  pose proof (parseValue_ints (json.Object members) Hnf
                (S (String.length (json.encodeValue (json.Object members)
                                   +:+ rest))) rest) as Hread.
  cbn [json.encodeValue] in *. cbn [String.append json.skipSpace] in *.
  change (json.isSpace "{") with false. cbv iota.
  apply Hread; [|discriminate].
  cbn [String.length]. rewrite !length_append. cbn [String.length]. lia.
Qed.

Lemma isInt_range i : isInt i = true -> (- 2 ^ 63 <= i < 2 ^ 63)%Z.
Proof.
  unfold isInt. intros H. apply andb_true_iff in H as [H1 H2].
  apply Z.leb_le in H1. apply Z.ltb_lt in H2. lia.
Qed.

Lemma unmarshal_int i old :
  isInt i = true ->
  json.unmarshal (json.Number (strconv.Itoa i)) old = (i, None).
Proof.
  intros Hi. cbn [json.unmarshal json.int_Unmarshaler].
  now rewrite (ParseInt_Itoa i (isInt_range i Hi)).
Qed.

Lemma unmarshal_string s (old : string) :
  json.unmarshal (json.Str s) old = (s, None).
Proof. reflexivity. Qed.

Lemma sanitize_listItem it :
  validListItem it = true ->
  sanitize (json.marshal it)
  = json.Object [("offset", json.Number (strconv.Itoa (USDAList.Offset it)));
                 ("id", json.Str (USDAList.ID it));
                 ("name", json.Str (USDAList.Name it))].
Proof.
  destruct it as [o id nm]. unfold validListItem.
  cbn [USDAList.Offset USDAList.ID USDAList.Name]. intros H.
  apply andb_true_iff in H as [H H3]. apply andb_true_iff in H as [H1 H2].
  cbn [json.marshal USDAList_item_Marshaler USDAList.Offset USDAList.ID
         USDAList.Name].
  unfold json.member. cbn [andb app sanitize List.map fst snd
                             json.marshal int_Marshaler json.string_Marshaler].
  rewrite (coerce_valid id H2), (coerce_valid nm H3).
  reflexivity.
Qed.

Lemma unmarshal_listItem it :
  validListItem it = true ->
  json.unmarshal (sanitize (json.marshal it)) json.zero = (it, None).
Proof.
  intros Hv. rewrite (sanitize_listItem it Hv).
  destruct it as [o id nm]. unfold validListItem in Hv.
  cbn [USDAList.Offset USDAList.ID USDAList.Name] in *.
  apply andb_true_iff in Hv as [Hv _]. apply andb_true_iff in Hv as [H1 _].
  pose proof (unmarshal_int o 0%Z H1) as Ho.
  cbn. cbn in Ho. rewrite Ho. reflexivity.
Qed.

Lemma fold_unmarshal_listItems l acc :
  forallb validListItem l = true ->
  fold_left
    (fun (acc : list USDAList.item * option error) x =>
       let '(t, e) := json.unmarshal x json.zero in
       (fst acc ++ [t], json.saveError (snd acc) e))
    (List.map sanitize (List.map json.marshal l)) (acc, None)
  = (acc ++ l, None).
Proof.
  remember (fun (acc : list USDAList.item * option error) x =>
              let '(t, e) := json.unmarshal x json.zero in
              (fst acc ++ [t], json.saveError (snd acc) e)) as step eqn:Hstep.
  revert acc. induction l as [|it l IH]; intros acc Hv.
  - cbn [List.map fold_left]. now rewrite app_nil_r.
  - cbn [forallb] in Hv. apply andb_true_iff in Hv as [Hit Hl].
    cbn [List.map fold_left].
    assert (step (acc, None) (sanitize (json.marshal it))
            = (acc ++ [it], None)) as ->.
    { subst step. cbv beta. rewrite (unmarshal_listItem it Hit). reflexivity. }
    rewrite (IH _ Hl). now rewrite <- app_assoc.
Qed.

Lemma unmarshal_listItems (s old : slice USDAList.item) :
  forallb validListItem (items s) = true ->
  json.unmarshal (sanitize (json.marshal s)) old = (s, None).
Proof.
  intros Hv. destruct s as [|l]; [reflexivity|]. cbn [items] in Hv.
  cbn [json.marshal json.slice_Marshaler sanitize].
  change (json.unmarshal
            (json.Array (List.map sanitize (List.map json.marshal l))) old)
    with (let '(l0, err) :=
            fold_left
              (fun (acc : list USDAList.item * option error) x =>
                 let '(t, e) := json.unmarshal x json.zero in
                 (fst acc ++ [t], json.saveError (snd acc) e))
              (List.map sanitize (List.map json.marshal l)) ([], None) in
          (Slice l0, err)).
  now rewrite (fold_unmarshal_listItems l [] Hv).
Qed.

(** One member of an object stored into a struct. *)
Ltac eval_eqb :=
  repeat match goal with
         | |- context [String.eqb ?a ?b] =>
             let r := eval vm_compute in (String.eqb a b) in
             change (String.eqb a b) with r
         end.

Lemma object_member {T} type names set k v ms (old t : T) n :
  json.findField names k = Some n ->
  set n v old = (t, None) ->
  json.object type names set (json.Object ((k, v) :: ms)) old
  = json.object type names set (json.Object ms) t.
Proof.
  intros Hf Hs. unfold json.object. cbn [fold_left fst snd].
  now rewrite Hf, Hs.
Qed.

Lemma object_done {T} type names set (old : T) :
  json.object type names set (json.Object []) old = (old, None).
Proof. reflexivity. Qed.

Lemma unmarshal_list_ l :
  validList_ l = true ->
  json.unmarshal (sanitize (json.marshal l)) json.zero = (l, None).
Proof.
  destruct l as [lt st en tot sr so its]. unfold validList_.
  cbn [USDAList.Lt USDAList.Start USDAList.End_ USDAList.Total
         USDAList.Sr USDAList.Sort USDAList.Item].
  intros H.
  apply andb_true_iff in H as [H H7]. apply andb_true_iff in H as [H H6].
  apply andb_true_iff in H as [H H5]. apply andb_true_iff in H as [H H4].
  apply andb_true_iff in H as [H H3]. apply andb_true_iff in H as [H1 H2].
  pose proof (unmarshal_listItems its Nil H7) as Hits.
  pose proof (unmarshal_int st 0%Z H2) as Hst.
  pose proof (unmarshal_int en 0%Z H3) as Hen.
  pose proof (unmarshal_int tot 0%Z H4) as Htot.
  cbn [json.marshal USDAList_list_Marshaler
         USDAList.Lt USDAList.Start USDAList.End_ USDAList.Total
         USDAList.Sr USDAList.Sort USDAList.Item].
  unfold json.member. cbn [andb app sanitize List.map fst snd].
  change (sanitize (json.marshal lt)) with (json.Str (utf8.coerce lt)).
  change (sanitize (json.marshal sr)) with (json.Str (utf8.coerce sr)).
  change (sanitize (json.marshal so)) with (json.Str (utf8.coerce so)).
  change (sanitize (json.marshal st)) with (json.Number (strconv.Itoa st)).
  change (sanitize (json.marshal en)) with (json.Number (strconv.Itoa en)).
  change (sanitize (json.marshal tot)) with (json.Number (strconv.Itoa tot)).
  rewrite (coerce_valid lt H1), (coerce_valid sr H5), (coerce_valid so H6).
  change (utf8.coerce "lt") with "lt". change (utf8.coerce "start") with "start".
  change (utf8.coerce "end") with "end". change (utf8.coerce "total") with "total".
  change (utf8.coerce "sr") with "sr". change (utf8.coerce "sort") with "sort".
  change (utf8.coerce "item") with "item".
  revert Hits. generalize (sanitize (json.marshal its)). intros vits Hits.
  revert Hst. generalize (json.Number (strconv.Itoa st)). intros vst Hst.
  revert Hen. generalize (json.Number (strconv.Itoa en)). intros ven Hen.
  revert Htot. generalize (json.Number (strconv.Itoa tot)). intros vtot Htot.
  unfold json.unmarshal at 1. unfold USDAList.list_Unmarshaler.
  do 7 (erewrite object_member;
        [|vm_compute; reflexivity
         |cbv beta; eval_eqb; cbv iota;
          cbn [USDAList.Lt USDAList.Start USDAList.End_ USDAList.Total
                 USDAList.Sr USDAList.Sort USDAList.Item json.zero];
          rewrite ?Hst, ?Hen, ?Htot, ?Hits; reflexivity]).
  reflexivity.
Qed.

Lemma unmarshal_listResponse u :
  validListResponse u = true ->
  json.unmarshal (sanitize (json.marshal u)) json.zero = (u, None).
Proof.
  destruct u as [l]. intros Hv.
  change (validListResponse (USDAList.mk l)) with (validList_ l) in Hv.
  pose proof (unmarshal_list_ l Hv) as Hl.
  cbn [json.marshal USDAList_Marshaler USDAList.List].
  unfold json.member. cbn [andb app sanitize List.map fst snd].
  change (utf8.coerce "list") with "list".
  revert Hl. generalize (sanitize (json.marshal l)). intros v Hl.
  unfold json.unmarshal at 1. unfold USDAList.unmarshaler.
  erewrite object_member;
    [|vm_compute; reflexivity
     |cbv beta; cbn [USDAList.List json.zero]; rewrite Hl; reflexivity].
  reflexivity.
Qed.

Lemma intsOnly_int i : isInt i = true -> intsOnly (json.marshal i) = true.
Proof. intros Hi. apply isItoa_Itoa, isInt_range, Hi. Qed.

Lemma intsOnly_listItems l :
  forallb validListItem l = true ->
  forallb intsOnly (List.map json.marshal l) = true.
Proof.
  induction l as [|it l IH]; [reflexivity|]. cbn [forallb List.map].
  intros H. apply andb_true_iff in H as [Hit Hl]. rewrite (IH Hl), andb_true_r.
  destruct it as [o id nm]. unfold validListItem in Hit.
  cbn [USDAList.Offset USDAList.ID USDAList.Name] in Hit.
  apply andb_true_iff in Hit as [Hit _]. apply andb_true_iff in Hit as [Ho _].
  cbn [json.marshal USDAList_item_Marshaler USDAList.Offset USDAList.ID
         USDAList.Name].
  unfold json.member. cbn [andb app intsOnly forallb snd].
  now rewrite (intsOnly_int o Ho).
Qed.

Lemma intsOnly_listResponse u :
  validListResponse u = true -> intsOnly (json.marshal u) = true.
Proof.
  destruct u as [[lt st en tot sr so its]]. unfold validListResponse.
  cbn [USDAList.List USDAList.Lt USDAList.Start USDAList.End_ USDAList.Total
         USDAList.Sr USDAList.Sort USDAList.Item].
  intros H.
  apply andb_true_iff in H as [H H7]. apply andb_true_iff in H as [H H6].
  apply andb_true_iff in H as [H H5]. apply andb_true_iff in H as [H H4].
  apply andb_true_iff in H as [H H3]. apply andb_true_iff in H as [H1 H2].
  cbn [json.marshal USDAList_Marshaler USDAList_list_Marshaler
         USDAList.List USDAList.Lt USDAList.Start USDAList.End_ USDAList.Total
         USDAList.Sr USDAList.Sort USDAList.Item].
  unfold json.member. cbn [andb app intsOnly forallb snd].
  cbn [json.marshal USDAList_list_Marshaler
         USDAList.Lt USDAList.Start USDAList.End_ USDAList.Total
         USDAList.Sr USDAList.Sort USDAList.Item].
  unfold json.member. cbn [andb app intsOnly forallb snd].
  rewrite (intsOnly_int st H2), (intsOnly_int en H3), (intsOnly_int tot H4).
  cbn [andb json.marshal json.string_Marshaler intsOnly].
  destruct its as [|l]; [reflexivity|].
  cbn [json.marshal json.slice_Marshaler intsOnly items] in *.
  now rewrite (intsOnly_listItems l H7).
Qed.

(** What the decoder makes of a list response written by the encoder. *)
Lemma Decode_listResponse u rest :
  validListResponse u = true ->
  json.Decode (json.encodeValue (json.marshal u) +:+ rest)
    (json.zero : USDAList.t)
  = (u, None).
Proof.
  intros Hv. unfold json.Decode.
  pose proof (intsOnly_listResponse u Hv) as Hi.
  pose proof (unmarshal_listResponse u Hv) as Hu.
  destruct (json.marshal u) as [ | | | | |members] eqn:E; try discriminate E.
  now rewrite (readValue_object_ints members rest Hi), Hu.
Qed.

Ltac split_andb H :=
  repeat match type of H with
         | (_ && _) = true =>
             let H' := fresh "Hv" in
             apply andb_true_iff in H as [H H']
         end.

Lemma unmarshal_searchItem it :
  validSearchItem it = true ->
  json.unmarshal (sanitize (json.marshal it)) json.zero = (it, None).
Proof.
  destruct it as [o g nm nd ds mn]. unfold validSearchItem.
  cbn [USDASearch.Offset USDASearch.Group USDASearch.Name USDASearch.Ndbno
         USDASearch.Ds USDASearch.Manu].
  intros H. split_andb H.
  pose proof (unmarshal_int o 0%Z H) as Ho.
  cbn [json.marshal USDASearch_item_Marshaler USDASearch.Offset
         USDASearch.Group USDASearch.Name USDASearch.Ndbno USDASearch.Ds
         USDASearch.Manu].
  unfold json.member. cbn [andb app sanitize List.map fst snd].
  change (sanitize (json.marshal o)) with (json.Number (strconv.Itoa o)).
  repeat match goal with
         | |- context [sanitize (json.marshal ?s)] =>
             change (sanitize (json.marshal s)) with (json.Str (utf8.coerce s))
         end.
  rewrite !coerce_valid by (assumption || reflexivity).
  revert Ho. generalize (json.Number (strconv.Itoa o)). intros vo Ho.
  unfold json.unmarshal at 1. unfold USDASearch.item_Unmarshaler.
  do 6 (erewrite object_member;
        [|vm_compute; reflexivity
         |cbv beta; eval_eqb; cbv iota;
          cbn [USDASearch.Offset USDASearch.Group USDASearch.Name
                 USDASearch.Ndbno USDASearch.Ds USDASearch.Manu json.zero];
          rewrite ?Ho; reflexivity]).
  reflexivity.
Qed.

Lemma fold_unmarshal_searchItems l acc :
  forallb validSearchItem l = true ->
  fold_left
    (fun (acc : list USDASearch.item * option error) x =>
       let '(t, e) := json.unmarshal x json.zero in
       (fst acc ++ [t], json.saveError (snd acc) e))
    (List.map sanitize (List.map json.marshal l)) (acc, None)
  = (acc ++ l, None).
Proof.
  remember (fun (acc : list USDASearch.item * option error) x =>
              let '(t, e) := json.unmarshal x json.zero in
              (fst acc ++ [t], json.saveError (snd acc) e)) as step eqn:Hstep.
  revert acc. induction l as [|it l IH]; intros acc Hv.
  - cbn [List.map fold_left]. now rewrite app_nil_r.
  - cbn [forallb] in Hv. apply andb_true_iff in Hv as [Hit Hl].
    cbn [List.map fold_left].
    assert (step (acc, None) (sanitize (json.marshal it))
            = (acc ++ [it], None)) as ->.
    { subst step. cbv beta. rewrite (unmarshal_searchItem it Hit). reflexivity. }
    rewrite (IH _ Hl). now rewrite <- app_assoc.
Qed.

Lemma unmarshal_searchItems (s old : slice USDASearch.item) :
  forallb validSearchItem (items s) = true ->
  json.unmarshal (sanitize (json.marshal s)) old = (s, None).
Proof.
  intros Hv. destruct s as [|l]; [reflexivity|]. cbn [items] in Hv.
  cbn [json.marshal json.slice_Marshaler sanitize].
  change (json.unmarshal
            (json.Array (List.map sanitize (List.map json.marshal l))) old)
    with (let '(l0, err) :=
            fold_left
              (fun (acc : list USDASearch.item * option error) x =>
                 let '(t, e) := json.unmarshal x json.zero in
                 (fst acc ++ [t], json.saveError (snd acc) e))
              (List.map sanitize (List.map json.marshal l)) ([], None) in
          (Slice l0, err)).
  now rewrite (fold_unmarshal_searchItems l [] Hv).
Qed.

Lemma unmarshal_search_ l :
  validSearch_ l = true ->
  json.unmarshal (sanitize (json.marshal l)) json.zero = (l, None).
Proof.
  destruct l as [q sr ds st en tot g so its]. unfold validSearch_.
  cbn [USDASearch.Q USDASearch.Sr USDASearch.Ds_ USDASearch.Start
         USDASearch.End_ USDASearch.Total USDASearch.Group_ USDASearch.Sort
         USDASearch.Item].
  intros H. split_andb H.
  pose proof (unmarshal_searchItems its Nil ltac:(assumption)) as Hits.
  pose proof (unmarshal_int st 0%Z ltac:(assumption)) as Hst.
  pose proof (unmarshal_int en 0%Z ltac:(assumption)) as Hen.
  pose proof (unmarshal_int tot 0%Z ltac:(assumption)) as Htot.
  cbn [json.marshal USDASearch_list_Marshaler
         USDASearch.Q USDASearch.Sr USDASearch.Ds_ USDASearch.Start
         USDASearch.End_ USDASearch.Total USDASearch.Group_ USDASearch.Sort
         USDASearch.Item].
  unfold json.member. cbn [andb app sanitize List.map fst snd].
  change (sanitize (json.marshal st)) with (json.Number (strconv.Itoa st)).
  change (sanitize (json.marshal en)) with (json.Number (strconv.Itoa en)).
  change (sanitize (json.marshal tot)) with (json.Number (strconv.Itoa tot)).
  change (sanitize (json.marshal q)) with (json.Str (utf8.coerce q)).
  change (sanitize (json.marshal sr)) with (json.Str (utf8.coerce sr)).
  change (sanitize (json.marshal ds)) with (json.Str (utf8.coerce ds)).
  change (sanitize (json.marshal g)) with (json.Str (utf8.coerce g)).
  change (sanitize (json.marshal so)) with (json.Str (utf8.coerce so)).
  rewrite !coerce_valid by (assumption || reflexivity).
  revert Hits. generalize (sanitize (json.marshal its)). intros vits Hits.
  revert Hst. generalize (json.Number (strconv.Itoa st)). intros vst Hst.
  revert Hen. generalize (json.Number (strconv.Itoa en)). intros ven Hen.
  revert Htot. generalize (json.Number (strconv.Itoa tot)). intros vtot Htot.
  unfold json.unmarshal at 1. unfold USDASearch.list_Unmarshaler.
  do 9 (erewrite object_member;
        [|vm_compute; reflexivity
         |cbv beta; eval_eqb; cbv iota;
          cbn [USDASearch.Q USDASearch.Sr USDASearch.Ds_ USDASearch.Start
                 USDASearch.End_ USDASearch.Total USDASearch.Group_
                 USDASearch.Sort USDASearch.Item json.zero];
          rewrite ?Hst, ?Hen, ?Htot, ?Hits; reflexivity]).
  reflexivity.
Qed.

Lemma unmarshal_searchResponse u :
  validSearchResponse u = true ->
  json.unmarshal (sanitize (json.marshal u)) json.zero = (u, None).
Proof.
  destruct u as [l]. intros Hv.
  change (validSearchResponse (USDASearch.mk l)) with (validSearch_ l) in Hv.
  pose proof (unmarshal_search_ l Hv) as Hl.
  cbn [json.marshal USDASearch_Marshaler USDASearch.List].
  unfold json.member. cbn [andb app sanitize List.map fst snd].
  change (utf8.coerce "list") with "list".
  revert Hl. generalize (sanitize (json.marshal l)). intros v Hl.
  unfold json.unmarshal at 1. unfold USDASearch.unmarshaler.
  erewrite object_member;
    [|vm_compute; reflexivity
     |cbv beta; cbn [USDASearch.List json.zero]; rewrite Hl; reflexivity].
  reflexivity.
Qed.

Lemma intsOnly_searchItems l :
  forallb validSearchItem l = true ->
  forallb intsOnly (List.map json.marshal l) = true.
Proof.
  induction l as [|it l IH]; [reflexivity|]. cbn [forallb List.map].
  intros H. apply andb_true_iff in H as [Hit Hl]. rewrite (IH Hl), andb_true_r.
  destruct it as [o g nm nd ds mn]. unfold validSearchItem in Hit.
  cbn [USDASearch.Offset USDASearch.Group USDASearch.Name USDASearch.Ndbno
         USDASearch.Ds USDASearch.Manu] in Hit.
  split_andb Hit.
  cbn [json.marshal USDASearch_item_Marshaler USDASearch.Offset
         USDASearch.Group USDASearch.Name USDASearch.Ndbno USDASearch.Ds
         USDASearch.Manu].
  unfold json.member. cbn [andb app intsOnly forallb snd].
  now rewrite (intsOnly_int o Hit).
Qed.

Lemma intsOnly_searchResponse u :
  validSearchResponse u = true -> intsOnly (json.marshal u) = true.
Proof.
  destruct u as [[q sr ds st en tot g so its]].
  unfold validSearchResponse, validSearch_.
  cbn [USDASearch.List USDASearch.Q USDASearch.Sr USDASearch.Ds_
         USDASearch.Start USDASearch.End_ USDASearch.Total USDASearch.Group_
         USDASearch.Sort USDASearch.Item].
  intros H. split_andb H.
  cbn [json.marshal USDASearch_Marshaler USDASearch.List].
  unfold json.member. cbn [andb app intsOnly forallb snd].
  cbn [json.marshal USDASearch_list_Marshaler
         USDASearch.Q USDASearch.Sr USDASearch.Ds_ USDASearch.Start
         USDASearch.End_ USDASearch.Total USDASearch.Group_ USDASearch.Sort
         USDASearch.Item].
  unfold json.member. cbn [andb app intsOnly forallb snd].
  rewrite (intsOnly_int st ltac:(assumption)),
    (intsOnly_int en ltac:(assumption)), (intsOnly_int tot ltac:(assumption)).
  cbn [andb json.marshal json.string_Marshaler intsOnly].
  destruct its as [|l]; [reflexivity|].
  cbn [json.marshal json.slice_Marshaler intsOnly items] in *.
  now rewrite (intsOnly_searchItems l ltac:(assumption)).
Qed.

Lemma Decode_searchResponse u rest :
  validSearchResponse u = true ->
  json.Decode (json.encodeValue (json.marshal u) +:+ rest)
    (json.zero : USDASearch.t)
  = (u, None).
Proof.
  intros Hv. unfold json.Decode.
  pose proof (intsOnly_searchResponse u Hv) as Hi.
  pose proof (unmarshal_searchResponse u Hv) as Hu.
  destruct (json.marshal u) as [ | | | | |members] eqn:E; try discriminate E.
  now rewrite (readValue_object_ints members rest Hi), Hu.
Qed.

(** ** Well-formed responses *)

(** A list response as a Go server writes it (the encoding of a
    [USDAList] with numbers within [int] and strings of valid UTF-8,
    followed by any text) makes [GetList] return that very value and no
    error, whatever the status code is. *)
Theorem GetList_decodes c ctx params opts w u rest r v err req :
  validListResponse u = true ->
  http.respBody r = json.encodeValue (json.marshal u) +:+ rest ->
  GetList c ctx params opts w = (v, err, w ++ [req]) ->
  http.Do (httpClient c) req = inr r ->
  v = u /\ err = None.
Proof.
  intros Hv Hbody Hr Hdo. rewrite GetList_result in Hr.
  pose proof (operationResult_response _ _ _ _ _ _ _ _ _ Hr Hdo) as Hd.
  rewrite Hbody, (Decode_listResponse u rest Hv) in Hd. now injection Hd.
Qed.

Lemma GetList_decodes_witness :
  let body := json.encodeValue (json.marshal sampleList) +:+ newline in
  let res :=
    GetList (demoClient (cannedTransport 200 body)) context.Background
      None None [] in
  fst (fst res) = sampleList /\ snd (fst res) = None.
Proof.
  exact (GetList_decodes
           (demoClient
              (cannedTransport 200
                 (json.encodeValue (json.marshal sampleList) +:+ newline)))
           context.Background None None [] sampleList newline
           (http.mkResponse 200 ∅
              (json.encodeValue (json.marshal sampleList) +:+ newline))
           _ _ (bareListRequest context.Background)
           ltac:(vm_compute; reflexivity) eq_refl
           ltac:(vm_compute; reflexivity) ltac:(vm_compute; reflexivity)).
Defined.

(** The same for [GetUSDASearch] and a search response. *)
Theorem GetUSDASearch_decodes c ctx params opts w u rest r v err req :
  validSearchResponse u = true ->
  http.respBody r = json.encodeValue (json.marshal u) +:+ rest ->
  GetUSDASearch c ctx params opts w = (v, err, w ++ [req]) ->
  http.Do (httpClient c) req = inr r ->
  v = u /\ err = None.
Proof.
  intros Hv Hbody Hr Hdo. rewrite GetUSDASearch_result in Hr.
  pose proof (operationResult_response _ _ _ _ _ _ _ _ _ Hr Hdo) as Hd.
  rewrite Hbody, (Decode_searchResponse u rest Hv) in Hd. now injection Hd.
Qed.

Lemma GetUSDASearch_decodes_witness :
  let body := json.encodeValue (json.marshal sampleSearch) in
  let res :=
    GetUSDASearch (demoClient (cannedTransport 200 body)) context.Background
      None None [] in
  fst (fst res) = sampleSearch /\ snd (fst res) = None.
Proof.
  exact (GetUSDASearch_decodes
           (demoClient
              (cannedTransport 200
                 (json.encodeValue (json.marshal sampleSearch))))
           context.Background None None [] sampleSearch EmptyString
           (http.mkResponse 200 ∅
              (json.encodeValue (json.marshal sampleSearch)))
           _ _
           (builtRequest "demo123" "search" EmptyString ("null" +:+ newline)
              context.Background)
           ltac:(vm_compute; reflexivity) ltac:(vm_compute; reflexivity)
           ltac:(vm_compute; reflexivity) ltac:(vm_compute; reflexivity)).
Defined.

(** ** Options read back by the receiver *)

(** What a receiver reads from the query written for options on an
    endpoint path: [max] and [offset] parse back as the numbers given
    (when they are not zero), a zero field is absent, and [sort] is the
    sort key as given. *)
Theorem options_read_back p opts :
  allBytes isUnreserved p = true ->
  isInt (Max opts) = true -> isInt (Offset opts) = true ->
  exists values,
    addQueryOptions p (Some opts) = (p +:+ queryPart (optionQuery opts), None)
    /\ url.ParseQuery (optionQuery opts) = (values, None)
    /\ (Max opts <> 0%Z ->
        strconv.ParseInt (url.Get "max" values) = Some (Max opts))
    /\ (Max opts = 0%Z -> values !! "max" = None)
    /\ (Offset opts <> 0%Z ->
        strconv.ParseInt (url.Get "offset" values) = Some (Offset opts))
    /\ (Offset opts = 0%Z -> values !! "offset" = None)
    /\ url.Get "sort" values = Sort opts.
Proof.
  intros Hp Hm Ho. exists (optionValues opts).
  split; [now apply addQueryOptions_unreserved|].
  split; [apply ParseQuery_optionQuery|].
  destruct (optionValues_lookup opts) as (Hmax & Hoff & Hsort & _).
  unfold url.Get. rewrite Hmax, Hoff, Hsort.
  split; [|split; [|split; [|split]]].
  - intros Hne. destruct (Z.eqb_spec (Max opts) 0); [contradiction|].
    now apply ParseInt_Itoa, isInt_range.
  - intros ->. reflexivity.
  - intros Hne. destruct (Z.eqb_spec (Offset opts) 0); [contradiction|].
    now apply ParseInt_Itoa, isInt_range.
  - intros ->. reflexivity.
  - destruct (Sort opts) as [|a s]; reflexivity.
Qed.

Lemma options_read_back_witness :
  exists values,
    url.ParseQuery "max=1500&offset=-3&sort=a+b"  = (values, None)
    /\ strconv.ParseInt (url.Get "max" values) = Some 1500%Z
    /\ strconv.ParseInt (url.Get "offset" values) = Some (-3)%Z
    /\ url.Get "sort" values = "a b".
Proof.
  destruct (options_read_back "list" (mkUSDAQueryOptions 1500 (-3) "a b")
              eq_refl eq_refl eq_refl)
    as (values & _ & Hq & Hmax & _ & Hoff & _ & Hsort).
  exists values. split; [exact Hq|].
  split; [apply Hmax; discriminate|].
  split; [apply Hoff; discriminate|exact Hsort].
Defined.

(** * The basic food report of a client with a well-formed key *)

Section BasicFoodReport.

Context {USDAFoodsReport : Type}.
Context `{!json.Unmarshaler USDAFoodsReport}.

(** C8, as the code has it: for a client made by [NewClient] from an
    access key of unreserved bytes, the basic food report for
    ["01009"] sends one request, to the path [V2/reports] under the
    base URL of that key, without a query string, whose body reads as
    [{"ndbno":["01009"],"type":"b"}]. *)
Theorem C8_basic_food_report DefaultClient key hc c ctx w :
  allBytes isUnreserved key = true ->
  NewClient DefaultClient key hc = returned c ->
  exists req,
    snd (GetBasicFoodReport (USDAFoodsReport := USDAFoodsReport)
           c ctx "01009" w) = w ++ [req]
    /\ url.String_ (http.URL req)
       = "https://" +:+ key +:+ "@api.nal.usda.gov/ndb/V2/reports"
    /\ url.Path (http.URL req) = "/ndb/V2/reports"
    /\ url.RawQuery (http.URL req) = EmptyString
    /\ url.ForceQuery (http.URL req) = false
    /\ str.Contains (url.String_ (http.URL req)) "?" = false
    /\ json.readValue (http.Body req)
       = inr (json.Object [("ndbno", json.Array [json.Str "01009"]);
                           ("type", json.Str "b")], newline).
Proof.
  intros Hkey Hc. rewrite (returned_client _ _ _ _ Hkey Hc).
  unfold GetBasicFoodReport. rewrite GetUSDAFoodsReportV2_result.
  rewrite (operationResult_builtPath key _ ctx "V2/reports" _ w Hkey eq_refl).
  rewrite transportResult_wire. eexists. split; [reflexivity|].
  rewrite builtRequest_text by (exact Hkey || reflexivity).
  change (queryPart "") with EmptyString.
  split; [reflexivity|]. split; [reflexivity|]. split; [reflexivity|].
  split; [reflexivity|]. split; [|exact (body_foods "01009")].
  apply (lacks_app "?" "https://"); [reflexivity|].
  apply lacks_app; [|reflexivity].
  now apply (unreserved_lacks key "?").
Qed.

End BasicFoodReport.

(** The theorem at the key ["demo123"], with a transport that fails. *)
Lemma C8_witness :
  exists req,
    snd (GetBasicFoodReport (USDAFoodsReport := USDAList.t)
           (mkUSDAclient demoBaseURL (failingTransport io_EOF))
           context.Background "01009" []) = [req]
    /\ url.String_ (http.URL req)
       = "https://demo123@api.nal.usda.gov/ndb/V2/reports"
    /\ url.Path (http.URL req) = "/ndb/V2/reports"
    /\ url.RawQuery (http.URL req) = EmptyString
    /\ url.ForceQuery (http.URL req) = false
    /\ str.Contains (url.String_ (http.URL req)) "?" = false
    /\ json.readValue (http.Body req)
       = inr (json.Object [("ndbno", json.Array [json.Str "01009"]);
                           ("type", json.Str "b")], newline).
Proof.
  exact (C8_basic_food_report (USDAFoodsReport := USDAList.t)
           (failingTransport io_EOF) "demo123" None
           (mkUSDAclient demoBaseURL (failingTransport io_EOF))
           context.Background []
           ltac:(vm_compute; reflexivity) ltac:(vm_compute; reflexivity)).
Defined.

(** C8 as stated fails for a client whose key holds a question mark:
    with the key ["a?b"] the request of the basic food report has the
    host [a], an empty path, and the rest of the key and of the entry
    point, the path [V2/reports] included, as its query. *)
Lemma C8_counterexample :
  exists c req,
    NewClient (failingTransport io_EOF) "a?b" None = returned c
    /\ snd (GetBasicFoodReport (USDAFoodsReport := USDAList.t)
              c context.Background "01009" []) = [req]
    /\ url.Host (http.URL req) = "a"
    /\ url.Path (http.URL req) = EmptyString
    /\ url.RawQuery (http.URL req) = "b@api.nal.usda.gov/ndb/V2/reports"
    /\ url.String_ (http.URL req) = "https://a?b@api.nal.usda.gov/ndb/V2/reports"
    /\ str.Contains (url.String_ (http.URL req)) "?" = true.
Proof.
  eexists. eexists. split; [vm_compute; reflexivity|].
  split; [vm_compute; reflexivity|].
  repeat split; vm_compute; reflexivity.
Qed.
